(** * https_everywhere/adapter.py: scheme-rewriting transport adapters

    A shallow embedding of the adapters of [https_everywhere/adapter.py] and
    the properties of its specification.

    - Python [str] values are [string]s; [s.startswith(p)], [s[n:]] and
      [s.lower()] are the functions of module [Py].
    - [requests.Response] is a record; its [headers], a
      [CaseInsensitiveDict], is a finite map from the lower-cased header
      name to the pair (name as written, value), as the library stores it.
    - The request handed to [send] is one mutable object: it sits in the
      store next to the state of the network, and a response refers to it
      by its identity.
    - The network ([HTTPAdapter.send], [requests.head], [requests.get]), the
      rule set and the preload list are interfaces; calls either return a
      value or raise ([result]).
    - Logging is left out: it does not take part in any decision. The
      timeouts of the probe show as exceptions of [requests.head] and
      [requests.get].
    - The loop of the probe has no bound in the source; here it runs on
      fuel and answers [None] when the fuel is spent. *)

From stdpp Require Import gmap strings.
From Stdlib Require Import ZArith Ascii String Permutation Lia.

Open Scope string_scope.
Open Scope Z_scope.

(** ** Python strings *)

Module Py.

(** [s.startswith(prefix)] *)
Fixpoint startswith (s prefix : string) {struct prefix} : bool :=
  match prefix with
  | EmptyString => true
  | String c prefix' =>
      match s with
      | EmptyString => false
      | String d s' => if Ascii.eqb d c then startswith s' prefix' else false
      end
  end.

(** [s[n:]] *)
Fixpoint slice_from (n : nat) (s : string) : string :=
  match n, s with
  | O, _ => s
  | S _, EmptyString => EmptyString
  | S n', String _ s' => slice_from n' s'
  end.

(** [c.lower()] on one character: the letters A..Z move to a..z. *)
Definition lower_ascii (c : ascii) : ascii :=
  let n := nat_of_ascii c in
  if (65 <=? n)%nat && (n <=? 90)%nat then ascii_of_nat (n + 32) else c.

(** [s.lower()] *)
Fixpoint lower (s : string) : string :=
  match s with
  | EmptyString => EmptyString
  | String c s' => String (lower_ascii c) (lower s')
  end.

(** Truth value of a [str]: only the empty string is false. *)
Definition truthy (s : string) : bool := negb (String.eqb s "").

End Py.

(** ** Exceptions and results *)

(** The exceptions the adapters can meet, all instances of [Exception].
    [SSLError] and [ConnectTimeout] are subclasses of requests'
    [ConnectionError]; [ReadTimeout] is a [Timeout] only. *)
Inductive exn : Type :=
| ConnectionError
| SSLError
| ConnectTimeout
| ReadTimeout
| MaxRetryError
| HTTPError
| TypeError
| KeyError (key : string)
| RuntimeError (msg : string)
| OtherException (name : string).

(** [isinstance(e, _https_downgrade_exceptions)] for the tuple
    [(requests.exceptions.ConnectionError, urllib3.exceptions.MaxRetryError,
    requests.exceptions.SSLError)] of both upgrade adapters. *)
Definition _https_downgrade_exceptions (e : exn) : bool :=
  match e with
  | ConnectionError | SSLError | ConnectTimeout | MaxRetryError => true
  | _ => false
  end.

Inductive result (A : Type) : Type :=
| Return (a : A)
| Raise (e : exn).
Arguments Return {A} a.
Arguments Raise {A} e.

(** ** requests: case-insensitive headers, [Response], [PreparedRequest] *)

Module CaseInsensitiveDict.

Abbreviation t := (gmap string (string * string)).

(** [d[key] = value] *)
Definition setitem (d : t) (key value : string) : t :=
  <[Py.lower key := (key, value)]> d.

(** [d[key]], that is [self._store[key.lower()][1]] *)
Definition getitem (d : t) (key : string) : result string :=
  match d !! Py.lower key with
  | Some (_, value) => Return value
  | None => Raise (KeyError (Py.lower key))
  end.

(** [d.get(key)] *)
Definition get (d : t) (key : string) : option string :=
  match getitem d key with
  | Return value => Some value
  | Raise _ => None
  end.

End CaseInsensitiveDict.

(** The request object: its identity and its [url], the one attribute the
    adapters read and write. *)
Record Request : Type := {
  req_id : nat;
  url : string
}.

Definition Request_set_url (request : Request) (u : string) : Request :=
  {| req_id := req_id request; url := u |}.

Record Response : Type := {
  headers : CaseInsensitiveDict.t;
  encoding : option string;
  status_code : option Z;
  reason : option string;
  _content : option string;
  resp_url : option string;       (* response.url *)
  resp_request : option nat       (* response.request, by identity *)
}.

(** [requests.Response()] *)
Definition Response_new : Response :=
  {| headers := ∅; encoding := None; status_code := None; reason := None;
     _content := None; resp_url := None; resp_request := None |}.

Definition set_header (r : Response) (key value : string) : Response :=
  {| headers := CaseInsensitiveDict.setitem (headers r) key value;
     encoding := encoding r; status_code := status_code r; reason := reason r;
     _content := _content r; resp_url := resp_url r;
     resp_request := resp_request r |}.

Definition set_encoding (r : Response) (e : string) : Response :=
  {| headers := headers r; encoding := Some e; status_code := status_code r;
     reason := reason r; _content := _content r; resp_url := resp_url r;
     resp_request := resp_request r |}.

Definition set_status_code (r : Response) (code : Z) : Response :=
  {| headers := headers r; encoding := encoding r; status_code := Some code;
     reason := reason r; _content := _content r; resp_url := resp_url r;
     resp_request := resp_request r |}.

Definition set_reason (r : Response) (s : string) : Response :=
  {| headers := headers r; encoding := encoding r;
     status_code := status_code r; reason := Some s; _content := _content r;
     resp_url := resp_url r; resp_request := resp_request r |}.

Definition set_content (r : Response) (s : string) : Response :=
  {| headers := headers r; encoding := encoding r;
     status_code := status_code r; reason := reason r; _content := Some s;
     resp_url := resp_url r; resp_request := resp_request r |}.

(** [response.request = request] *)
Definition set_request (r : Response) (request : Request) : Response :=
  {| headers := headers r; encoding := encoding r;
     status_code := status_code r; reason := reason r; _content := _content r;
     resp_url := resp_url r; resp_request := Some (req_id request) |}.

(** [response.url = u] *)
Definition set_url (r : Response) (u : string) : Response :=
  {| headers := headers r; encoding := encoding r;
     status_code := status_code r; reason := reason r; _content := _content r;
     resp_url := Some u; resp_request := resp_request r |}.

(** [Response.raise_for_status]: [HTTPError] for a status in 400..599; the
    comparison itself fails on a response that never got a status. *)
Definition raise_for_status (r : Response) : result unit :=
  match status_code r with
  | None => Raise TypeError
  | Some c => if (400 <=? c) && (c <? 600) then Raise HTTPError else Return tt
  end.

(** [Response.ok], which is also [Response.__bool__]. *)
Definition ok (r : Response) : result bool :=
  match raise_for_status r with
  | Return _ => Return true
  | Raise HTTPError => Return false
  | Raise e => Raise e
  end.

(** [response.status_code == code] *)
Definition status_code_is (r : Response) (code : Z) : bool :=
  match status_code r with
  | Some c => c =? code
  | None => false
  end.

(** [response.reason != s] *)
Definition reason_differs (r : Response) (s : string) : bool :=
  match reason r with
  | Some s' => negb (String.eqb s' s)
  | None => true
  end.

(** ** adapter.py, module level *)

Definition _REASON : string := "HTTPS Everywhere".

(** [_generate_redirect(location, code=302)] *)
Definition _generate_redirect (location : string) (code : Z) : Response :=
  let r := Response_new in
  let r := set_header r "Location" location in
  let r := set_encoding r "utf8" in
  let r := set_status_code r code in
  let r := set_reason r _REASON in
  let r := set_content r "" in
  r.

(** ** The interfaces the adapters consume *)

(** The network: the state of the world outside, the base class's
    [HTTPAdapter.send] (which reads the request and leaves it as it is), and
    the module-level [requests.head] and [requests.get] of the probe (called
    with [allow_redirects=False] and the head timeout). *)
Class Network : Type := {
  World : Type;
  HTTPAdapter_send : World -> Request -> result Response * World;
  requests_head : World -> string -> result Response * World;
  requests_get : World -> string -> result Response * World
}.

(** [_rules.https_url_rewrite] *)
Class RuleSource : Type := {
  https_url_rewrite : string -> string
}.

(** [_chrome_preload_hsts._preload_including_subdomains], [_util._check_in]
    and the [host] of urllib3's [parse_url], which can refuse a URL. *)
Class PreloadSource : Type := {
  Domains : Type;
  _preload_including_subdomains : Domains;
  parse_url_host : string -> result (option string);
  _check_in : Domains -> option string -> bool
}.

(** ** The store and the monad of [send] *)

Section Adapters.

Context {N : Network}.

Record Store : Type := {
  net : World;
  request : Request
}.

Definition M (A : Type) : Type := Store -> result A * Store.

Definition ret {A} (a : A) : M A := fun s => (Return a, s).

Definition raise {A} (e : exn) : M A := fun s => (Raise e, s).

Definition bind {A B} (c : M A) (k : A -> M B) : M B :=
  fun s =>
    match c s with
    | (Return a, s') => k a s'
    | (Raise e, s') => (Raise e, s')
    end.

(** [try: c  except handled as e: h e] *)
Definition try_except {A} (c : M A) (handled : exn -> bool)
    (h : exn -> M A) : M A :=
  fun s =>
    match c s with
    | (Return a, s') => (Return a, s')
    | (Raise e, s') => if handled e then h e s' else (Raise e, s')
    end.

Definition lift {A} (r : result A) : M A := fun s => (r, s).

(** [request] *)
Definition the_request : M Request := fun s => (Return (request s), s).

(** [request.url] *)
Definition request_url : M string := fun s => (Return (url (request s)), s).

(** [request.url = u] *)
Definition assign_request_url (u : string) : M unit :=
  fun s =>
    (Return tt, {| net := net s; request := Request_set_url (request s) u |}).

(** [super(..., self).send(request, *args, **kwargs)] reaching the base
    class [HTTPAdapter]. *)
Definition HTTPAdapter_send_request : M Response :=
  fun s =>
    let (r, w) := HTTPAdapter_send (net s) (request s) in
    (r, {| net := w; request := request s |}).

End Adapters.

Declare Scope py_scope.
Delimit Scope py_scope with py.
Notation "x <- c ;; k" := (bind c (fun x => k))
  (at level 100, c at next level, right associativity) : py_scope.
Notation "c ;; k" := (bind c (fun _ => k))
  (at level 100, right associativity) : py_scope.
Open Scope py_scope.

(** ** The rule-based and the preload adapters *)

Section RewriteAdapters.

Context {N : Network} {R : RuleSource} {P : PreloadSource}.

(** [HTTPSEverywhereOnlyAdapter.send]; [super_send] is the next [send] of
    the method resolution order. *)
Definition HTTPSEverywhereOnlyAdapter_send (super_send : M Response)
    : M Response :=
  request <- the_request ;;
  let url_ := url request in
  if Py.startswith url_ "http://" then
    let url_ := https_url_rewrite url_ in
    if Py.startswith url_ "https://" then
      let response := _generate_redirect url_ 302 in
      let response := set_request response request in
      let response := set_url response (url request) in
      ret response
    else super_send
  else super_send.

(** [ChromePreloadHSTSAdapter.send], with [self._domains] primed by the
    constructor. *)
Definition ChromePreloadHSTSAdapter_send (super_send : M Response)
    : M Response :=
  request <- the_request ;;
  let url_ := url request in
  if Py.startswith url_ "http://" then
    host <- lift (parse_url_host url_) ;;
    if _check_in _preload_including_subdomains host then
      let new_url := "https:" ++ Py.slice_from 5 url_ in
      let response := _generate_redirect new_url 302 in
      let response := set_request response request in
      let response := set_url response (url request) in
      ret response
    else super_send
  else super_send.

(** [class HTTPSEverywhereAdapter(ChromePreloadHSTSAdapter,
    HTTPSEverywhereOnlyAdapter)]: the preload adapter's [super] is the
    rule adapter, whose [super] is [HTTPAdapter]. *)
Definition HTTPSEverywhereAdapter_send : M Response :=
  ChromePreloadHSTSAdapter_send
    (HTTPSEverywhereOnlyAdapter_send HTTPAdapter_send_request).

End RewriteAdapters.

(** ** RedirectAdapter *)

(** What [get_redirect] may answer: [None], a response, a pair, or a URL. *)
Inductive redirect_answer : Type :=
| AnswerNone
| AnswerResponse (rv : Response)
| AnswerTuple (url_ : string) (code : Z)
| AnswerUrl (url_ : string).

Section RedirectAdapter.

Context {N : Network}.

(** [RedirectAdapter.gen_response(code, headers)] for the one header
    [gen_redirect] passes. *)
Definition gen_response (code : Z) (header : option (string * string))
    : Response :=
  let r := Response_new in
  let r := set_encoding r "utf8" in
  let r := set_status_code r code in
  let r := set_reason r "FAKE REASON" in
  let r := set_content r "" in
  match header with
  | Some (key, value) => set_header r key value
  | None => r
  end.

Definition gen_redirect (location : string) (code : Z) : Response :=
  gen_response code (Some ("Location", location)).

(** [RedirectAdapter.get_redirect] of the class itself: [return]. *)
Definition get_redirect (url_ : string) : redirect_answer := AnswerNone.

(** [RedirectAdapter.handle_error]: log, then [raise exc]. *)
Definition handle_error (exc : exn) : M Response := raise exc.

Definition RedirectAdapter_send
    (get_redirect : string -> redirect_answer) : M Response :=
  request <- the_request ;;
  let after (url_ : option string) (code : Z) : M Response :=
    match url_ with
    | Some u =>
        if Py.truthy u && negb (String.eqb u (url request)) then
          let response := gen_redirect u code in
          let response := set_request response request in
          let response := set_url response (url request) in
          ret response
        else
          try_except HTTPAdapter_send_request (fun _ => true) handle_error
    | None =>
        try_except HTTPAdapter_send_request (fun _ => true) handle_error
    end in
  match get_redirect (url request) with
  | AnswerNone => after None 302
  | AnswerResponse rv =>
      let rv := set_request rv request in
      let rv := set_url rv (url request) in
      ret rv
  | AnswerTuple u code => after (Some u) code
  | AnswerUrl u => after (Some u) 302
  end.

End RedirectAdapter.

(** ** ForceHTTPSAdapter and its subclasses *)

(** The state of a [ForceHTTPSAdapter]: the [https_exclusions] keyword of
    the constructor (default [[]]). *)
Record ForceHTTPSAdapter : Type := {
  _https_exclusions : list string
}.

(** [ForceHTTPSAdapter._prevent_https] *)
Definition _prevent_https (self : ForceHTTPSAdapter) (tail : string) : bool :=
  (fix loop (rules : list string) : bool :=
     match rules with
     | [] => false
     | rule :: rules' => if Py.startswith tail rule then true else loop rules'
     end) (_https_exclusions self).

(** What [_follow_redirects_on_http] returns: [None], a URL or the probe's
    response. *)
Inductive probe_value : Type :=
| PyNone
| PyStr (s : string)
| PyResponse (r : Response).

Definition of_previous_url (previous_url : option string) : probe_value :=
  match previous_url with
  | Some u => PyStr u
  | None => PyNone
  end.

(** One pass through the body of [while True]. *)
Inductive iteration : Type :=
| Returns (v : probe_value)
| Raises (e : exn)
| Continues (previous_url url_ : string).

Section ForceAdapters.

Context {N : Network}.

(** [ForceHTTPSAdapter.send] *)
Definition ForceHTTPSAdapter_send (self : ForceHTTPSAdapter) : M Response :=
  request <- the_request ;;
  if Py.startswith (url request) "https://" then
    let tail := Py.slice_from 8 (url request) in
    if _prevent_https self tail then
      let response := _generate_redirect ("http://" ++ tail) 302 in
      let response := set_request response request in
      let response := set_url response (url request) in
      ret response
    else HTTPAdapter_send_request
  else if Py.startswith (url request) "http://" then
    let tail := Py.slice_from 7 (url request) in
    if negb (_prevent_https self tail) then
      let response := _generate_redirect ("https://" ++ tail) 302 in
      let response := set_request response request in
      let response := set_url response (url request) in
      ret response
    else HTTPAdapter_send_request
  else HTTPAdapter_send_request.

(** The two nested [try] blocks of the probe: HEAD, [raise_for_status],
    and in the handler the GET retry guarded by
    [response and response.status_code == 403]. An exception that leaves
    here is the one the outer [except Exception] catches. *)
Definition probe_request (current_url : string) (w : World)
    : result Response * World :=
  match requests_head w current_url with
  | (Raise e, w1) => (Raise e, w1)           (* response is None: raise *)
  | (Return response, w1) =>
      match raise_for_status response with
      | Return _ => (Return response, w1)
      | Raise e =>
          match ok response with             (* bool(response) *)
          | Raise e' => (Raise e', w1)
          | Return truth =>
              if truth && status_code_is response 403 then
                match requests_get w1 current_url with
                | (Raise e', w2) => (Raise e', w2)
                | (Return response', w2) =>
                    match raise_for_status response' with
                    | Return _ => (Return response', w2)
                    | Raise e' => (Raise e', w2)
                    end
                end
              else (Raise e, w1)             (* raise *)
          end
      end
  end.

(** The body of the loop of [_follow_redirects_on_http]. *)
Definition probe_iteration (self : ForceHTTPSAdapter)
    (previous_url : option string) (url_ : string) (w : World)
    : iteration * World :=
  let current_url := url_ in
  match probe_request current_url w with
  | (Raise e, w') => (Returns (of_previous_url previous_url), w')
  | (Return response, w') =>
      match CaseInsensitiveDict.get (headers response) "location" with
      | None => (Returns (of_previous_url previous_url), w')
      | Some location =>
          if negb (Py.truthy location) || String.eqb location current_url
          then (Returns (of_previous_url previous_url), w')
          else if Py.startswith location "https:" then
            let tail := Py.slice_from 8 location in
            if _prevent_https self tail
            then (Returns (PyStr ("http://" ++ tail)), w')
            else (Returns (PyResponse response), w')
          else if Py.startswith location "http://" then
            (Continues current_url location, w')
          else
            (Raises (RuntimeError
                       (current_url ++ " redirected to " ++ location)), w')
      end
  end.

(** [while True]: [None] when the fuel runs out before the loop ends. *)
Fixpoint probe_loop (self : ForceHTTPSAdapter) (fuel : nat)
    (previous_url : option string) (url_ : string) (w : World)
    : option (result probe_value * World) :=
  match fuel with
  | O => None
  | S fuel' =>
      match probe_iteration self previous_url url_ w with
      | (Returns v, w') => Some (Return v, w')
      | (Raises e, w') => Some (Raise e, w')
      | (Continues previous_url' url', w') =>
          probe_loop self fuel' (Some previous_url') url' w'
      end
  end.

(** [PreferHTTPSAdapter._follow_redirects_on_http] *)
Definition _follow_redirects_on_http (self : ForceHTTPSAdapter)
    (fuel : nat) (url_ : string) (w : World)
    : option (result probe_value * World) :=
  probe_loop self fuel None url_ w.

(** [PreferHTTPSAdapter.send] from the point where the probe has
    returned [redirect]: the test [if redirect:] by the kind of value
    ([None] is false, a [str] is true unless empty, a response is true
    when [ok]), then the synthesized upgrade. *)
Definition PreferHTTPSAdapter_send_probed (url_ : string)
    (redirect : probe_value) : M Response :=
  request <- the_request ;;
  let tail := Py.slice_from 7 url_ in
  let upgrade (tail : string) : M Response :=
    let response := _generate_redirect ("https://" ++ tail) 302 in
    let response := set_request response request in
    let response := set_url response (url request) in
    ret response in
  match redirect with
  | PyNone => upgrade tail
  | PyResponse r =>
      truth <- lift (ok r) ;;
      if (truth : bool) then ret r   (* not isinstance(redirect, str) *)
      else upgrade tail
  | PyStr redirect =>
      if Py.truthy redirect then
        if negb (String.eqb redirect url_) then
          if Py.startswith redirect "http://" then
            let tail := Py.slice_from 7 url_ in
            upgrade tail
          else
            raise (RuntimeError
                     ("Unexpectedly " ++ url_ ++ " redirected to "
                      ++ redirect))
        else upgrade tail
      else upgrade tail
  end.

(** [PreferHTTPSAdapter.send]; its [super] is [ForceHTTPSAdapter]. *)
Definition PreferHTTPSAdapter_send (self : ForceHTTPSAdapter) (fuel : nat)
    (s : Store) : option (result Response * Store) :=
  let url_ := url (request s) in
  if Py.startswith url_ "https://" then
    let tail := Py.slice_from 8 url_ in
    if _prevent_https self tail then
      let response := _generate_redirect ("http://" ++ tail) 302 in
      let response := set_request response (request s) in
      let response := set_url response url_ in
      Some (Return response, s)
    else Some (ForceHTTPSAdapter_send self s)
  else if Py.startswith url_ "http://" then
    let tail := Py.slice_from 7 url_ in
    if negb (_prevent_https self tail) then
      match _follow_redirects_on_http self fuel url_ (net s) with
      | None => None
      | Some (Raise e, w) =>
          Some (Raise e, {| net := w; request := request s |})
      | Some (Return redirect, w) =>
          Some (PreferHTTPSAdapter_send_probed url_ redirect
                  {| net := w; request := request s |})
      end
    else Some (ForceHTTPSAdapter_send self s)
  else Some (ForceHTTPSAdapter_send self s).

(** [UpgradeHTTPSAdapter.send]. The [try] block yields [Some response]
    when it returns and [None] when its handler has run. *)
Definition UpgradeHTTPSAdapter_send (self : ForceHTTPSAdapter)
    : M Response :=
  url_ <- request_url ;;
  if negb (Py.startswith url_ "https://") then
    response <- ForceHTTPSAdapter_send self ;;
    ret response
  else
    attempt <- try_except
                 (response <- ForceHTTPSAdapter_send self ;;
                  ret (Some response))
                 _https_downgrade_exceptions
                 (fun e => ret None) ;;
    match attempt with
    | Some response => ret response
    | None =>
        assign_request_url ("http://" ++ Py.slice_from 8 url_) ;;
        (* skipping base classes including ForceHTTPSAdapter *)
        HTTPAdapter_send_request
    end.

(** [SafeUpgradeHTTPSAdapter.send]. Each block yields [Some response]
    when it returns from [send] and [None] when control goes on. *)
Definition SafeUpgradeHTTPSAdapter_send (self : ForceHTTPSAdapter)
    : M Response :=
  url_ <- request_url ;;
  early <- (if negb (Py.startswith url_ "https://") then
              response <- ForceHTTPSAdapter_send self ;;
              if reason_differs response _REASON then ret (Some response)
              else
                location <- lift (CaseInsensitiveDict.getitem
                                    (headers response) "location") ;;
                assign_request_url location ;;
                ret None
            else ret None) ;;
  match early with
  | Some response => ret response
  | None =>
      attempt <- try_except
                   (response <- ForceHTTPSAdapter_send self ;;
                    match CaseInsensitiveDict.get (headers response)
                            "location" with
                    | None => ret (Some response)
                    | Some redirect =>
                        if negb (Py.truthy redirect)
                           || negb (String.eqb redirect url_)
                        then ret (Some response)
                        else ret None
                    end)
                   _https_downgrade_exceptions
                   (fun e => ret None) ;;
      match attempt with
      | Some response => ret response
      | None =>
          current <- request_url ;;
          assign_request_url ("http://" ++ Py.slice_from 8 current) ;;
          (* skipping base classes including ForceHTTPSAdapter *)
          HTTPAdapter_send_request
      end
  end.

End ForceAdapters.

(** ** Vocabulary of the statements *)

(** The response [send] synthesizes for [request] and [location]:
    [_generate_redirect(location)] with [response.request = request] and
    [response.url = request.url]. *)
Definition synthetic_redirect (location : string) (request : Request)
    : Response :=
  set_url (set_request (_generate_redirect location 302) request)
    (url request).

(** The states the loop of the probe goes through when started at [url0] in
    the world [w0]: [visited] lists the URLs already requested, latest
    first; the loop is about to request [url_] with [previous_url]. *)
Inductive probe_visits `{N : Network} (self : ForceHTTPSAdapter)
    (url0 : string) (w0 : World)
    : list string -> option string -> string -> World -> Prop :=
| probe_visits_start : probe_visits self url0 w0 [] None url0 w0
| probe_visits_next visited previous_url url_ w previous_url' url' w' :
    probe_visits self url0 w0 visited previous_url url_ w ->
    probe_iteration self previous_url url_ w
      = (Continues previous_url' url', w') ->
    probe_visits self url0 w0 (url_ :: visited) (Some previous_url') url' w'.

(** ** Scripted instances of the interfaces, for concrete runs *)

Module Mock.

(** What the network was asked, in order. *)
Inductive call : Type :=
| Sent (u : string)
| Head (u : string)
| Got (u : string).

(** A response as a server would send it. *)
Definition server_response (code : Z) (reason_ : string)
    (hdrs : list (string * string)) : Response :=
  fold_left (fun r kv => set_header r (fst kv) (snd kv)) hdrs
    (set_content (set_reason (set_status_code Response_new code) reason_) "").

(** The scripted answer for [u]; an unknown URL refuses the connection. *)
Fixpoint answer (script : list (string * result Response)) (u : string)
    : result Response :=
  match script with
  | [] => Raise ConnectionError
  | (k, a) :: script' => if String.eqb k u then a else answer script' u
  end.

(** A network that answers [send] from [sends] and the probe's HEAD and
    GET from [probes], and keeps the log of calls as its state. *)
Definition network (sends probes : list (string * result Response))
    : Network :=
  {| World := list call;
     HTTPAdapter_send := fun w request =>
       (answer sends (url request), (w ++ [Sent (url request)])%list);
     requests_head := fun w u => (answer probes u, (w ++ [Head u])%list);
     requests_get := fun w u => (answer probes u, (w ++ [Got u])%list) |}.

(** A rule set with one rule: everything under [http://example.org]
    moves to https. *)
Definition rules : RuleSource :=
  {| https_url_rewrite := fun u =>
       if Py.startswith u "http://example.org"
       then "https://" ++ Py.slice_from 7 u else u |}.

(** The host of [http://host/...]: what follows the scheme, up to the
    first slash. *)
Fixpoint until_slash (s : string) : string :=
  match s with
  | EmptyString => EmptyString
  | String c s' => if Ascii.eqb c "/" then EmptyString
                   else String c (until_slash s')
  end.

(** A preload list of exact hosts. *)
Definition preload (domains : list string) : PreloadSource :=
  {| Domains := list string;
     _preload_including_subdomains := domains;
     parse_url_host := fun u =>
       Return (Some (until_slash (Py.slice_from 7 u)));
     _check_in := fun ds host =>
       match host with
       | Some h => existsb (String.eqb h) ds
       | None => false
       end |}.

Definition request_for (u : string) : Request := {| req_id := 1; url := u |}.

Definition start (N : Network) (w : World) (u : string) : Store :=
  {| net := w; request := request_for u |}.

Definition ok_response : Response := server_response 200 "OK" [].

Definition moved_to (location : string) : Response :=
  server_response 301 "Moved Permanently" [("Location", location)].

Definition no_exclusions : ForceHTTPSAdapter := {| _https_exclusions := [] |}.

(** The exclusion list of the specification's example. *)
Definition api_excluded : ForceHTTPSAdapter :=
  {| _https_exclusions := ["example.com/api"] |}.

Definition example_com_excluded : ForceHTTPSAdapter :=
  {| _https_exclusions := ["example.com"] |}.

(** Servers that answer over both schemes. *)
Definition plain_net : Network :=
  network [("http://example.com/api/x", Return ok_response);
           ("https://example.com/other", Return ok_response);
           ("ftp://example.com/file", Return ok_response)] [].

(** [x.com] refuses https connections and answers over http; [y.com]
    sends https back to http; [z.com] fails on https in a way that is not
    a connection failure. *)
Definition https_down_net : Network :=
  network [("https://x.com/", Raise ConnectionError);
           ("http://x.com/", Return ok_response);
           ("https://y.com/", Return (moved_to "http://y.com/"));
           ("http://y.com/", Return ok_response);
           ("https://z.com/", Raise ReadTimeout);
           ("https://w.com/", Return ok_response)] [].

(** For the probe: [a.com] redirects to [b.com], [b.com] to [c.com],
    which answers without a [Location]. *)
Definition chain_net : Network :=
  network [] [("http://a.com/", Return (moved_to "http://b.com/"));
              ("http://b.com/", Return (moved_to "http://c.com/"));
              ("http://c.com/", Return ok_response)].

(** For the probe, the example of the specification: [a.com] redirects to
    [b.com], which answers without a [Location]. *)
Definition hop_net : Network :=
  network [] [("http://a.com/", Return (moved_to "http://b.com/"));
              ("http://b.com/", Return ok_response)].

(** For the probe: [a.com] redirects to [b.com], which times out. *)
Definition timeout_net : Network :=
  network [] [("http://a.com/", Return (moved_to "http://b.com/"));
              ("http://b.com/", Raise ReadTimeout)].

(** Servers whose reason phrase is the sentinel string, with and without
    a [Location]. *)
Definition sentinel_net : Network :=
  network [("ftp://example.com/file",
            Return (server_response 200 _REASON
                      [("Location", "http://elsewhere.example/")]));
           ("http://example.com/", Return (server_response 200 _REASON []))]
          [].

(** For the probe: [a.com] and [b.com] redirect to each other. *)
Definition pingpong_net : Network :=
  network [] [("http://a.com/", Return (moved_to "http://b.com/"));
              ("http://b.com/", Return (moved_to "http://a.com/"))].

(** For the probe: [a.com] redirects to https on [secure.example]. *)
Definition to_https_net : Network :=
  network [] [("http://a.com/", Return (moved_to "https://secure.example/x"))].

Definition secure_excluded : ForceHTTPSAdapter :=
  {| _https_exclusions := ["secure.example"] |}.

(** [c in s] *)
Fixpoint has_char (c : ascii) (s : string) : bool :=
  match s with
  | EmptyString => false
  | String d s' => if Ascii.eqb d c then true else has_char c s'
  end.

(** A preload list whose URL parser refuses, as urllib3's does, a host with
    an opening bracket and no closing one. *)
Definition strict_preload (domains : list string) : PreloadSource :=
  {| Domains := list string;
     _preload_including_subdomains := domains;
     parse_url_host := fun u =>
       let h := until_slash (Py.slice_from 7 u) in
       if has_char "[" h && negb (has_char "]" h)
       then Raise (OtherException "LocationParseError")
       else Return (Some h);
     _check_in := fun ds host =>
       match host with
       | Some h => existsb (String.eqb h) ds
       | None => false
       end |}.

(** A [get_redirect] that answers the same URL for every request. *)
Definition always_to (location : string) (url_ : string) : redirect_answer :=
  AnswerUrl location.

End Mock.

(** * Properties *)

(** ** Python strings *)

#[local] Arguments String.append !s1 s2 : simpl nomatch.

Lemma startswith_app (p s : string) : Py.startswith (p ++ s) p = true.
Proof.
  induction p as [|c p IH]; simpl; [reflexivity|].
  rewrite Ascii.eqb_refl. exact IH.
Qed.

Lemma slice_from_app (p s : string) :
  Py.slice_from (String.length p) (p ++ s) = s.
Proof. induction p as [|c p IH]; simpl; [destruct s; reflexivity | exact IH]. Qed.

Lemma startswith_slice (s p : string) :
  Py.startswith s p = true -> s = p ++ Py.slice_from (String.length p) s.
Proof.
  revert s. induction p as [|c p IH]; intros s H; simpl in *.
  - destruct s; reflexivity.
  - destruct s as [|d s]; [discriminate|].
    destruct (Ascii.eqb_spec d c) as [->|]; [|discriminate].
    simpl. f_equal. apply IH, H.
Qed.

(** [s.startswith(p)] holds exactly when [s] is [p] followed by something:
    the characters are compared as they are. *)
Lemma startswith_iff (s p : string) :
  Py.startswith s p = true <-> exists rest, s = p ++ rest.
Proof.
  split.
  - intros H. eexists. apply startswith_slice, H.
  - intros [rest ->]. apply startswith_app.
Qed.

(** No URL starts with both schemes: the fifth character differs. *)
Lemma https_not_http (s : string) :
  Py.startswith s "https://" = true -> Py.startswith s "http://" = false.
Proof.
  intros H. apply startswith_slice in H. rewrite H. reflexivity.
Qed.

Lemma http_not_https (s : string) :
  Py.startswith s "http://" = true -> Py.startswith s "https://" = false.
Proof.
  intros H. destruct (Py.startswith s "https://") eqn:E; [|reflexivity].
  apply https_not_http in E. congruence.
Qed.

Lemma truthy_nonempty (s : string) : Py.truthy s = true <-> s <> "".
Proof.
  unfold Py.truthy. destruct (String.eqb_spec s ""); simpl; split; congruence.
Qed.

Lemma slice_from_https (tail : string) :
  Py.slice_from 8 ("https://" ++ tail) = tail.
Proof. reflexivity. Qed.

Lemma slice_from_http (tail : string) :
  Py.slice_from 7 ("http://" ++ tail) = tail.
Proof. reflexivity. Qed.

Lemma https_app_not_http (rest : string) :
  Py.startswith ("https:" ++ rest) "http://" = false.
Proof. reflexivity. Qed.

Lemma http_app_not_https (tail : string) :
  Py.startswith ("http://" ++ tail) "https://" = false.
Proof. reflexivity. Qed.

(** Two http URLs with the same tail are the same URL. *)
Lemma http_tail_inj (a b : string) :
  Py.startswith a "http://" = true ->
  Py.startswith b "http://" = true ->
  "https://" ++ Py.slice_from 7 a = "https://" ++ Py.slice_from 7 b ->
  a = b.
Proof.
  intros Ha Hb E. apply String.app_inj in E.
  apply startswith_slice in Ha, Hb. simpl String.length in Ha, Hb.
  rewrite Ha, Hb, E. reflexivity.
Qed.

#[local] Arguments Py.startswith : simpl never.
#[local] Arguments Py.slice_from : simpl never.

(** ** The exclusion check *)

Lemma _prevent_https_iff (self : ForceHTTPSAdapter) (tail : string) :
  _prevent_https self tail = true <->
  exists rule, rule ∈ _https_exclusions self /\ Py.startswith tail rule = true.
Proof.
  destruct self as [rules]. unfold _prevent_https. simpl.
  induction rules as [|rule rules IH].
  - split; [discriminate|]. intros (r & Hr & _). inversion Hr.
  - destruct (Py.startswith tail rule) eqn:E.
    + split; [|reflexivity]. intros _. exists rule. split; [left|exact E].
    + rewrite IH. split.
      * intros (r & Hr & Hs). exists r. split; [right; exact Hr|exact Hs].
      * intros (r & Hr & Hs). apply elem_of_cons in Hr as [->|Hr];
          [congruence|]. exists r. split; assumption.
Qed.

Lemma _prevent_https_false (self : ForceHTTPSAdapter) (tail : string) :
  _prevent_https self tail = false <->
  forall rule, rule ∈ _https_exclusions self -> Py.startswith tail rule = false.
Proof.
  split.
  - intros H rule Hin. destruct (Py.startswith tail rule) eqn:E; [|reflexivity].
    assert (_prevent_https self tail = true) by (apply _prevent_https_iff; eauto).
    congruence.
  - intros H. destruct (_prevent_https self tail) eqn:E; [|reflexivity].
    apply _prevent_https_iff in E as (rule & Hin & Hs).
    rewrite (H rule Hin) in Hs. discriminate.
Qed.

(** C7: the exclusion check is true exactly when the tail is one of the
    configured prefixes followed by something, character for character:
    [Example.com] is not excluded by the rule [example.com], a rule with a
    trailing slash does not match the tail without it, and two exclusion
    lists with the same rules in another order give the same answer. *)
Theorem _prevent_https_prefix_exact (self : ForceHTTPSAdapter) (tail : string) :
  (_prevent_https self tail = true <->
     exists rule rest, rule ∈ _https_exclusions self /\ tail = rule ++ rest)
  /\ _prevent_https {| _https_exclusions := ["example.com"] |} "Example.com"
     = false
  /\ _prevent_https {| _https_exclusions := ["example.com/"] |} "example.com"
     = false
  /\ (forall self' : ForceHTTPSAdapter,
        _https_exclusions self ≡ₚ _https_exclusions self' ->
        _prevent_https self tail = _prevent_https self' tail).
Proof.
  split; [|split; [reflexivity|split; [reflexivity|]]].
  - rewrite _prevent_https_iff. split.
    + intros (rule & Hin & Hs). apply startswith_iff in Hs as [rest ->]. eauto.
    + intros (rule & rest & Hin & ->). exists rule.
      split; [exact Hin|apply startswith_app].
  - intros self' Hperm.
    destruct (_prevent_https self' tail) eqn:E.
    + apply _prevent_https_iff in E as (rule & Hin & Hs).
      apply _prevent_https_iff. exists rule. split; [|exact Hs].
      rewrite Hperm. exact Hin.
    + apply _prevent_https_false. intros rule Hin.
      rewrite _prevent_https_false in E. apply E. rewrite <- Hperm. exact Hin.
Qed.

Lemma _prevent_https_order_witness :
  _prevent_https {| _https_exclusions := ["a.com"; "example.com/api"] |}
    "example.com/api/x"
  = _prevent_https {| _https_exclusions := ["example.com/api"; "a.com"] |}
      "example.com/api/x".
Proof.
  apply (_prevent_https_prefix_exact
           {| _https_exclusions := ["a.com"; "example.com/api"] |}
           "example.com/api/x").
  simpl. apply perm_swap.
Defined.

(** ** Synthesized responses *)

Lemma getitem_setitem (d : CaseInsensitiveDict.t) (key key' value : string) :
  Py.lower key' = Py.lower key ->
  CaseInsensitiveDict.getitem (CaseInsensitiveDict.setitem d key value) key'
  = Return value.
Proof.
  intros H. unfold CaseInsensitiveDict.getitem, CaseInsensitiveDict.setitem.
  rewrite H, lookup_insert_eq. reflexivity.
Qed.

Lemma synthetic_redirect_location (location : string) (request : Request) :
  CaseInsensitiveDict.getitem (headers (synthetic_redirect location request))
    "location" = Return location.
Proof. apply getitem_setitem. reflexivity. Qed.

Lemma synthetic_redirect_get (location : string) (request : Request)
    (key : string) :
  Py.lower key = "location" ->
  CaseInsensitiveDict.get (headers (synthetic_redirect location request)) key
  = Some location.
Proof.
  intros H. unfold CaseInsensitiveDict.get. simpl.
  rewrite getitem_setitem; [reflexivity|]. rewrite H. reflexivity.
Qed.

(** What a synthesized response shows to its caller. *)
Lemma synthetic_redirect_fields (location : string) (request : Request) :
  CaseInsensitiveDict.getitem (headers (synthetic_redirect location request))
    "Location" = Return location
  /\ status_code (synthetic_redirect location request) = Some 302
  /\ reason (synthetic_redirect location request) = Some _REASON
  /\ resp_url (synthetic_redirect location request) = Some (url request)
  /\ resp_request (synthetic_redirect location request)
     = Some (req_id request).
Proof.
  split; [apply getitem_setitem; reflexivity|]. repeat split.
Qed.

(** ** ForceHTTPSAdapter.send *)

Section ForceHTTPSAdapterProperties.

Context {N : Network}.

Lemma ForceHTTPSAdapter_send_downgrade (self : ForceHTTPSAdapter) (s : Store) :
  Py.startswith (url (request s)) "https://" = true ->
  _prevent_https self (Py.slice_from 8 (url (request s))) = true ->
  ForceHTTPSAdapter_send self s
  = (Return (synthetic_redirect
               ("http://" ++ Py.slice_from 8 (url (request s))) (request s)),
     s).
Proof.
  intros Hs Hp. unfold ForceHTTPSAdapter_send, bind, the_request.
  rewrite Hs, Hp. reflexivity.
Qed.

Lemma ForceHTTPSAdapter_send_upgrade (self : ForceHTTPSAdapter) (s : Store) :
  Py.startswith (url (request s)) "http://" = true ->
  _prevent_https self (Py.slice_from 7 (url (request s))) = false ->
  ForceHTTPSAdapter_send self s
  = (Return (synthetic_redirect
               ("https://" ++ Py.slice_from 7 (url (request s))) (request s)),
     s).
Proof.
  intros Hs Hp. unfold ForceHTTPSAdapter_send, bind, the_request.
  rewrite (http_not_https _ Hs), Hs, Hp. reflexivity.
Qed.

Lemma ForceHTTPSAdapter_send_forward (self : ForceHTTPSAdapter) (s : Store) :
  ~ (Py.startswith (url (request s)) "https://" = true
     /\ _prevent_https self (Py.slice_from 8 (url (request s))) = true) ->
  ~ (Py.startswith (url (request s)) "http://" = true
     /\ _prevent_https self (Py.slice_from 7 (url (request s))) = false) ->
  ForceHTTPSAdapter_send self s = HTTPAdapter_send_request s.
Proof.
  intros H1 H2. unfold ForceHTTPSAdapter_send, bind, the_request.
  destruct (Py.startswith (url (request s)) "https://") eqn:Es.
  - destruct (_prevent_https self (Py.slice_from 8 _)) eqn:Ep;
      [exfalso; apply H1; split; reflexivity | reflexivity].
  - destruct (Py.startswith (url (request s)) "http://") eqn:Eh;
      [|reflexivity].
    destruct (_prevent_https self (Py.slice_from 7 _)) eqn:Ep;
      [reflexivity | exfalso; apply H2; split; reflexivity].
Qed.

Lemma ForceHTTPSAdapter_send_https_allowed (self : ForceHTTPSAdapter)
    (s : Store) (tail : string) :
  url (request s) = "https://" ++ tail ->
  _prevent_https self tail = false ->
  ForceHTTPSAdapter_send self s = HTTPAdapter_send_request s.
Proof.
  intros Hu Hp. apply ForceHTTPSAdapter_send_forward; rewrite Hu.
  - rewrite slice_from_https. intros [_ H]. congruence.
  - intros [H _]. discriminate H.
Qed.

Lemma ForceHTTPSAdapter_send_http_excluded (self : ForceHTTPSAdapter)
    (s : Store) (tail : string) :
  url (request s) = "http://" ++ tail ->
  _prevent_https self tail = true ->
  ForceHTTPSAdapter_send self s = HTTPAdapter_send_request s.
Proof.
  intros Hu Hp. apply ForceHTTPSAdapter_send_forward; rewrite Hu.
  - intros [H _]. discriminate H.
  - rewrite slice_from_http. intros [_ H]. congruence.
Qed.

(** The force layer never touches the request. *)
Lemma ForceHTTPSAdapter_send_request (self : ForceHTTPSAdapter) (s : Store) :
  request (snd (ForceHTTPSAdapter_send self s)) = request s.
Proof.
  unfold ForceHTTPSAdapter_send, bind, the_request, HTTPAdapter_send_request.
  repeat match goal with
         | |- context [if ?b then _ else _] => destruct b
         | |- context [let (_, _) := ?p in _] => destruct p
         end; reflexivity.
Qed.

(** C1: [ForceHTTPSAdapter.send] answers an https URL whose tail is
    excluded, without calling the transport, with a response whose
    [Location] is [http://] + tail; it answers an http URL whose tail is
    not excluded with a response whose [Location] is [https://] + tail;
    both carry the status 302, the sentinel reason, the URL of the request
    as [url] and the request itself. Every other request goes to the
    transport as it is. *)
Theorem ForceHTTPSAdapter_send_cases (self : ForceHTTPSAdapter) (s : Store) :
  let u := url (request s) in
  (Py.startswith u "https://" = true ->
   _prevent_https self (Py.slice_from 8 u) = true ->
   exists response,
     ForceHTTPSAdapter_send self s = (Return response, s)
     /\ CaseInsensitiveDict.getitem (headers response) "Location"
        = Return ("http://" ++ Py.slice_from 8 u)
     /\ status_code response = Some 302
     /\ reason response = Some _REASON
     /\ resp_url response = Some u
     /\ resp_request response = Some (req_id (request s)))
  /\ (Py.startswith u "http://" = true ->
      _prevent_https self (Py.slice_from 7 u) = false ->
      exists response,
        ForceHTTPSAdapter_send self s = (Return response, s)
        /\ CaseInsensitiveDict.getitem (headers response) "Location"
           = Return ("https://" ++ Py.slice_from 7 u)
        /\ status_code response = Some 302
        /\ reason response = Some _REASON
        /\ resp_url response = Some u
        /\ resp_request response = Some (req_id (request s)))
  /\ (~ (Py.startswith u "https://" = true
         /\ _prevent_https self (Py.slice_from 8 u) = true) ->
      ~ (Py.startswith u "http://" = true
         /\ _prevent_https self (Py.slice_from 7 u) = false) ->
      ForceHTTPSAdapter_send self s = HTTPAdapter_send_request s).
Proof.
  intros u. subst u. split; [|split].
  - intros Hs Hp. eexists. split.
    + apply ForceHTTPSAdapter_send_downgrade; assumption.
    + apply synthetic_redirect_fields.
  - intros Hs Hp. eexists. split.
    + apply ForceHTTPSAdapter_send_upgrade; assumption.
    + apply synthetic_redirect_fields.
  - apply ForceHTTPSAdapter_send_forward.
Qed.

End ForceHTTPSAdapterProperties.

(** ** The rule-based adapter *)

Section RuleAdapterProperties.

Context {N : Network} {R : RuleSource}.

Lemma HTTPSEverywhereOnlyAdapter_send_match (super_send : M Response)
    (s : Store) :
  Py.startswith (url (request s)) "http://" = true ->
  Py.startswith (https_url_rewrite (url (request s))) "https://" = true ->
  HTTPSEverywhereOnlyAdapter_send super_send s
  = (Return (synthetic_redirect (https_url_rewrite (url (request s)))
               (request s)), s).
Proof.
  intros H1 H2. unfold HTTPSEverywhereOnlyAdapter_send, bind, the_request.
  rewrite H1, H2. reflexivity.
Qed.

Lemma HTTPSEverywhereOnlyAdapter_send_pass (super_send : M Response)
    (s : Store) :
  Py.startswith (url (request s)) "http://" = false
  \/ Py.startswith (https_url_rewrite (url (request s))) "https://" = false ->
  HTTPSEverywhereOnlyAdapter_send super_send s = super_send s.
Proof.
  intros H. unfold HTTPSEverywhereOnlyAdapter_send, bind, the_request.
  destruct (Py.startswith (url (request s)) "http://"); [|reflexivity].
  destruct H as [H|H]; [discriminate|]. rewrite H. reflexivity.
Qed.

(** C6: when the request URL starts with [http://] and the rule set
    rewrites it to a URL that starts with [https://], the rule adapter
    answers, without calling the next layer, with a response whose
    [Location] is the rewritten URL, whose status is 302, whose reason is
    the sentinel and whose [url] is the URL of the request as it came in;
    otherwise it hands the request to the next layer as it is. *)
Theorem HTTPSEverywhereOnlyAdapter_send_rewrite (super_send : M Response)
    (s : Store) :
  let u := url (request s) in
  let u' := https_url_rewrite u in
  (Py.startswith u "http://" = true ->
   Py.startswith u' "https://" = true ->
   exists response,
     HTTPSEverywhereOnlyAdapter_send super_send s = (Return response, s)
     /\ CaseInsensitiveDict.getitem (headers response) "Location" = Return u'
     /\ status_code response = Some 302
     /\ reason response = Some _REASON
     /\ resp_url response = Some u
     /\ resp_request response = Some (req_id (request s)))
  /\ (Py.startswith u "http://" = false
      \/ Py.startswith u' "https://" = false ->
      HTTPSEverywhereOnlyAdapter_send super_send s = super_send s).
Proof.
  intros u u'. subst u u'. split.
  - intros H1 H2. eexists. split.
    + apply HTTPSEverywhereOnlyAdapter_send_match; assumption.
    + split; [apply getitem_setitem; reflexivity|]. repeat split.
  - apply HTTPSEverywhereOnlyAdapter_send_pass.
Qed.

End RuleAdapterProperties.

(** ** The fallback adapters *)

Section FallbackProperties.

Context {N : Network}.

Lemma HTTPAdapter_send_request_request (s : Store) :
  request (snd (HTTPAdapter_send_request s)) = request s.
Proof.
  unfold HTTPAdapter_send_request.
  destruct (HTTPAdapter_send (net s) (request s)). reflexivity.
Qed.

(** C4: for a request whose URL starts with [https://],
    [UpgradeHTTPSAdapter.send] answers a categorized failure of the
    forced send by setting the URL of the request to [http://] + tail and
    calling the transport itself (not the force layer) with it, and lets
    any other exception through as it is; a request whose URL does not
    start with [https://] goes to the force layer, whose outcome, return
    or exception, is the outcome of [send]. *)
Theorem UpgradeHTTPSAdapter_send_fallback (self : ForceHTTPSAdapter)
    (s : Store) :
  let u := url (request s) in
  (Py.startswith u "https://" = true ->
   forall (e : exn) (s1 : Store),
     ForceHTTPSAdapter_send self s = (Raise e, s1) ->
     (_https_downgrade_exceptions e = true ->
      let s2 := {| net := net s1;
                   request := Request_set_url (request s)
                                ("http://" ++ Py.slice_from 8 u) |} in
      UpgradeHTTPSAdapter_send self s = HTTPAdapter_send_request s2
      /\ url (request (snd (UpgradeHTTPSAdapter_send self s)))
         = "http://" ++ Py.slice_from 8 u)
     /\ (_https_downgrade_exceptions e = false ->
         UpgradeHTTPSAdapter_send self s = (Raise e, s1)))
  /\ (Py.startswith u "https://" = false ->
      UpgradeHTTPSAdapter_send self s = ForceHTTPSAdapter_send self s).
Proof.
  intros u. subst u. split.
  - intros Hs e s1 Hf.
    pose proof (ForceHTTPSAdapter_send_request self s) as Hr.
    rewrite Hf in Hr. simpl in Hr.
    assert (Hcat : _https_downgrade_exceptions e = true ->
              UpgradeHTTPSAdapter_send self s
              = HTTPAdapter_send_request
                  {| net := net s1;
                     request := Request_set_url (request s)
                       ("http://" ++ Py.slice_from 8 (url (request s))) |}).
    { intros He.
      unfold UpgradeHTTPSAdapter_send, bind, try_except, request_url.
      rewrite Hs. simpl. unfold bind. rewrite Hf, He. simpl.
      unfold assign_request_url. rewrite Hr. reflexivity. }
    split.
    + intros He. simpl. split; [apply Hcat, He|].
      rewrite (Hcat He), HTTPAdapter_send_request_request. reflexivity.
    + intros He.
      unfold UpgradeHTTPSAdapter_send, bind, try_except, request_url.
      rewrite Hs. simpl. unfold bind. rewrite Hf, He. reflexivity.
  - intros Hs.
    unfold UpgradeHTTPSAdapter_send, bind, request_url.
    rewrite Hs. simpl.
    destruct (ForceHTTPSAdapter_send self s) as [[r|e] s']; reflexivity.
Qed.

End FallbackProperties.

Section SafeUpgradeProperties.

Context {N : Network}.

Lemma reason_differs_sentinel (r : Response) :
  reason r = Some _REASON -> reason_differs r _REASON = false.
Proof. intros H. unfold reason_differs. rewrite H. reflexivity. Qed.

(** [send] on a request that is not https, once the first send has
    answered with the sentinel reason and a [Location]: the request is
    sent again with that URL, and what follows depends on that second
    send alone. *)

Lemma SafeUpgrade_follow_return (self : ForceHTTPSAdapter) (s s1 s2 : Store)
    (r1 r2 : Response) (loc : string) :
  Py.startswith (url (request s)) "https://" = false ->
  ForceHTTPSAdapter_send self s = (Return r1, s1) ->
  reason r1 = Some _REASON ->
  CaseInsensitiveDict.getitem (headers r1) "location" = Return loc ->
  ForceHTTPSAdapter_send self
    {| net := net s1; request := Request_set_url (request s) loc |}
  = (Return r2, s2) ->
  (CaseInsensitiveDict.get (headers r2) "location" = None
   \/ exists l, CaseInsensitiveDict.get (headers r2) "location" = Some l
                /\ l <> url (request s)) ->
  SafeUpgradeHTTPSAdapter_send self s = (Return r2, s2).
Proof.
  intros Hs H1 Hr Hl H2 Hloc.
  pose proof (ForceHTTPSAdapter_send_request self s) as Hq.
  rewrite H1 in Hq. simpl in Hq.
  unfold SafeUpgradeHTTPSAdapter_send, bind, try_except, request_url, lift,
    assign_request_url, ret.
  rewrite Hs. simpl. rewrite H1, (reason_differs_sentinel _ Hr), Hl.
  simpl. rewrite Hq, H2.
  destruct Hloc as [-> | (l & -> & Hne)]; [reflexivity|].
  destruct (String.eqb_spec l (url (request s))); [contradiction|].
  simpl. rewrite orb_true_r. reflexivity.
Qed.

Lemma SafeUpgrade_follow_self_redirect (self : ForceHTTPSAdapter)
    (s s1 s2 : Store) (r1 r2 : Response) (loc : string) :
  Py.startswith (url (request s)) "https://" = false ->
  ForceHTTPSAdapter_send self s = (Return r1, s1) ->
  reason r1 = Some _REASON ->
  CaseInsensitiveDict.getitem (headers r1) "location" = Return loc ->
  ForceHTTPSAdapter_send self
    {| net := net s1; request := Request_set_url (request s) loc |}
  = (Return r2, s2) ->
  CaseInsensitiveDict.get (headers r2) "location" = Some (url (request s)) ->
  url (request s) <> "" ->
  SafeUpgradeHTTPSAdapter_send self s
  = HTTPAdapter_send_request
      {| net := net s2;
         request := Request_set_url (request s)
                      ("http://" ++ Py.slice_from 8 loc) |}.
Proof.
  intros Hs H1 Hr Hl H2 Hloc Hne.
  pose proof (ForceHTTPSAdapter_send_request self s) as Hq.
  rewrite H1 in Hq. simpl in Hq.
  pose proof (ForceHTTPSAdapter_send_request self
                {| net := net s1;
                   request := Request_set_url (request s) loc |}) as Hq2.
  rewrite H2 in Hq2. simpl in Hq2.
  unfold SafeUpgradeHTTPSAdapter_send, bind, try_except, request_url, lift,
    assign_request_url, ret.
  rewrite Hs. simpl. rewrite H1, (reason_differs_sentinel _ Hr), Hl.
  simpl. rewrite Hq, H2, Hloc, String.eqb_refl.
  apply truthy_nonempty in Hne. rewrite Hne. simpl.
  rewrite Hq2. reflexivity.
Qed.

Lemma SafeUpgrade_follow_failure (self : ForceHTTPSAdapter)
    (s s1 s2 : Store) (r1 : Response) (loc : string) (e : exn) :
  Py.startswith (url (request s)) "https://" = false ->
  ForceHTTPSAdapter_send self s = (Return r1, s1) ->
  reason r1 = Some _REASON ->
  CaseInsensitiveDict.getitem (headers r1) "location" = Return loc ->
  ForceHTTPSAdapter_send self
    {| net := net s1; request := Request_set_url (request s) loc |}
  = (Raise e, s2) ->
  (_https_downgrade_exceptions e = true ->
   SafeUpgradeHTTPSAdapter_send self s
   = HTTPAdapter_send_request
       {| net := net s2;
          request := Request_set_url (request s)
                       ("http://" ++ Py.slice_from 8 loc) |})
  /\ (_https_downgrade_exceptions e = false ->
      SafeUpgradeHTTPSAdapter_send self s = (Raise e, s2)).
Proof.
  intros Hs H1 Hr Hl H2.
  pose proof (ForceHTTPSAdapter_send_request self s) as Hq.
  rewrite H1 in Hq. simpl in Hq.
  pose proof (ForceHTTPSAdapter_send_request self
                {| net := net s1;
                   request := Request_set_url (request s) loc |}) as Hq2.
  rewrite H2 in Hq2. simpl in Hq2.
  split; intros He;
    unfold SafeUpgradeHTTPSAdapter_send, bind, try_except, request_url, lift,
      assign_request_url, ret;
    rewrite Hs; simpl; rewrite H1, (reason_differs_sentinel _ Hr), Hl;
    simpl; rewrite Hq, H2, He; simpl; [rewrite Hq2|]; reflexivity.
Qed.

(** [send] on an https request: the forced send is the first send. *)

Lemma SafeUpgrade_https_self_redirect (self : ForceHTTPSAdapter)
    (s s2 : Store) (r2 : Response) :
  Py.startswith (url (request s)) "https://" = true ->
  ForceHTTPSAdapter_send self s = (Return r2, s2) ->
  CaseInsensitiveDict.get (headers r2) "location" = Some (url (request s)) ->
  SafeUpgradeHTTPSAdapter_send self s
  = HTTPAdapter_send_request
      {| net := net s2;
         request := Request_set_url (request s)
                      ("http://" ++ Py.slice_from 8 (url (request s))) |}.
Proof.
  intros Hs H2 Hloc.
  pose proof (ForceHTTPSAdapter_send_request self s) as Hq.
  rewrite H2 in Hq. simpl in Hq.
  assert (Hne : Py.truthy (url (request s)) = true).
  { apply startswith_slice in Hs. rewrite Hs. reflexivity. }
  unfold SafeUpgradeHTTPSAdapter_send, bind, try_except, request_url, lift,
    assign_request_url, ret.
  rewrite Hs. simpl. rewrite H2, Hloc, String.eqb_refl, Hne. simpl.
  rewrite Hq. reflexivity.
Qed.

Lemma SafeUpgrade_https_failure (self : ForceHTTPSAdapter)
    (s s2 : Store) (e : exn) :
  Py.startswith (url (request s)) "https://" = true ->
  ForceHTTPSAdapter_send self s = (Raise e, s2) ->
  _https_downgrade_exceptions e = true ->
  SafeUpgradeHTTPSAdapter_send self s
  = HTTPAdapter_send_request
      {| net := net s2;
         request := Request_set_url (request s)
                      ("http://" ++ Py.slice_from 8 (url (request s))) |}.
Proof.
  intros Hs H2 He.
  pose proof (ForceHTTPSAdapter_send_request self s) as Hq.
  rewrite H2 in Hq. simpl in Hq.
  unfold SafeUpgradeHTTPSAdapter_send, bind, try_except, request_url, lift,
    assign_request_url, ret.
  rewrite Hs. simpl. rewrite H2, He. simpl. rewrite Hq. reflexivity.
Qed.

(** C5: on a request that is not https, when the first send answers with
    the sentinel reason and a [Location], [SafeUpgradeHTTPSAdapter.send]
    sets the URL of the request to that [Location] and sends it through
    the force layer once more before any fallback: the answer to that
    second send is the result of [send] when its [Location] is absent or
    differs from the original URL. When the answer of the forced send
    carries a [Location] equal to the original URL, [send] sets the URL
    to [http://] + tail of the URL just sent and calls the transport
    itself, which is exactly what it does when the forced send raises a
    categorized failure; the same holds when the original request is
    https and the forced send is the first one. (A request with an empty
    URL is left aside: the adapter's test [not redirect] never takes an
    empty [Location] for a self-redirect.) In particular, for an http URL
    that is not excluded, the first answer is the synthesized upgrade, the
    second send reaches the transport with [https://] + tail, and the
    fallback calls it with [http://] + tail. *)
Theorem SafeUpgradeHTTPSAdapter_send_follow_then_fallback
    (self : ForceHTTPSAdapter) (s : Store) :
  let u := url (request s) in
  (Py.startswith u "https://" = false ->
   forall (r1 : Response) (s1 : Store) (loc : string),
     ForceHTTPSAdapter_send self s = (Return r1, s1) ->
     reason r1 = Some _REASON ->
     CaseInsensitiveDict.getitem (headers r1) "location" = Return loc ->
     let resend :=
       {| net := net s1; request := Request_set_url (request s) loc |} in
     let fallback (w : World) :=
       HTTPAdapter_send_request
         {| net := w;
            request := Request_set_url (request s)
                         ("http://" ++ Py.slice_from 8 loc) |} in
     (forall (r2 : Response) (s2 : Store),
        ForceHTTPSAdapter_send self resend = (Return r2, s2) ->
        (CaseInsensitiveDict.get (headers r2) "location" = None
         \/ exists l,
              CaseInsensitiveDict.get (headers r2) "location" = Some l
              /\ l <> u) ->
        SafeUpgradeHTTPSAdapter_send self s = (Return r2, s2))
     /\ (forall (r2 : Response) (s2 : Store),
           ForceHTTPSAdapter_send self resend = (Return r2, s2) ->
           CaseInsensitiveDict.get (headers r2) "location" = Some u ->
           u <> "" ->
           SafeUpgradeHTTPSAdapter_send self s = fallback (net s2))
     /\ (forall (e : exn) (s2 : Store),
           ForceHTTPSAdapter_send self resend = (Raise e, s2) ->
           _https_downgrade_exceptions e = true ->
           SafeUpgradeHTTPSAdapter_send self s = fallback (net s2)))
  /\ (Py.startswith u "https://" = true ->
      let fallback (w : World) :=
        HTTPAdapter_send_request
          {| net := w;
             request := Request_set_url (request s)
                          ("http://" ++ Py.slice_from 8 u) |} in
      (forall (r2 : Response) (s2 : Store),
         ForceHTTPSAdapter_send self s = (Return r2, s2) ->
         CaseInsensitiveDict.get (headers r2) "location" = Some u ->
         SafeUpgradeHTTPSAdapter_send self s = fallback (net s2))
      /\ (forall (e : exn) (s2 : Store),
            ForceHTTPSAdapter_send self s = (Raise e, s2) ->
            _https_downgrade_exceptions e = true ->
            SafeUpgradeHTTPSAdapter_send self s = fallback (net s2)))
  /\ (Py.startswith u "http://" = true ->
      _prevent_https self (Py.slice_from 7 u) = false ->
      let resend :=
        {| net := net s;
           request := Request_set_url (request s)
                        ("https://" ++ Py.slice_from 7 u) |} in
      let fallback (w : World) :=
        HTTPAdapter_send_request
          {| net := w;
             request := Request_set_url (request s)
                          ("http://" ++ Py.slice_from 7 u) |} in
      (forall (r2 : Response) (s2 : Store),
         HTTPAdapter_send_request resend = (Return r2, s2) ->
         (CaseInsensitiveDict.get (headers r2) "location" = None
          \/ exists l,
               CaseInsensitiveDict.get (headers r2) "location" = Some l
               /\ l <> u) ->
         SafeUpgradeHTTPSAdapter_send self s = (Return r2, s2))
      /\ (forall (r2 : Response) (s2 : Store),
            HTTPAdapter_send_request resend = (Return r2, s2) ->
            CaseInsensitiveDict.get (headers r2) "location" = Some u ->
            SafeUpgradeHTTPSAdapter_send self s = fallback (net s2))
      /\ (forall (e : exn) (s2 : Store),
            HTTPAdapter_send_request resend = (Raise e, s2) ->
            _https_downgrade_exceptions e = true ->
            SafeUpgradeHTTPSAdapter_send self s = fallback (net s2))).
Proof.
  intros u. subst u. split; [|split].
  - intros Hs r1 s1 loc H1 Hr Hl resend fallback. subst resend fallback.
    split; [|split].
    + intros r2 s2 H2 Hloc. eapply SafeUpgrade_follow_return; eassumption.
    + intros r2 s2 H2 Hloc Hne.
      eapply SafeUpgrade_follow_self_redirect; eassumption.
    + intros e s2 H2 He.
      eapply SafeUpgrade_follow_failure; eassumption.
  - intros Hs fallback. subst fallback. split.
    + intros r2 s2 H2 Hloc.
      eapply SafeUpgrade_https_self_redirect; eassumption.
    + intros e s2 H2 He. eapply SafeUpgrade_https_failure; eassumption.
  - intros Hh Hp resend fallback. subst fallback.
    pose proof (http_not_https _ Hh) as Hs.
    pose proof (ForceHTTPSAdapter_send_upgrade self s Hh Hp) as H1.
    assert (Hf : ForceHTTPSAdapter_send self resend
                 = HTTPAdapter_send_request resend).
    { apply (ForceHTTPSAdapter_send_https_allowed self resend
               (Py.slice_from 7 (url (request s)))); [reflexivity|exact Hp]. }
    assert (Hne : url (request s) <> "").
    { intros E. rewrite E in Hh. discriminate Hh. }
    rewrite <- Hf.
    set (location := "https://" ++ Py.slice_from 7 (url (request s))) in *.
    pose proof (synthetic_redirect_location location (request s)) as Hl.
    split; [|split].
    + intros r2 s2 H2 Hloc.
      exact (SafeUpgrade_follow_return self s s s2 _ r2 location
               Hs H1 eq_refl Hl H2 Hloc).
    + intros r2 s2 H2 Hloc.
      exact (SafeUpgrade_follow_self_redirect self s s s2 _ r2 location
               Hs H1 eq_refl Hl H2 Hloc Hne).
    + intros e s2 H2 He.
      exact (proj1 (SafeUpgrade_follow_failure self s s s2 _ location e
                      Hs H1 eq_refl Hl H2) He).
Qed.

End SafeUpgradeProperties.

(** ** The probe of PreferHTTPSAdapter *)

Section ProbeProperties.

Context {N : Network}.

Lemma probe_iteration_continues (self : ForceHTTPSAdapter)
    (previous_url : option string) (url_ : string) (w : World)
    (previous_url' url' : string) (w' : World) :
  probe_iteration self previous_url url_ w
  = (Continues previous_url' url', w') ->
  previous_url' = url_.
Proof.
  unfold probe_iteration.
  destruct (probe_request url_ w) as [[response|e] w1]; [|discriminate].
  destruct (CaseInsensitiveDict.get (headers response) "location")
    as [location|]; [|discriminate].
  destruct (negb (Py.truthy location) || String.eqb location url_);
    [discriminate|].
  destruct (Py.startswith location "https:").
  - destruct (_prevent_https self (Py.slice_from 8 location)); discriminate.
  - destruct (Py.startswith location "http://"); [|discriminate].
    intros H. injection H as <- _ _. reflexivity.
Qed.

(** An exception leaves one pass of the loop only after a request that
    succeeded, when its [Location] has neither scheme. *)
Lemma probe_iteration_raises (self : ForceHTTPSAdapter)
    (previous_url : option string) (url_ : string) (w : World)
    (e : exn) (w' : World) :
  probe_iteration self previous_url url_ w = (Raises e, w') ->
  exists response location,
    probe_request url_ w = (Return response, w')
    /\ CaseInsensitiveDict.get (headers response) "location" = Some location
    /\ Py.startswith location "https:" = false
    /\ Py.startswith location "http://" = false
    /\ e = RuntimeError (url_ ++ " redirected to " ++ location).
Proof.
  unfold probe_iteration.
  destruct (probe_request url_ w) as [[response|e'] w1] eqn:Er;
    [|discriminate].
  destruct (CaseInsensitiveDict.get (headers response) "location")
    as [location|] eqn:El; [|discriminate].
  destruct (negb (Py.truthy location) || String.eqb location url_);
    [discriminate|].
  destruct (Py.startswith location "https:") eqn:E1.
  - destruct (_prevent_https self (Py.slice_from 8 location)); discriminate.
  - destruct (Py.startswith location "http://") eqn:E2; [discriminate|].
    intros H. injection H as <- <-. exists response, location.
    repeat split; assumption.
Qed.

Lemma probe_request_head_raises (url_ : string) (w w' : World) (e : exn) :
  requests_head w url_ = (Raise e, w') ->
  probe_request url_ w = (Raise e, w').
Proof. intros H. unfold probe_request. rewrite H. reflexivity. Qed.

Lemma probe_iteration_failure (self : ForceHTTPSAdapter)
    (previous_url : option string) (url_ : string) (w : World)
    (e : exn) (w' : World) :
  probe_request url_ w = (Raise e, w') ->
  probe_iteration self previous_url url_ w
  = (Returns (of_previous_url previous_url), w').
Proof. intros H. unfold probe_iteration. rewrite H. reflexivity. Qed.

Lemma probe_iteration_no_redirect (self : ForceHTTPSAdapter)
    (previous_url : option string) (url_ : string) (w : World)
    (response : Response) (w' : World) :
  probe_request url_ w = (Return response, w') ->
  CaseInsensitiveDict.get (headers response) "location" = None
  \/ CaseInsensitiveDict.get (headers response) "location" = Some url_ ->
  probe_iteration self previous_url url_ w
  = (Returns (of_previous_url previous_url), w').
Proof.
  intros H [Hl|Hl]; unfold probe_iteration; rewrite H, Hl; [reflexivity|].
  rewrite String.eqb_refl, orb_true_r. reflexivity.
Qed.

Lemma probe_visits_previous (self : ForceHTTPSAdapter) (url0 : string)
    (w0 : World) (visited : list string) (previous_url : option string)
    (url_ : string) (w : World) :
  probe_visits self url0 w0 visited previous_url url_ w ->
  previous_url = head visited.
Proof.
  intros H. destruct H as [|visited p u w p' u' w' _ Hi]; [reflexivity|].
  apply probe_iteration_continues in Hi. subst p'. reflexivity.
Qed.

(** After the redirects in [visited] the loop is where [probe_visits]
    says, with [List.length visited] units of fuel spent. *)
Lemma probe_loop_visits (self : ForceHTTPSAdapter) (url0 : string)
    (w0 : World) (visited : list string) (previous_url : option string)
    (url_ : string) (w : World) :
  probe_visits self url0 w0 visited previous_url url_ w ->
  forall fuel : nat,
    probe_loop self (List.length visited + fuel) None url0 w0
    = probe_loop self fuel previous_url url_ w.
Proof.
  induction 1 as [|visited p u w p' u' w' _ IH Hi]; intros fuel;
    [reflexivity|].
  replace (List.length (u :: visited) + fuel)%nat
    with (List.length visited + S fuel)%nat by (simpl; lia).
  rewrite IH. simpl. rewrite Hi. reflexivity.
Qed.

Lemma probe_loop_raises (self : ForceHTTPSAdapter) (fuel : nat) :
  forall (previous_url : option string) (url_ : string) (w : World)
         (e : exn) (w' : World),
    probe_loop self fuel previous_url url_ w = Some (Raise e, w') ->
    exists (current_url : string) (w1 : World) (response : Response)
           (location : string),
      probe_request current_url w1 = (Return response, w')
      /\ CaseInsensitiveDict.get (headers response) "location"
         = Some location
      /\ Py.startswith location "https:" = false
      /\ Py.startswith location "http://" = false
      /\ e = RuntimeError (current_url ++ " redirected to " ++ location).
Proof.
  induction fuel as [|fuel IH]; intros previous_url url_ w e w' H;
    [discriminate|].
  simpl in H.
  destruct (probe_iteration self previous_url url_ w) as [[v|e'|p u] w1]
    eqn:Hi.
  - discriminate.
  - injection H as <- <-.
    apply probe_iteration_raises in Hi as (response & location & Hi).
    exists url_, w, response, location. exact Hi.
  - eapply IH, H.
Qed.

(** C2: wherever the loop of the probe has arrived, if the request it
    makes there raises (the HEAD itself, by an error or a timeout, or the
    whole attempt, by a refused status), or succeeds with no [Location] or
    with the [Location] it has just requested, the probe terminates (any
    fuel beyond the redirects already followed is enough) and returns the
    URL requested in the pass before, [None] in the first pass. And when
    the probe raises, the exception is the [RuntimeError] of a redirect to
    another scheme, raised after a request that succeeded: never an error
    of the transport. *)
Theorem probe_returns_previous_url (self : ForceHTTPSAdapter)
    (url0 : string) (w0 : World) (visited : list string)
    (previous_url : option string) (url_ : string) (w w' : World) :
  probe_visits self url0 w0 visited previous_url url_ w ->
  (exists e, requests_head w url_ = (Raise e, w'))
  \/ (exists e, probe_request url_ w = (Raise e, w'))
  \/ (exists response,
        probe_request url_ w = (Return response, w')
        /\ (CaseInsensitiveDict.get (headers response) "location" = None
            \/ CaseInsensitiveDict.get (headers response) "location"
               = Some url_)) ->
  (forall fuel : nat,
     (List.length visited < fuel)%nat ->
     _follow_redirects_on_http self fuel url0 w0
     = Some (Return (of_previous_url (head visited)), w'))
  /\ (forall (fuel : nat) (e : exn) (w'' : World),
        _follow_redirects_on_http self fuel url0 w0 = Some (Raise e, w'') ->
        exists (current_url : string) (w1 : World) (response : Response)
               (location : string),
          probe_request current_url w1 = (Return response, w'')
          /\ CaseInsensitiveDict.get (headers response) "location"
             = Some location
          /\ Py.startswith location "https:" = false
          /\ Py.startswith location "http://" = false
          /\ e = RuntimeError
                   (current_url ++ " redirected to " ++ location)).
Proof.
  intros Hv Hstop. split.
  - intros fuel Hfuel.
    assert (Hi : probe_iteration self previous_url url_ w
                 = (Returns (of_previous_url previous_url), w')).
    { destruct Hstop as [[e He] | [[e He] | (response & Hr & Hl)]].
      - eapply probe_iteration_failure, probe_request_head_raises, He.
      - eapply probe_iteration_failure, He.
      - eapply probe_iteration_no_redirect; eassumption. }
    unfold _follow_redirects_on_http.
    replace fuel
      with (List.length visited + S (fuel - S (List.length visited)))%nat
      by lia.
    rewrite (probe_loop_visits _ _ _ _ _ _ _ Hv). simpl. rewrite Hi.
    rewrite (probe_visits_previous _ _ _ _ _ _ _ Hv). reflexivity.
  - intros fuel e w''. apply probe_loop_raises.
Qed.

(** C3: for an http URL that is not excluded, when the probe returns a
    URL that starts with [http://] (the original one after one redirect,
    another one after a longer chain to other hosts),
    [PreferHTTPSAdapter.send] answers, without calling the transport, with
    a response whose [Location] is [https://] + the tail of the original
    request URL, with the status 302, the sentinel reason and the URL of
    the request; when the probe returned another URL, that [Location] is
    not [https://] + the tail of the returned one. *)
Theorem PreferHTTPSAdapter_send_upgrades_original (self : ForceHTTPSAdapter)
    (fuel : nat) (s : Store) (redirect : string) (w : World) :
  let u := url (request s) in
  Py.startswith u "http://" = true ->
  _prevent_https self (Py.slice_from 7 u) = false ->
  _follow_redirects_on_http self fuel u (net s)
  = Some (Return (PyStr redirect), w) ->
  Py.startswith redirect "http://" = true ->
  exists response,
    PreferHTTPSAdapter_send self fuel s
    = Some (Return response, {| net := w; request := request s |})
    /\ CaseInsensitiveDict.getitem (headers response) "Location"
       = Return ("https://" ++ Py.slice_from 7 u)
    /\ status_code response = Some 302
    /\ reason response = Some _REASON
    /\ resp_url response = Some u
    /\ resp_request response = Some (req_id (request s))
    /\ (redirect <> u ->
        CaseInsensitiveDict.getitem (headers response) "Location"
        <> Return ("https://" ++ Py.slice_from 7 redirect)).
Proof.
  intros u Hs Hp Hprobe Hr. subst u.
  exists (synthetic_redirect ("https://" ++ Py.slice_from 7 (url (request s)))
            (request s)).
  split.
  - unfold PreferHTTPSAdapter_send.
    rewrite (http_not_https _ Hs), Hs, Hp. simpl. rewrite Hprobe.
    unfold PreferHTTPSAdapter_send_probed, bind, the_request, ret. simpl.
    assert (Ht : Py.truthy redirect = true).
    { apply startswith_slice in Hr. rewrite Hr. reflexivity. }
    rewrite Ht, Hr.
    destruct (negb (String.eqb redirect (url (request s)))); reflexivity.
  - pose proof (synthetic_redirect_fields
                  ("https://" ++ Py.slice_from 7 (url (request s)))
                  (request s)) as (Hl & Hc & Hre & Hu & Hq).
    repeat (split; [assumption|]).
    intros Hne E. rewrite Hl in E.
    assert (E' : "https://" ++ Py.slice_from 7 (url (request s))
                 = "https://" ++ Py.slice_from 7 redirect) by congruence.
    apply Hne. symmetry. apply http_tail_inj; assumption.
Qed.

End ProbeProperties.

(** ** URLs with another scheme *)

Section OtherSchemes.

Context {N : Network} {R : RuleSource} {P : PreloadSource}.

Lemma reason_differs_true (r : Response) :
  reason r <> Some _REASON -> reason_differs r _REASON = true.
Proof.
  intros H. unfold reason_differs. destruct (reason r) as [s'|]; [|reflexivity].
  destruct (String.eqb_spec s' _REASON) as [->|]; [contradiction|reflexivity].
Qed.

Lemma ChromePreloadHSTSAdapter_send_not_http (super_send : M Response)
    (s : Store) :
  Py.startswith (url (request s)) "http://" = false ->
  ChromePreloadHSTSAdapter_send super_send s = super_send s.
Proof.
  intros H. unfold ChromePreloadHSTSAdapter_send, bind, the_request.
  rewrite H. reflexivity.
Qed.

Lemma HTTPSEverywhereAdapter_send_not_http (s : Store) :
  Py.startswith (url (request s)) "http://" = false ->
  HTTPSEverywhereAdapter_send s = HTTPAdapter_send_request s.
Proof.
  intros H. unfold HTTPSEverywhereAdapter_send.
  rewrite ChromePreloadHSTSAdapter_send_not_http by exact H.
  apply HTTPSEverywhereOnlyAdapter_send_pass. left. exact H.
Qed.

(** The class [RedirectAdapter] itself, whose [get_redirect] answers
    [None], sends every request on; [handle_error] raises again what the
    transport raised. *)
Lemma RedirectAdapter_send_base (s : Store) :
  RedirectAdapter_send get_redirect s = HTTPAdapter_send_request s.
Proof.
  unfold RedirectAdapter_send, bind, the_request, get_redirect, try_except,
    handle_error, raise.
  destruct (HTTPAdapter_send_request s) as [[r|e] s']; reflexivity.
Qed.

Lemma PreferHTTPSAdapter_send_forward (self : ForceHTTPSAdapter)
    (fuel : nat) (s : Store) :
  ~ (Py.startswith (url (request s)) "https://" = true
     /\ _prevent_https self (Py.slice_from 8 (url (request s))) = true) ->
  ~ (Py.startswith (url (request s)) "http://" = true
     /\ _prevent_https self (Py.slice_from 7 (url (request s))) = false) ->
  PreferHTTPSAdapter_send self fuel s = Some (HTTPAdapter_send_request s).
Proof.
  intros H1 H2. unfold PreferHTTPSAdapter_send.
  rewrite (ForceHTTPSAdapter_send_forward self s H1 H2).
  destruct (Py.startswith (url (request s)) "https://") eqn:Es.
  - destruct (_prevent_https self (Py.slice_from 8 _)) eqn:Ep;
      [exfalso; apply H1; split; reflexivity | reflexivity].
  - destruct (Py.startswith (url (request s)) "http://") eqn:Eh;
      [|reflexivity].
    destruct (_prevent_https self (Py.slice_from 7 _)) eqn:Ep;
      [reflexivity | exfalso; apply H2; split; reflexivity].
Qed.

Lemma UpgradeHTTPSAdapter_send_not_https (self : ForceHTTPSAdapter)
    (s : Store) :
  Py.startswith (url (request s)) "https://" = false ->
  UpgradeHTTPSAdapter_send self s = ForceHTTPSAdapter_send self s.
Proof.
  intros Hs. unfold UpgradeHTTPSAdapter_send, bind, request_url.
  rewrite Hs. simpl.
  destruct (ForceHTTPSAdapter_send self s) as [[r|e] s']; reflexivity.
Qed.

(** On a request that is not https, [SafeUpgradeHTTPSAdapter.send] returns
    what the force layer returns unless that answer carries the sentinel
    reason. *)
Lemma SafeUpgradeHTTPSAdapter_send_not_https (self : ForceHTTPSAdapter)
    (s : Store) :
  Py.startswith (url (request s)) "https://" = false ->
  (forall (r : Response) (s' : Store),
     ForceHTTPSAdapter_send self s = (Return r, s') ->
     reason r <> Some _REASON) ->
  SafeUpgradeHTTPSAdapter_send self s = ForceHTTPSAdapter_send self s.
Proof.
  intros Hs Hr.
  unfold SafeUpgradeHTTPSAdapter_send, bind, request_url, ret.
  rewrite Hs. simpl.
  destruct (ForceHTTPSAdapter_send self s) as [[r|e] s'] eqn:E;
    [|reflexivity].
  rewrite (reason_differs_true r (Hr r s' eq_refl)). reflexivity.
Qed.

(** C9, as amended: a request whose URL starts with neither [http://] nor
    [https://] goes through every adapter to the next layer as it is, and
    the outcome of [send], store included, is the transport's: nothing is
    synthesized and the request keeps its URL. For
    [SafeUpgradeHTTPSAdapter] this holds when the transport's answer does
    not carry the sentinel reason. *)
Theorem other_schemes_pass_through (self : ForceHTTPSAdapter) (fuel : nat)
    (super_send : M Response) (s : Store) :
  Py.startswith (url (request s)) "http://" = false ->
  Py.startswith (url (request s)) "https://" = false ->
  HTTPSEverywhereOnlyAdapter_send super_send s = super_send s
  /\ ChromePreloadHSTSAdapter_send super_send s = super_send s
  /\ HTTPSEverywhereAdapter_send s = HTTPAdapter_send_request s
  /\ RedirectAdapter_send get_redirect s = HTTPAdapter_send_request s
  /\ ForceHTTPSAdapter_send self s = HTTPAdapter_send_request s
  /\ PreferHTTPSAdapter_send self fuel s = Some (HTTPAdapter_send_request s)
  /\ UpgradeHTTPSAdapter_send self s = HTTPAdapter_send_request s
  /\ ((forall (r : Response) (w : World),
         HTTPAdapter_send (net s) (request s) = (Return r, w) ->
         reason r <> Some _REASON) ->
      SafeUpgradeHTTPSAdapter_send self s = HTTPAdapter_send_request s)
  /\ request (snd (HTTPAdapter_send_request s)) = request s.
Proof.
  intros Hh Hs.
  assert (Hf : ForceHTTPSAdapter_send self s = HTTPAdapter_send_request s).
  { apply ForceHTTPSAdapter_send_forward; intros [H _]; congruence. }
  repeat split.
  - apply HTTPSEverywhereOnlyAdapter_send_pass. left. exact Hh.
  - apply ChromePreloadHSTSAdapter_send_not_http, Hh.
  - apply HTTPSEverywhereAdapter_send_not_http, Hh.
  - apply RedirectAdapter_send_base.
  - exact Hf.
  - apply PreferHTTPSAdapter_send_forward; intros [H _]; congruence.
  - rewrite <- Hf. apply UpgradeHTTPSAdapter_send_not_https, Hs.
  - intros Hr. rewrite <- Hf.
    apply SafeUpgradeHTTPSAdapter_send_not_https; [exact Hs|].
    intros r s' E. rewrite Hf in E. unfold HTTPAdapter_send_request in E.
    destruct (HTTPAdapter_send (net s) (request s)) as [r' w] eqn:E'.
    injection E as -> _. eapply Hr. reflexivity.
  - apply HTTPAdapter_send_request_request.
Qed.

End OtherSchemes.

(** ** Where synthesized responses come from *)

Section SyntheticResponses.

Context {N : Network} {R : RuleSource} {P : PreloadSource}.

Lemma ForceHTTPSAdapter_send_origin (self : ForceHTTPSAdapter) (s : Store) :
  ForceHTTPSAdapter_send self s = HTTPAdapter_send_request s
  \/ exists location,
       ForceHTTPSAdapter_send self s
       = (Return (synthetic_redirect location (request s)), s).
Proof.
  unfold ForceHTTPSAdapter_send, bind, the_request.
  repeat match goal with
         | |- context [if ?b then _ else _] => destruct b
         end;
    first [left; reflexivity | right; eexists; reflexivity].
Qed.

Lemma HTTPSEverywhereOnlyAdapter_send_origin (super_send : M Response)
    (s : Store) :
  HTTPSEverywhereOnlyAdapter_send super_send s = super_send s
  \/ exists location,
       HTTPSEverywhereOnlyAdapter_send super_send s
       = (Return (synthetic_redirect location (request s)), s).
Proof.
  unfold HTTPSEverywhereOnlyAdapter_send, bind, the_request.
  repeat match goal with
         | |- context [if ?b then _ else _] => destruct b
         end;
    first [left; reflexivity | right; eexists; reflexivity].
Qed.

Lemma ChromePreloadHSTSAdapter_send_origin (super_send : M Response)
    (s : Store) :
  ChromePreloadHSTSAdapter_send super_send s = super_send s
  \/ (exists location,
        ChromePreloadHSTSAdapter_send super_send s
        = (Return (synthetic_redirect location (request s)), s))
  \/ (exists e,
        parse_url_host (url (request s)) = Raise e
        /\ ChromePreloadHSTSAdapter_send super_send s = (Raise e, s)).
Proof.
  unfold ChromePreloadHSTSAdapter_send, bind, the_request, lift.
  destruct (Py.startswith (url (request s)) "http://"); [|left; reflexivity].
  destruct (parse_url_host (url (request s))) as [host|e].
  - destruct (_check_in _preload_including_subdomains host);
      [right; left; eexists; reflexivity | left; reflexivity].
  - right. right. exists e. split; reflexivity.
Qed.

Lemma probe_loop_response (self : ForceHTTPSAdapter) (fuel : nat) :
  forall (previous_url : option string) (url_ : string) (w : World)
         (r : Response) (w' : World),
    probe_loop self fuel previous_url url_ w
    = Some (Return (PyResponse r), w') ->
    exists (current_url : string) (w1 : World),
      probe_request current_url w1 = (Return r, w').
Proof.
  induction fuel as [|fuel IH]; intros previous_url url_ w r w' H;
    [discriminate|].
  simpl in H. unfold probe_iteration in H.
  destruct (probe_request url_ w) as [[response|e] w1] eqn:Er.
  - destruct (CaseInsensitiveDict.get (headers response) "location")
      as [location|].
    + destruct (negb (Py.truthy location) || String.eqb location url_).
      { destruct previous_url; discriminate. }
      destruct (Py.startswith location "https:").
      { destruct (_prevent_https self (Py.slice_from 8 location));
          [discriminate|].
        injection H as <- <-. exists url_, w. exact Er. }
      destruct (Py.startswith location "http://"); [|discriminate].
      eapply IH, H.
    + destruct previous_url; discriminate.
  - destruct previous_url; discriminate.
Qed.

Lemma PreferHTTPSAdapter_send_origin (self : ForceHTTPSAdapter) (fuel : nat)
    (s s' : Store) (r : Response) :
  PreferHTTPSAdapter_send self fuel s = Some (Return r, s') ->
  (exists location, r = synthetic_redirect location (request s))
  \/ HTTPAdapter_send_request s = (Return r, s')
  \/ (exists (current_url : string) (w w' : World),
        probe_request current_url w = (Return r, w')).
Proof.
  unfold PreferHTTPSAdapter_send.
  assert (Hforce : Some (ForceHTTPSAdapter_send self s) = Some (Return r, s')
                   -> (exists location,
                         r = synthetic_redirect location (request s))
                      \/ HTTPAdapter_send_request s = (Return r, s')
                      \/ (exists (current_url : string) (w w' : World),
                            probe_request current_url w = (Return r, w'))).
  { intros H. injection H as H.
    destruct (ForceHTTPSAdapter_send_origin self s) as [E|[location E]];
      rewrite E in H.
    - right. left. exact H.
    - injection H as <- _. left. exists location. reflexivity. }
  destruct (Py.startswith (url (request s)) "https://").
  - destruct (_prevent_https self (Py.slice_from 8 (url (request s))));
      [|exact Hforce].
    intros H. injection H as <- _. left. eexists. reflexivity.
  - destruct (Py.startswith (url (request s)) "http://"); [|exact Hforce].
    destruct (negb (_prevent_https self (Py.slice_from 7 (url (request s)))));
      [|exact Hforce].
    destruct (_follow_redirects_on_http self fuel (url (request s)) (net s))
      as [[[redirect|e] w]|] eqn:Ep; [|discriminate..].
    unfold PreferHTTPSAdapter_send_probed, bind, the_request, lift, ret, raise.
    simpl. destruct redirect as [|redirect|response].
    + intros H. injection H as <- _. left. eexists. reflexivity.
    + repeat match goal with
             | |- context [if ?b then _ else _] => destruct b
             end;
        intros H; try discriminate;
        injection H as <- _; left; eexists; reflexivity.
    + apply probe_loop_response in Ep as (current_url & w1 & Ep).
      destruct (ok response) as [[|]|e]; intros H; try discriminate.
      * injection H as <- _. right. right. eauto.
      * injection H as <- _. left. eexists. reflexivity.
Qed.

(** What the force layer returns with the sentinel reason carries a
    [Location] as soon as the transport's own answers with that reason do:
    the other answers of the force layer are synthesized. *)
Lemma ForceHTTPSAdapter_send_location (self : ForceHTTPSAdapter) (s s1 : Store)
    (r1 : Response) :
  (forall (r : Response) (w : World),
     HTTPAdapter_send (net s) (request s) = (Return r, w) ->
     reason r = Some _REASON ->
     exists location,
       CaseInsensitiveDict.getitem (headers r) "location" = Return location) ->
  ForceHTTPSAdapter_send self s = (Return r1, s1) ->
  reason r1 = Some _REASON ->
  exists location,
    CaseInsensitiveDict.getitem (headers r1) "location" = Return location.
Proof.
  intros Ht H1 Hr.
  destruct (ForceHTTPSAdapter_send_origin self s) as [E|[location E]];
    rewrite E in H1.
  - unfold HTTPAdapter_send_request in H1.
    destruct (HTTPAdapter_send (net s) (request s)) as [r w] eqn:E'.
    injection H1 as -> _. eapply Ht; [reflexivity|exact Hr].
  - injection H1 as <- _. exists location.
    apply synthetic_redirect_location.
Qed.

(** [SafeUpgradeHTTPSAdapter.send] on a request that is not https, once the
    lookup of [location] on the first answer has given [loc]: the request
    is sent again with that URL, and the rest depends on that send. *)
Lemma SafeUpgradeHTTPSAdapter_send_after_lookup (self : ForceHTTPSAdapter)
    (s s1 : Store) (r1 : Response) (loc : string) :
  Py.startswith (url (request s)) "https://" = false ->
  ForceHTTPSAdapter_send self s = (Return r1, s1) ->
  reason r1 = Some _REASON ->
  CaseInsensitiveDict.getitem (headers r1) "location" = Return loc ->
  SafeUpgradeHTTPSAdapter_send self s
  = match ForceHTTPSAdapter_send self
            {| net := net s1; request := Request_set_url (request s) loc |}
    with
    | (Return r2, s2) =>
        match CaseInsensitiveDict.get (headers r2) "location" with
        | Some redirect =>
            if negb (Py.truthy redirect)
               || negb (String.eqb redirect (url (request s)))
            then (Return r2, s2)
            else HTTPAdapter_send_request
                   {| net := net s2;
                      request := Request_set_url (request s)
                                   ("http://" ++ Py.slice_from 8 loc) |}
        | None => (Return r2, s2)
        end
    | (Raise e, s2) =>
        if _https_downgrade_exceptions e
        then HTTPAdapter_send_request
               {| net := net s2;
                  request := Request_set_url (request s)
                               ("http://" ++ Py.slice_from 8 loc) |}
        else (Raise e, s2)
    end.
Proof.
  intros Hs H1 Hr Hl.
  pose proof (ForceHTTPSAdapter_send_request self s) as Hq.
  rewrite H1 in Hq. simpl in Hq.
  pose proof (ForceHTTPSAdapter_send_request self
                {| net := net s1;
                   request := Request_set_url (request s) loc |}) as Hq2.
  unfold SafeUpgradeHTTPSAdapter_send, bind, try_except, request_url, lift,
    assign_request_url, ret.
  rewrite Hs. simpl. rewrite H1, (reason_differs_sentinel _ Hr), Hl.
  simpl. rewrite Hq.
  destruct (ForceHTTPSAdapter_send self
              {| net := net s1; request := Request_set_url (request s) loc |})
    as [[r2|e] s2]; simpl in Hq2.
  - destruct (CaseInsensitiveDict.get (headers r2) "location")
      as [redirect|]; [|reflexivity].
    destruct (negb (Py.truthy redirect)
              || negb (String.eqb redirect (url (request s))));
      [reflexivity|].
    simpl. rewrite Hq2. reflexivity.
  - destruct (_https_downgrade_exceptions e); [|reflexivity].
    simpl. rewrite Hq2. reflexivity.
Qed.

(** The same on an http URL that is not excluded, where the first answer
    is the adapter's own synthesized upgrade: the lookup gives its
    [Location], and the transport is called with it. *)
Lemma SafeUpgradeHTTPSAdapter_send_own_upgrade (self : ForceHTTPSAdapter)
    (s : Store) :
  Py.startswith (url (request s)) "http://" = true ->
  _prevent_https self (Py.slice_from 7 (url (request s))) = false ->
  SafeUpgradeHTTPSAdapter_send self s
  = match HTTPAdapter_send_request
            {| net := net s;
               request := Request_set_url (request s)
                            ("https://" ++ Py.slice_from 7 (url (request s)))
            |}
    with
    | (Return r2, s2) =>
        match CaseInsensitiveDict.get (headers r2) "location" with
        | Some redirect =>
            if String.eqb redirect (url (request s))
            then HTTPAdapter_send_request
                   {| net := net s2;
                      request := Request_set_url (request s)
                                   ("http://"
                                    ++ Py.slice_from 7 (url (request s))) |}
            else (Return r2, s2)
        | None => (Return r2, s2)
        end
    | (Raise e, s2) =>
        if _https_downgrade_exceptions e
        then HTTPAdapter_send_request
               {| net := net s2;
                  request := Request_set_url (request s)
                               ("http://"
                                ++ Py.slice_from 7 (url (request s))) |}
        else (Raise e, s2)
    end.
Proof.
  intros Hh Hp.
  pose proof (http_not_https _ Hh) as Hs.
  pose proof (ForceHTTPSAdapter_send_upgrade self s Hh Hp) as H1.
  set (location := "https://" ++ Py.slice_from 7 (url (request s))) in *.
  rewrite (SafeUpgradeHTTPSAdapter_send_after_lookup self s s
             (synthetic_redirect location (request s)) location
             Hs H1 eq_refl (synthetic_redirect_location _ _)).
  rewrite (ForceHTTPSAdapter_send_https_allowed self
             {| net := net s; request := Request_set_url (request s) location |}
             (Py.slice_from 7 (url (request s))) eq_refl Hp).
  assert (Hne : Py.truthy (url (request s)) = true).
  { apply startswith_slice in Hh. rewrite Hh. reflexivity. }
  destruct (HTTPAdapter_send_request
              {| net := net s;
                 request := Request_set_url (request s) location |})
    as [[r2|e] s2]; [|reflexivity].
  destruct (CaseInsensitiveDict.get (headers r2) "location") as [redirect|];
    [|reflexivity].
  destruct (String.eqb_spec redirect (url (request s))) as [->|].
  - rewrite Hne. reflexivity.
  - rewrite orb_true_r. reflexivity.
Qed.

(** C10, as amended: [_generate_redirect] always stores its location
    under [Location] (found again under [location]: header names ignore
    case) with the sentinel reason and the status it was given, which is
    302 at every call; what an adapter returns is such a response, with
    the request and its URL attached, or comes from the next layer or
    from the probe. So in [SafeUpgradeHTTPSAdapter.send] the lookup
    [response.headers["location"]] that follows the test of the sentinel
    reason finds its key whenever the transport's own answers that carry
    the sentinel reason carry a [Location] too, and in particular when
    the transport never answers with the sentinel reason: [send] then
    goes on to send the request again with the URL it found, and its
    outcome is the outcome of that second send or of the fallback. On its
    own synthesized upgrade (an http URL that is not excluded) the lookup
    needs no proviso: [send] calls the transport with [https://] + tail
    and ends with the transport's answer or exception. *)
Theorem synthetic_responses_carry_location (self : ForceHTTPSAdapter)
    (fuel : nat) (super_send : M Response) (s : Store) :
  (forall (location : string) (code : Z),
     CaseInsensitiveDict.getitem
       (headers (_generate_redirect location code)) "location"
     = Return location
     /\ reason (_generate_redirect location code) = Some _REASON
     /\ status_code (_generate_redirect location code) = Some code)
  /\ (forall (location : string) (request : Request),
        CaseInsensitiveDict.getitem
          (headers (synthetic_redirect location request)) "location"
        = Return location
        /\ reason (synthetic_redirect location request) = Some _REASON
        /\ status_code (synthetic_redirect location request) = Some 302)
  /\ (HTTPSEverywhereOnlyAdapter_send super_send s = super_send s
      \/ exists location,
           HTTPSEverywhereOnlyAdapter_send super_send s
           = (Return (synthetic_redirect location (request s)), s))
  /\ (ChromePreloadHSTSAdapter_send super_send s = super_send s
      \/ (exists location,
            ChromePreloadHSTSAdapter_send super_send s
            = (Return (synthetic_redirect location (request s)), s))
      \/ (exists e,
            parse_url_host (url (request s)) = Raise e
            /\ ChromePreloadHSTSAdapter_send super_send s = (Raise e, s)))
  /\ (ForceHTTPSAdapter_send self s = HTTPAdapter_send_request s
      \/ exists location,
           ForceHTTPSAdapter_send self s
           = (Return (synthetic_redirect location (request s)), s))
  /\ (forall (r : Response) (s' : Store),
        PreferHTTPSAdapter_send self fuel s = Some (Return r, s') ->
        (exists location, r = synthetic_redirect location (request s))
        \/ HTTPAdapter_send_request s = (Return r, s')
        \/ (exists (current_url : string) (w w' : World),
              probe_request current_url w = (Return r, w')))
  /\ ((forall (r : Response) (w : World),
         HTTPAdapter_send (net s) (request s) = (Return r, w) ->
         reason r = Some _REASON ->
         exists location,
           CaseInsensitiveDict.getitem (headers r) "location"
           = Return location) ->
      forall (r1 : Response) (s1 : Store),
        ForceHTTPSAdapter_send self s = (Return r1, s1) ->
        reason r1 = Some _REASON ->
        exists location,
          CaseInsensitiveDict.getitem (headers r1) "location"
          = Return location)
  /\ (Py.startswith (url (request s)) "https://" = false ->
      (forall (r : Response) (w : World),
         HTTPAdapter_send (net s) (request s) = (Return r, w) ->
         reason r = Some _REASON ->
         exists location,
           CaseInsensitiveDict.getitem (headers r) "location"
           = Return location) ->
      forall (r1 : Response) (s1 : Store),
        ForceHTTPSAdapter_send self s = (Return r1, s1) ->
        reason r1 = Some _REASON ->
        exists location,
          CaseInsensitiveDict.getitem (headers r1) "location"
          = Return location
          /\ SafeUpgradeHTTPSAdapter_send self s
             = match ForceHTTPSAdapter_send self
                       {| net := net s1;
                          request := Request_set_url (request s) location |}
               with
               | (Return r2, s2) =>
                   match CaseInsensitiveDict.get (headers r2) "location" with
                   | Some redirect =>
                       if negb (Py.truthy redirect)
                          || negb (String.eqb redirect (url (request s)))
                       then (Return r2, s2)
                       else HTTPAdapter_send_request
                              {| net := net s2;
                                 request :=
                                   Request_set_url (request s)
                                     ("http://" ++ Py.slice_from 8 location)
                              |}
                   | None => (Return r2, s2)
                   end
               | (Raise e, s2) =>
                   if _https_downgrade_exceptions e
                   then HTTPAdapter_send_request
                          {| net := net s2;
                             request :=
                               Request_set_url (request s)
                                 ("http://" ++ Py.slice_from 8 location) |}
                   else (Raise e, s2)
               end)
  /\ (Py.startswith (url (request s)) "http://" = true ->
      _prevent_https self (Py.slice_from 7 (url (request s))) = false ->
      SafeUpgradeHTTPSAdapter_send self s
      = match HTTPAdapter_send_request
                {| net := net s;
                   request :=
                     Request_set_url (request s)
                       ("https://" ++ Py.slice_from 7 (url (request s))) |}
        with
        | (Return r2, s2) =>
            match CaseInsensitiveDict.get (headers r2) "location" with
            | Some redirect =>
                if String.eqb redirect (url (request s))
                then HTTPAdapter_send_request
                       {| net := net s2;
                          request :=
                            Request_set_url (request s)
                              ("http://"
                               ++ Py.slice_from 7 (url (request s))) |}
                else (Return r2, s2)
            | None => (Return r2, s2)
            end
        | (Raise e, s2) =>
            if _https_downgrade_exceptions e
            then HTTPAdapter_send_request
                   {| net := net s2;
                      request :=
                        Request_set_url (request s)
                          ("http://" ++ Py.slice_from 7 (url (request s))) |}
            else (Raise e, s2)
        end).
Proof.
  split; [|split; [|split; [|split; [|split; [|split; [|split; [|split]]]]]]].
  - intros location code. split; [|split; reflexivity].
    apply getitem_setitem. reflexivity.
  - intros location request. split; [|split; reflexivity].
    apply synthetic_redirect_location.
  - apply HTTPSEverywhereOnlyAdapter_send_origin.
  - apply ChromePreloadHSTSAdapter_send_origin.
  - apply ForceHTTPSAdapter_send_origin.
  - intros r s'. apply PreferHTTPSAdapter_send_origin.
  - intros Ht r1 s1. apply ForceHTTPSAdapter_send_location, Ht.
  - intros Hs Ht r1 s1 H1 Hr.
    destruct (ForceHTTPSAdapter_send_location self s s1 r1 Ht H1 Hr)
      as [location Hl].
    exists location. split; [exact Hl|].
    exact (SafeUpgradeHTTPSAdapter_send_after_lookup self s s1 r1 location
             Hs H1 Hr Hl).
  - apply SafeUpgradeHTTPSAdapter_send_own_upgrade.
Qed.

End SyntheticResponses.

(** ** Following a synthesized Location *)

Section FollowingTheLocation.

Context {N : Network} {R : RuleSource} {P : PreloadSource}.

Lemma PreferHTTPSAdapter_send_downgrade (self : ForceHTTPSAdapter)
    (fuel : nat) (s : Store) :
  Py.startswith (url (request s)) "https://" = true ->
  _prevent_https self (Py.slice_from 8 (url (request s))) = true ->
  PreferHTTPSAdapter_send self fuel s
  = Some (Return (synthetic_redirect
                    ("http://" ++ Py.slice_from 8 (url (request s)))
                    (request s)), s).
Proof.
  intros Hs Hp. unfold PreferHTTPSAdapter_send. rewrite Hs, Hp. reflexivity.
Qed.

Lemma UpgradeHTTPSAdapter_send_https_allowed (self : ForceHTTPSAdapter)
    (s : Store) (tail : string) :
  url (request s) = "https://" ++ tail ->
  _prevent_https self tail = false ->
  UpgradeHTTPSAdapter_send self s = HTTPAdapter_send_request s
  \/ exists w : World,
       UpgradeHTTPSAdapter_send self s
       = HTTPAdapter_send_request
           {| net := w;
              request := Request_set_url (request s) ("http://" ++ tail) |}.
Proof.
  intros Hu Hp.
  pose proof (ForceHTTPSAdapter_send_https_allowed self s tail Hu Hp) as Hf.
  pose proof (HTTPAdapter_send_request_request s) as Hq.
  assert (Hs : Py.startswith (url (request s)) "https://" = true)
    by (rewrite Hu; apply startswith_app).
  assert (Ht : Py.slice_from 8 (url (request s)) = tail)
    by (rewrite Hu; apply slice_from_https).
  unfold UpgradeHTTPSAdapter_send, bind, try_except, request_url,
    assign_request_url, ret.
  rewrite Hs. simpl. rewrite Hf, Ht.
  destruct (HTTPAdapter_send_request s) as [[r|e] s1]; simpl in Hq.
  - left. reflexivity.
  - destruct (_https_downgrade_exceptions e); [|left; reflexivity].
    right. exists (net s1). simpl. rewrite Hq. reflexivity.
Qed.

Lemma UpgradeHTTPSAdapter_send_returns (self : ForceHTTPSAdapter)
    (s s1 : Store) (r : Response) :
  ForceHTTPSAdapter_send self s = (Return r, s1) ->
  UpgradeHTTPSAdapter_send self s = (Return r, s1).
Proof.
  intros H. unfold UpgradeHTTPSAdapter_send, bind, try_except, request_url.
  destruct (Py.startswith (url (request s)) "https://"); simpl;
    rewrite H; reflexivity.
Qed.

Lemma SafeUpgradeHTTPSAdapter_send_downgrade (self : ForceHTTPSAdapter)
    (s : Store) :
  Py.startswith (url (request s)) "https://" = true ->
  _prevent_https self (Py.slice_from 8 (url (request s))) = true ->
  SafeUpgradeHTTPSAdapter_send self s
  = (Return (synthetic_redirect
               ("http://" ++ Py.slice_from 8 (url (request s))) (request s)),
     s).
Proof.
  intros Hs Hp.
  unfold SafeUpgradeHTTPSAdapter_send, bind, try_except, request_url, ret.
  rewrite Hs. simpl.
  rewrite (ForceHTTPSAdapter_send_downgrade self s Hs Hp).
  rewrite synthetic_redirect_get by reflexivity.
  replace (String.eqb ("http://" ++ Py.slice_from 8 (url (request s)))
             (url (request s))) with false; [reflexivity|].
  symmetry. apply String.eqb_neq. intros E.
  rewrite <- E in Hs. discriminate Hs.
Qed.

Lemma HTTPAdapter_send_request_origin (s s' : Store) (r : Response) :
  HTTPAdapter_send_request s = (Return r, s') ->
  exists (w : World) (request : Request) (w' : World),
    HTTPAdapter_send w request = (Return r, w').
Proof.
  unfold HTTPAdapter_send_request. intros H.
  destruct (HTTPAdapter_send (net s) (request s)) as [r' w'] eqn:E.
  injection H as -> _. eauto.
Qed.

(** On an http URL that is not excluded, a response synthesized by
    [PreferHTTPSAdapter.send] is the upgrade of that URL; the other
    responses it returns are the probe's. *)
Lemma PreferHTTPSAdapter_send_http_origin (self : ForceHTTPSAdapter)
    (fuel : nat) (s s' : Store) (r : Response) :
  Py.startswith (url (request s)) "http://" = true ->
  _prevent_https self (Py.slice_from 7 (url (request s))) = false ->
  PreferHTTPSAdapter_send self fuel s = Some (Return r, s') ->
  r = synthetic_redirect ("https://" ++ Py.slice_from 7 (url (request s)))
        (request s)
  \/ (exists (current_url : string) (w w' : World),
        probe_request current_url w = (Return r, w')).
Proof.
  intros Hh Hp. unfold PreferHTTPSAdapter_send.
  rewrite (http_not_https _ Hh), Hh, Hp. simpl.
  destruct (_follow_redirects_on_http self fuel (url (request s)) (net s))
    as [[[redirect|e] w]|] eqn:Ep; [|discriminate..].
  unfold PreferHTTPSAdapter_send_probed, bind, the_request, lift, ret, raise.
  simpl. destruct redirect as [|redirect|response].
  - intros H. injection H as <- _. left. reflexivity.
  - repeat match goal with
           | |- context [if ?b then _ else _] => destruct b
           end;
      intros H; try discriminate; injection H as <- _; left; reflexivity.
  - apply probe_loop_response in Ep as (current_url & w1 & Ep).
    destruct (ok response) as [[|]|e]; intros H; try discriminate.
    + injection H as <- _. right. eauto.
    + injection H as <- _. left. reflexivity.
Qed.

(** [SafeUpgradeHTTPSAdapter.send] on the http URL of an excluded tail, the
    Location of its own downgrade: whatever the transport answers, a
    response it returns is the transport's or is synthesized for another
    Location. The downgrade to this URL is not synthesized again. *)
Lemma SafeUpgradeHTTPSAdapter_send_no_repeat (self : ForceHTTPSAdapter)
    (s s' : Store) (tail : string) (r : Response) :
  url (request s) = "http://" ++ tail ->
  _prevent_https self tail = true ->
  SafeUpgradeHTTPSAdapter_send self s = (Return r, s') ->
  (exists (w : World) (request : Request) (w' : World),
     HTTPAdapter_send w request = (Return r, w'))
  \/ (exists (location : string) (request : Request),
        r = synthetic_redirect location request
        /\ location <> "http://" ++ tail).
Proof.
  intros Hu Hp.
  assert (Hs : Py.startswith (url (request s)) "https://" = false)
    by (rewrite Hu; apply http_app_not_https).
  pose proof (ForceHTTPSAdapter_send_http_excluded self s tail Hu Hp) as Hf.
  unfold SafeUpgradeHTTPSAdapter_send, bind, try_except, request_url, lift,
    assign_request_url, ret.
  rewrite Hs. simpl. rewrite Hf.
  destruct (HTTPAdapter_send_request s) as [[r1|e1] s1] eqn:E1;
    [|discriminate].
  destruct (reason_differs r1 _REASON).
  { intros H. injection H as <- <-. left.
    eapply HTTPAdapter_send_request_origin, E1. }
  destruct (CaseInsensitiveDict.getitem (headers r1) "location")
    as [location|e]; [|discriminate].
  simpl.
  set (s2 := {| net := net s1; request := Request_set_url (request s1) location |}).
  destruct (ForceHTTPSAdapter_send_origin self s2) as [E2|[location2 E2]];
    rewrite E2.
  - destruct (HTTPAdapter_send_request s2) as [[r2|e2] s3] eqn:E3.
    + destruct (CaseInsensitiveDict.get (headers r2) "location")
        as [redirect|].
      * destruct (negb (Py.truthy redirect)
                  || negb (String.eqb redirect (url (request s)))).
        -- intros H. injection H as <- <-. left.
           eapply HTTPAdapter_send_request_origin, E3.
        -- simpl. intros H. left.
           eapply HTTPAdapter_send_request_origin, H.
      * intros H. injection H as <- <-. left.
        eapply HTTPAdapter_send_request_origin, E3.
    + destruct (_https_downgrade_exceptions e2); [|discriminate].
      simpl. intros H. left. eapply HTTPAdapter_send_request_origin, H.
  - rewrite synthetic_redirect_get by reflexivity.
    destruct (Py.truthy location2) eqn:Et; simpl.
    + destruct (String.eqb_spec location2 (url (request s))) as [|Hne]; simpl.
      * intros H. left. eapply HTTPAdapter_send_request_origin, H.
      * intros H. injection H as <- _. right.
        exists location2, (request s2). split; [reflexivity|].
        intros E. apply Hne. rewrite Hu. exact E.
    + intros H. injection H as <- _. right.
      exists location2, (request s2). split; [reflexivity|].
      intros E. rewrite E in Et. discriminate Et.
Qed.

(** On an http URL that is not excluded, [SafeUpgradeHTTPSAdapter.send]
    follows its own upgrade: what it returns is an answer of the
    transport. *)
Lemma SafeUpgradeHTTPSAdapter_send_upgrade_followed (self : ForceHTTPSAdapter)
    (s s' : Store) (r : Response) :
  Py.startswith (url (request s)) "http://" = true ->
  _prevent_https self (Py.slice_from 7 (url (request s))) = false ->
  SafeUpgradeHTTPSAdapter_send self s = (Return r, s') ->
  exists (w : World) (request : Request) (w' : World),
    HTTPAdapter_send w request = (Return r, w').
Proof.
  intros Hh Hp.
  pose proof (http_not_https _ Hh) as Hs.
  pose proof (ForceHTTPSAdapter_send_upgrade self s Hh Hp) as Hf.
  set (location := "https://" ++ Py.slice_from 7 (url (request s))) in *.
  set (s2 := {| net := net s; request := Request_set_url (request s) location |}).
  assert (Hf2 : ForceHTTPSAdapter_send self s2 = HTTPAdapter_send_request s2).
  { apply (ForceHTTPSAdapter_send_https_allowed self s2
             (Py.slice_from 7 (url (request s)))); [reflexivity|exact Hp]. }
  unfold SafeUpgradeHTTPSAdapter_send, bind, try_except, request_url, lift,
    assign_request_url, ret.
  rewrite Hs. cbn [negb]. rewrite Hf.
  rewrite (reason_differs_sentinel (synthetic_redirect location (request s))
             eq_refl), synthetic_redirect_location.
  cbn [net request]. fold s2. rewrite Hf2.
  destruct (HTTPAdapter_send_request s2) as [[r2|e2] s3] eqn:E3.
  - destruct (CaseInsensitiveDict.get (headers r2) "location") as [redirect|].
    + destruct (negb (Py.truthy redirect)
                || negb (String.eqb redirect (url (request s)))).
      * intros H. injection H as <- <-.
        eapply HTTPAdapter_send_request_origin, E3.
      * intros H. eapply HTTPAdapter_send_request_origin, H.
    + intros H. injection H as <- <-.
      eapply HTTPAdapter_send_request_origin, E3.
  - destruct (_https_downgrade_exceptions e2); [|discriminate].
    intros H. eapply HTTPAdapter_send_request_origin, H.
Qed.

(** C8: the Location an adapter synthesizes does not make the same
    adapter synthesize it again. Sent back as the URL of a request, the
    Location of the rule adapter, of the preload adapter and of their
    combination goes on to the next layer; the downgrade and the upgrade
    of [ForceHTTPSAdapter] and of [PreferHTTPSAdapter] go to the transport
    as they are; after [UpgradeHTTPSAdapter] the outcome is the
    transport's, for the Location or for its http fallback.
    [SafeUpgradeHTTPSAdapter] follows its own upgrade and returns the
    transport's answer; after its downgrade, a response it returns is the
    transport's or is synthesized for another Location, and it is the
    transport's answer to the request as it is whenever that answer does
    not carry the sentinel reason. *)
Theorem rewrite_not_repeated (self : ForceHTTPSAdapter) (fuel : nat)
    (super_send : M Response) (s : Store) :
  let u := url (request s) in
  (Py.startswith u "http://" = true ->
   Py.startswith (https_url_rewrite u) "https://" = true ->
   HTTPSEverywhereOnlyAdapter_send super_send s
   = (Return (synthetic_redirect (https_url_rewrite u) (request s)), s)
   /\ (forall s' : Store,
         url (request s') = https_url_rewrite u ->
         HTTPSEverywhereOnlyAdapter_send super_send s' = super_send s'
         /\ HTTPSEverywhereAdapter_send s' = HTTPAdapter_send_request s'))
  /\ (Py.startswith u "http://" = true ->
      forall host : option string,
        parse_url_host u = Return host ->
        _check_in _preload_including_subdomains host = true ->
        ChromePreloadHSTSAdapter_send super_send s
        = (Return (synthetic_redirect ("https:" ++ Py.slice_from 5 u)
                     (request s)), s)
        /\ (forall s' : Store,
              url (request s') = "https:" ++ Py.slice_from 5 u ->
              ChromePreloadHSTSAdapter_send super_send s' = super_send s'
              /\ HTTPSEverywhereAdapter_send s' = HTTPAdapter_send_request s'))
  /\ (Py.startswith u "https://" = true ->
      _prevent_https self (Py.slice_from 8 u) = true ->
      forall s' : Store,
        url (request s') = "http://" ++ Py.slice_from 8 u ->
        (ForceHTTPSAdapter_send self s
         = (Return (synthetic_redirect ("http://" ++ Py.slice_from 8 u)
                      (request s)), s)
         /\ ForceHTTPSAdapter_send self s' = HTTPAdapter_send_request s')
        /\ (PreferHTTPSAdapter_send self fuel s
            = Some (Return (synthetic_redirect
                              ("http://" ++ Py.slice_from 8 u) (request s)),
                    s)
            /\ forall fuel' : nat,
                 PreferHTTPSAdapter_send self fuel' s'
                 = Some (HTTPAdapter_send_request s'))
        /\ (UpgradeHTTPSAdapter_send self s
            = (Return (synthetic_redirect ("http://" ++ Py.slice_from 8 u)
                         (request s)), s)
            /\ UpgradeHTTPSAdapter_send self s' = HTTPAdapter_send_request s')
        /\ (SafeUpgradeHTTPSAdapter_send self s
            = (Return (synthetic_redirect ("http://" ++ Py.slice_from 8 u)
                         (request s)), s)
            /\ (forall (r : Response) (s2 : Store),
                  SafeUpgradeHTTPSAdapter_send self s' = (Return r, s2) ->
                  (exists (w : World) (request : Request) (w' : World),
                     HTTPAdapter_send w request = (Return r, w'))
                  \/ (exists (location : string) (request : Request),
                        r = synthetic_redirect location request
                        /\ location <> "http://" ++ Py.slice_from 8 u))
            /\ ((forall (r : Response) (w : World),
                   HTTPAdapter_send (net s') (request s') = (Return r, w) ->
                   reason r <> Some _REASON) ->
                SafeUpgradeHTTPSAdapter_send self s'
                = HTTPAdapter_send_request s')))
  /\ (Py.startswith u "http://" = true ->
      _prevent_https self (Py.slice_from 7 u) = false ->
      forall s' : Store,
        url (request s') = "https://" ++ Py.slice_from 7 u ->
        (ForceHTTPSAdapter_send self s
         = (Return (synthetic_redirect ("https://" ++ Py.slice_from 7 u)
                      (request s)), s)
         /\ ForceHTTPSAdapter_send self s' = HTTPAdapter_send_request s')
        /\ ((forall (r : Response) (s1 : Store),
               PreferHTTPSAdapter_send self fuel s = Some (Return r, s1) ->
               r = synthetic_redirect ("https://" ++ Py.slice_from 7 u)
                     (request s)
               \/ (exists (current_url : string) (w w' : World),
                     probe_request current_url w = (Return r, w')))
            /\ forall fuel' : nat,
                 PreferHTTPSAdapter_send self fuel' s'
                 = Some (HTTPAdapter_send_request s'))
        /\ (UpgradeHTTPSAdapter_send self s
            = (Return (synthetic_redirect ("https://" ++ Py.slice_from 7 u)
                         (request s)), s)
            /\ (UpgradeHTTPSAdapter_send self s'
                = HTTPAdapter_send_request s'
                \/ exists w : World,
                     UpgradeHTTPSAdapter_send self s'
                     = HTTPAdapter_send_request
                         {| net := w;
                            request := Request_set_url (request s')
                              ("http://" ++ Py.slice_from 7 u) |}))
        /\ (forall (r : Response) (s1 : Store),
              SafeUpgradeHTTPSAdapter_send self s = (Return r, s1) ->
              exists (w : World) (request : Request) (w' : World),
                HTTPAdapter_send w request = (Return r, w'))).
Proof.
  intros u. subst u. split; [|split; [|split]].
  - intros Hh Hr. split.
    + apply HTTPSEverywhereOnlyAdapter_send_match; assumption.
    + intros s' Hu.
      assert (Hn : Py.startswith (url (request s')) "http://" = false)
        by (rewrite Hu; apply https_not_http, Hr).
      split.
      * apply HTTPSEverywhereOnlyAdapter_send_pass. left. exact Hn.
      * apply HTTPSEverywhereAdapter_send_not_http, Hn.
  - intros Hh host Hp Hc. split.
    + unfold ChromePreloadHSTSAdapter_send, bind, the_request, lift.
      rewrite Hh, Hp, Hc. reflexivity.
    + intros s' Hu.
      assert (Hn : Py.startswith (url (request s')) "http://" = false)
        by (rewrite Hu; apply https_app_not_http).
      split.
      * apply ChromePreloadHSTSAdapter_send_not_http, Hn.
      * apply HTTPSEverywhereAdapter_send_not_http, Hn.
  - intros Hs Hp s' Hu.
    pose proof (ForceHTTPSAdapter_send_http_excluded self s' _ Hu Hp) as Hf.
    assert (Hn : Py.startswith (url (request s')) "https://" = false)
      by (rewrite Hu; apply http_app_not_https).
    split; [|split; [|split]].
    + split; [apply ForceHTTPSAdapter_send_downgrade; assumption|exact Hf].
    + split; [apply PreferHTTPSAdapter_send_downgrade; assumption|].
      intros fuel'. apply PreferHTTPSAdapter_send_forward; rewrite Hu.
      * intros [H _]. discriminate H.
      * rewrite slice_from_http. intros [_ H]. congruence.
    + split.
      * apply UpgradeHTTPSAdapter_send_returns,
          ForceHTTPSAdapter_send_downgrade; assumption.
      * rewrite <- Hf. apply UpgradeHTTPSAdapter_send_not_https, Hn.
    + split; [apply SafeUpgradeHTTPSAdapter_send_downgrade; assumption|].
      split.
      * intros r s2. apply SafeUpgradeHTTPSAdapter_send_no_repeat; assumption.
      * intros Hr. rewrite <- Hf.
        apply SafeUpgradeHTTPSAdapter_send_not_https; [exact Hn|].
        intros r s1 E. rewrite Hf in E. unfold HTTPAdapter_send_request in E.
        destruct (HTTPAdapter_send (net s') (request s')) as [r' w] eqn:E'.
        injection E as -> _. eapply Hr. reflexivity.
  - intros Hh Hp s' Hu.
    pose proof (ForceHTTPSAdapter_send_https_allowed self s' _ Hu Hp) as Hf.
    split; [|split; [|split]].
    + split; [apply ForceHTTPSAdapter_send_upgrade; assumption|exact Hf].
    + split.
      * intros r s1. apply PreferHTTPSAdapter_send_http_origin; assumption.
      * intros fuel'. apply PreferHTTPSAdapter_send_forward; rewrite Hu.
        -- rewrite slice_from_https. intros [_ H]. congruence.
        -- intros [H _]. discriminate H.
    + split.
      * apply UpgradeHTTPSAdapter_send_returns,
          ForceHTTPSAdapter_send_upgrade; assumption.
      * apply UpgradeHTTPSAdapter_send_https_allowed; assumption.
    + intros r s1.
      apply SafeUpgradeHTTPSAdapter_send_upgrade_followed; assumption.
Qed.

End FollowingTheLocation.

(** * Concrete runs *)

(** The example of the specification: with [example.com/api] excluded, the
    https URL under it is answered with [Location: http://example.com/api/x],
    the http URL outside it with [Location: https://example.com/other], and
    the http URL under it reaches the transport. *)
Lemma ForceHTTPSAdapter_send_cases_witness :
  (exists response,
     ForceHTTPSAdapter_send (N := Mock.plain_net) Mock.api_excluded
       (Mock.start Mock.plain_net [] "https://example.com/api/x")
     = (Return response,
        Mock.start Mock.plain_net [] "https://example.com/api/x")
     /\ CaseInsensitiveDict.getitem (headers response) "Location"
        = Return "http://example.com/api/x"
     /\ status_code response = Some 302
     /\ reason response = Some _REASON
     /\ resp_url response = Some "https://example.com/api/x"
     /\ resp_request response = Some 1%nat)
  /\ (exists response,
        ForceHTTPSAdapter_send (N := Mock.plain_net) Mock.api_excluded
          (Mock.start Mock.plain_net [] "http://example.com/other")
        = (Return response,
           Mock.start Mock.plain_net [] "http://example.com/other")
        /\ CaseInsensitiveDict.getitem (headers response) "Location"
           = Return "https://example.com/other"
        /\ status_code response = Some 302
        /\ reason response = Some _REASON
        /\ resp_url response = Some "http://example.com/other"
        /\ resp_request response = Some 1%nat)
  /\ ForceHTTPSAdapter_send (N := Mock.plain_net) Mock.api_excluded
       (Mock.start Mock.plain_net [] "http://example.com/api/x")
     = (Return Mock.ok_response,
        Mock.start Mock.plain_net [Mock.Sent "http://example.com/api/x"]
          "http://example.com/api/x").
Proof.
  split; [|split].
  - exact (proj1 (ForceHTTPSAdapter_send_cases (N := Mock.plain_net)
                    Mock.api_excluded
                    (Mock.start Mock.plain_net [] "https://example.com/api/x"))
             eq_refl eq_refl).
  - exact (proj1 (proj2 (ForceHTTPSAdapter_send_cases (N := Mock.plain_net)
                           Mock.api_excluded
                           (Mock.start Mock.plain_net []
                              "http://example.com/other")))
             eq_refl eq_refl).
  - rewrite (proj2 (proj2 (ForceHTTPSAdapter_send_cases (N := Mock.plain_net)
               Mock.api_excluded (Mock.start Mock.plain_net [] "http://example.com/api/x")))).
    + reflexivity.
    + intros [H _]. discriminate H.
    + intros [_ H]. discriminate H.
Defined.

(** [a.com] redirects to [b.com], whose request times out: the probe
    returns [a.com]; started at [b.com], it returns [None]. *)
Lemma probe_returns_previous_url_witness :
  _follow_redirects_on_http (N := Mock.timeout_net) Mock.no_exclusions 2
    "http://a.com/" []
  = Some (Return (PyStr "http://a.com/"),
          [Mock.Head "http://a.com/"; Mock.Head "http://b.com/"])
  /\ _follow_redirects_on_http (N := Mock.timeout_net) Mock.no_exclusions 1
       "http://b.com/" []
     = Some (Return PyNone, [Mock.Head "http://b.com/"]).
Proof.
  split.
  - refine (proj1 (probe_returns_previous_url (N := Mock.timeout_net)
                     Mock.no_exclusions "http://a.com/" []
                     ["http://a.com/"] (Some "http://a.com/") "http://b.com/"
                     [Mock.Head "http://a.com/"]
                     [Mock.Head "http://a.com/"; Mock.Head "http://b.com/"]
                     _ _) 2%nat _).
    + eapply probe_visits_next; [apply probe_visits_start | reflexivity].
    + right. left. exists ReadTimeout. reflexivity.
    + simpl. lia.
  - refine (proj1 (probe_returns_previous_url (N := Mock.timeout_net)
                     Mock.no_exclusions "http://b.com/" []
                     [] None "http://b.com/" [] [Mock.Head "http://b.com/"]
                     _ _) 1%nat _).
    + apply probe_visits_start.
    + left. exists ReadTimeout. reflexivity.
    + simpl. lia.
Defined.

(** The example of the specification: [a.com] redirects to [b.com], which
    answers without a [Location]; the caller is sent to [https://a.com/].
    And with [b.com] redirecting to [c.com] the probe returns
    [http://b.com/], and the caller is sent to [https://a.com/] still, not
    to [https://b.com/]. *)
Lemma PreferHTTPSAdapter_send_upgrades_original_witness :
  (exists response,
     PreferHTTPSAdapter_send (N := Mock.hop_net) Mock.no_exclusions 2
       (Mock.start Mock.hop_net [] "http://a.com/")
     = Some (Return response,
             Mock.start Mock.hop_net
               [Mock.Head "http://a.com/"; Mock.Head "http://b.com/"]
               "http://a.com/")
     /\ CaseInsensitiveDict.getitem (headers response) "Location"
        = Return "https://a.com/")
  /\ (exists response,
        PreferHTTPSAdapter_send (N := Mock.chain_net) Mock.no_exclusions 3
          (Mock.start Mock.chain_net [] "http://a.com/")
        = Some (Return response,
                Mock.start Mock.chain_net
                  [Mock.Head "http://a.com/"; Mock.Head "http://b.com/";
                   Mock.Head "http://c.com/"]
                  "http://a.com/")
        /\ CaseInsensitiveDict.getitem (headers response) "Location"
           = Return "https://a.com/"
        /\ status_code response = Some 302
        /\ reason response = Some _REASON
        /\ resp_url response = Some "http://a.com/"
        /\ CaseInsensitiveDict.getitem (headers response) "Location"
           <> Return "https://b.com/").
Proof.
  split.
  - destruct (PreferHTTPSAdapter_send_upgrades_original (N := Mock.hop_net)
                Mock.no_exclusions 2 (Mock.start Mock.hop_net [] "http://a.com/")
                "http://a.com/"
                [Mock.Head "http://a.com/"; Mock.Head "http://b.com/"]
                eq_refl eq_refl eq_refl eq_refl)
      as (response & Hsend & Hl & _).
    exists response. split; assumption.
  - destruct (PreferHTTPSAdapter_send_upgrades_original (N := Mock.chain_net)
                Mock.no_exclusions 3
                (Mock.start Mock.chain_net [] "http://a.com/")
                "http://b.com/"
                [Mock.Head "http://a.com/"; Mock.Head "http://b.com/";
                 Mock.Head "http://c.com/"]
                eq_refl eq_refl eq_refl eq_refl)
      as (response & Hsend & Hl & Hc & Hre & Hu & _ & Hne).
    exists response. repeat (split; [assumption|]).
    apply Hne. intros E. discriminate E.
Defined.

(** The example of the specification: https to [x.com] fails to connect
    and http succeeds; the request ends with its URL set to
    [http://x.com/]. A read timeout on [z.com] is not a categorized
    failure and comes out as it is. *)
Lemma UpgradeHTTPSAdapter_send_fallback_witness :
  UpgradeHTTPSAdapter_send (N := Mock.https_down_net) Mock.no_exclusions
    (Mock.start Mock.https_down_net [] "https://x.com/")
  = (Return Mock.ok_response,
     Mock.start Mock.https_down_net
       [Mock.Sent "https://x.com/"; Mock.Sent "http://x.com/"] "http://x.com/")
  /\ UpgradeHTTPSAdapter_send (N := Mock.https_down_net) Mock.no_exclusions
       (Mock.start Mock.https_down_net [] "https://z.com/")
     = (Raise ReadTimeout,
        Mock.start Mock.https_down_net [Mock.Sent "https://z.com/"]
          "https://z.com/")
  /\ UpgradeHTTPSAdapter_send (N := Mock.https_down_net) Mock.no_exclusions
       (Mock.start Mock.https_down_net [] "http://x.com/")
     = (Return (synthetic_redirect "https://x.com/"
                  (Mock.request_for "http://x.com/")),
        Mock.start Mock.https_down_net [] "http://x.com/").
Proof.
  split; [|split].
  - destruct (proj1 (UpgradeHTTPSAdapter_send_fallback (N := Mock.https_down_net)
                       Mock.no_exclusions
                       (Mock.start Mock.https_down_net [] "https://x.com/"))
                eq_refl ConnectionError
                (Mock.start Mock.https_down_net [Mock.Sent "https://x.com/"]
                   "https://x.com/") eq_refl) as [H _].
    destruct (H eq_refl) as [H1 _]. rewrite H1. reflexivity.
  - destruct (proj1 (UpgradeHTTPSAdapter_send_fallback (N := Mock.https_down_net)
                       Mock.no_exclusions
                       (Mock.start Mock.https_down_net [] "https://z.com/"))
                eq_refl ReadTimeout
                (Mock.start Mock.https_down_net [Mock.Sent "https://z.com/"]
                   "https://z.com/") eq_refl) as [_ H].
    apply H. reflexivity.
  - rewrite (proj2 (UpgradeHTTPSAdapter_send_fallback (N := Mock.https_down_net)
                      Mock.no_exclusions
                      (Mock.start Mock.https_down_net [] "http://x.com/"))
               eq_refl).
    reflexivity.
Defined.

(** [http://w.com/]: the synthesized Location is followed and its answer
    returned. [http://y.com/]: https sends back to the original URL, so the
    adapter settles on http. [http://x.com/]: https fails to connect, with
    the same end. [https://x.com/]: the same fallback when the request came
    in as https. *)
Lemma SafeUpgradeHTTPSAdapter_send_follow_then_fallback_witness :
  SafeUpgradeHTTPSAdapter_send (N := Mock.https_down_net) Mock.no_exclusions
    (Mock.start Mock.https_down_net [] "http://w.com/")
  = (Return Mock.ok_response,
     Mock.start Mock.https_down_net [Mock.Sent "https://w.com/"]
       "https://w.com/")
  /\ SafeUpgradeHTTPSAdapter_send (N := Mock.https_down_net) Mock.no_exclusions
       (Mock.start Mock.https_down_net [] "http://y.com/")
     = (Return Mock.ok_response,
        Mock.start Mock.https_down_net
          [Mock.Sent "https://y.com/"; Mock.Sent "http://y.com/"]
          "http://y.com/")
  /\ SafeUpgradeHTTPSAdapter_send (N := Mock.https_down_net) Mock.no_exclusions
       (Mock.start Mock.https_down_net [] "http://x.com/")
     = (Return Mock.ok_response,
        Mock.start Mock.https_down_net
          [Mock.Sent "https://x.com/"; Mock.Sent "http://x.com/"]
          "http://x.com/")
  /\ SafeUpgradeHTTPSAdapter_send (N := Mock.https_down_net) Mock.no_exclusions
       (Mock.start Mock.https_down_net [] "https://x.com/")
     = (Return Mock.ok_response,
        Mock.start Mock.https_down_net
          [Mock.Sent "https://x.com/"; Mock.Sent "http://x.com/"]
          "http://x.com/").
Proof.
  split; [|split; [|split]].
  - destruct (proj1 (SafeUpgradeHTTPSAdapter_send_follow_then_fallback
                       (N := Mock.https_down_net) Mock.no_exclusions
                       (Mock.start Mock.https_down_net [] "http://w.com/"))
                eq_refl
                (synthetic_redirect "https://w.com/"
                   (Mock.request_for "http://w.com/"))
                (Mock.start Mock.https_down_net [] "http://w.com/")
                "https://w.com/" eq_refl eq_refl eq_refl) as (H & _ & _).
    apply H; [reflexivity|]. left. reflexivity.
  - destruct (proj1 (SafeUpgradeHTTPSAdapter_send_follow_then_fallback
                       (N := Mock.https_down_net) Mock.no_exclusions
                       (Mock.start Mock.https_down_net [] "http://y.com/"))
                eq_refl
                (synthetic_redirect "https://y.com/"
                   (Mock.request_for "http://y.com/"))
                (Mock.start Mock.https_down_net [] "http://y.com/")
                "https://y.com/" eq_refl eq_refl eq_refl) as (_ & H & _).
    rewrite (H (Mock.moved_to "http://y.com/")
               (Mock.start Mock.https_down_net [Mock.Sent "https://y.com/"]
                  "https://y.com/") eq_refl eq_refl);
      [reflexivity|]. intros E. discriminate E.
  - destruct (proj1 (SafeUpgradeHTTPSAdapter_send_follow_then_fallback
                       (N := Mock.https_down_net) Mock.no_exclusions
                       (Mock.start Mock.https_down_net [] "http://x.com/"))
                eq_refl
                (synthetic_redirect "https://x.com/"
                   (Mock.request_for "http://x.com/"))
                (Mock.start Mock.https_down_net [] "http://x.com/")
                "https://x.com/" eq_refl eq_refl eq_refl) as (_ & _ & H).
    rewrite (H ConnectionError
               (Mock.start Mock.https_down_net [Mock.Sent "https://x.com/"]
                  "https://x.com/") eq_refl eq_refl).
    reflexivity.
  - destruct (proj1 (proj2 (SafeUpgradeHTTPSAdapter_send_follow_then_fallback
                              (N := Mock.https_down_net) Mock.no_exclusions
                              (Mock.start Mock.https_down_net []
                                 "https://x.com/")))
                eq_refl) as (_ & H).
    rewrite (H ConnectionError
               (Mock.start Mock.https_down_net [Mock.Sent "https://x.com/"]
                  "https://x.com/") eq_refl eq_refl).
    reflexivity.
Defined.

(** The rule for [example.org] applied to [http://example.org/page]. *)
Lemma HTTPSEverywhereOnlyAdapter_send_rewrite_witness :
  exists response,
    HTTPSEverywhereOnlyAdapter_send (N := Mock.plain_net) (R := Mock.rules)
      HTTPAdapter_send_request
      (Mock.start Mock.plain_net [] "http://example.org/page")
    = (Return response, Mock.start Mock.plain_net [] "http://example.org/page")
    /\ CaseInsensitiveDict.getitem (headers response) "Location"
       = Return "https://example.org/page"
    /\ status_code response = Some 302
    /\ reason response = Some _REASON
    /\ resp_url response = Some "http://example.org/page"
    /\ resp_request response = Some 1%nat.
Proof.
  apply (HTTPSEverywhereOnlyAdapter_send_rewrite (N := Mock.plain_net)
           (R := Mock.rules) HTTPAdapter_send_request
           (Mock.start Mock.plain_net [] "http://example.org/page"));
    reflexivity.
Defined.

(** [http://example.com/other] is upgraded, and the request for
    [https://example.com/other] that follows reaches the transport. *)
Lemma rewrite_not_repeated_witness :
  ForceHTTPSAdapter_send (N := Mock.plain_net) Mock.api_excluded
    (Mock.start Mock.plain_net [] "http://example.com/other")
  = (Return (synthetic_redirect "https://example.com/other"
               (Mock.request_for "http://example.com/other")),
     Mock.start Mock.plain_net [] "http://example.com/other")
  /\ ForceHTTPSAdapter_send (N := Mock.plain_net) Mock.api_excluded
       (Mock.start Mock.plain_net [] "https://example.com/other")
     = HTTPAdapter_send_request
         (Mock.start Mock.plain_net [] "https://example.com/other").
Proof.
  apply (proj2 (proj2 (proj2
           (rewrite_not_repeated (N := Mock.plain_net) (R := Mock.rules)
              (P := Mock.preload []) Mock.api_excluded 1
              HTTPAdapter_send_request
              (Mock.start Mock.plain_net [] "http://example.com/other"))))
           eq_refl eq_refl
           (Mock.start Mock.plain_net [] "https://example.com/other") eq_refl).
Defined.

(** An ftp URL goes through the force layer and through
    [SafeUpgradeHTTPSAdapter] to a transport that answers [200 OK]. *)
Lemma other_schemes_pass_through_witness :
  ForceHTTPSAdapter_send (N := Mock.plain_net) Mock.api_excluded
    (Mock.start Mock.plain_net [] "ftp://example.com/file")
  = (Return Mock.ok_response,
     Mock.start Mock.plain_net [Mock.Sent "ftp://example.com/file"]
       "ftp://example.com/file")
  /\ SafeUpgradeHTTPSAdapter_send (N := Mock.plain_net) Mock.api_excluded
       (Mock.start Mock.plain_net [] "ftp://example.com/file")
     = (Return Mock.ok_response,
        Mock.start Mock.plain_net [Mock.Sent "ftp://example.com/file"]
          "ftp://example.com/file").
Proof.
  destruct (other_schemes_pass_through (N := Mock.plain_net) (R := Mock.rules)
              (P := Mock.preload []) Mock.api_excluded 1
              HTTPAdapter_send_request
              (Mock.start Mock.plain_net [] "ftp://example.com/file")
              eq_refl eq_refl)
    as (_ & _ & _ & _ & Hforce & _ & _ & Hsafe & _).
  split.
  - rewrite Hforce. reflexivity.
  - rewrite Hsafe; [reflexivity|].
    intros r w E. injection E as <- _. intros H. discriminate H.
Defined.

(** [http://w.com/] through [SafeUpgradeHTTPSAdapter]: the lookup on the
    synthesized upgrade gives [https://w.com/], the transport is called
    with it and its answer is returned. *)
Lemma synthetic_responses_carry_location_witness :
  SafeUpgradeHTTPSAdapter_send (N := Mock.https_down_net) Mock.no_exclusions
    (Mock.start Mock.https_down_net [] "http://w.com/")
  = (Return Mock.ok_response,
     Mock.start Mock.https_down_net [Mock.Sent "https://w.com/"]
       "https://w.com/").
Proof.
  rewrite (proj2 (proj2 (proj2 (proj2 (proj2 (proj2 (proj2 (proj2
             (synthetic_responses_carry_location (N := Mock.https_down_net)
                (R := Mock.rules) (P := Mock.preload []) Mock.no_exclusions 1
                HTTPAdapter_send_request
                (Mock.start Mock.https_down_net [] "http://w.com/")))))))))
             eq_refl eq_refl).
  reflexivity.
Defined.

(** * Where the specification says more than the code does *)

(** C9 as stated fails for [SafeUpgradeHTTPSAdapter]: a server that answers
    the ftp URL with the sentinel string as its reason phrase and a
    [Location] has the adapter set the URL of the request to that
    [Location] and return a synthesized redirect. *)
Lemma other_schemes_counterexample :
  Py.startswith "ftp://example.com/file" "http://" = false
  /\ Py.startswith "ftp://example.com/file" "https://" = false
  /\ SafeUpgradeHTTPSAdapter_send (N := Mock.sentinel_net) Mock.no_exclusions
       (Mock.start Mock.sentinel_net [] "ftp://example.com/file")
     = (Return (synthetic_redirect "https://elsewhere.example/"
                  (Mock.request_for "http://elsewhere.example/")),
        Mock.start Mock.sentinel_net [Mock.Sent "ftp://example.com/file"]
          "http://elsewhere.example/")
  /\ SafeUpgradeHTTPSAdapter_send (N := Mock.sentinel_net) Mock.no_exclusions
       (Mock.start Mock.sentinel_net [] "ftp://example.com/file")
     <> HTTPAdapter_send_request
          (Mock.start Mock.sentinel_net [] "ftp://example.com/file").
Proof.
  repeat split. intros H. discriminate H.
Qed.

(** C10 as stated fails: a server of an excluded host that answers with the
    sentinel string as its reason phrase and no [Location] makes the lookup
    raise [KeyError]. *)
Lemma sentinel_lookup_counterexample :
  SafeUpgradeHTTPSAdapter_send (N := Mock.sentinel_net)
    Mock.example_com_excluded
    (Mock.start Mock.sentinel_net [] "http://example.com/")
  = (Raise (KeyError "location"),
     Mock.start Mock.sentinel_net [Mock.Sent "http://example.com/"]
       "http://example.com/").
Proof. reflexivity. Qed.

(** * Further properties of the adapters *)

(** ** Exclusion lists *)

Lemma _prevent_https_app_list (l1 l2 : list string) (tail : string) :
  _prevent_https {| _https_exclusions := (l1 ++ l2)%list |} tail
  = _prevent_https {| _https_exclusions := l1 |} tail
    || _prevent_https {| _https_exclusions := l2 |} tail.
Proof.
  unfold _prevent_https. simpl.
  induction l1 as [|rule l1 IH]; simpl; [reflexivity|].
  destruct (Py.startswith tail rule); [reflexivity|exact IH].
Qed.

(** X1: Exclusion lists compose: the check on two lists put together is the
    disjunction of the checks, a longer list excludes at least as much, the
    empty list excludes nothing, and an empty rule excludes every tail. *)
Theorem _prevent_https_lists (self self' : ForceHTTPSAdapter)
    (l1 l2 : list string) (tail : string) :
  _prevent_https {| _https_exclusions := (l1 ++ l2)%list |} tail
  = _prevent_https {| _https_exclusions := l1 |} tail
    || _prevent_https {| _https_exclusions := l2 |} tail
  /\ _prevent_https {| _https_exclusions := [] |} tail = false
  /\ ("" ∈ _https_exclusions self -> _prevent_https self tail = true)
  /\ (_https_exclusions self ⊆ _https_exclusions self' ->
      _prevent_https self tail = true ->
      _prevent_https self' tail = true).
Proof.
  split; [apply _prevent_https_app_list|]. split; [reflexivity|]. split.
  - intros Hin. apply _prevent_https_iff. exists "". split; [exact Hin|].
    reflexivity.
  - intros Hsub H. apply _prevent_https_iff in H as (rule & Hin & Hs).
    apply _prevent_https_iff. exists rule. split; [apply Hsub, Hin|exact Hs].
Qed.

(** ** The attempt of the probe *)

Section ProbeAttempt.

Context {N : Network}.

Lemma probe_request_ok (current_url : string) (w w' : World) (r : Response) :
  probe_request current_url w = (Return r, w') ->
  raise_for_status r = Return tt.
Proof.
  unfold probe_request.
  destruct (requests_head w current_url) as [[response|e] w1]; [|discriminate].
  destruct (raise_for_status response) as [[]|e] eqn:E.
  - intros H. injection H as <- _. exact E.
  - destruct (ok response) as [truth|e']; [|discriminate].
    destruct (truth && status_code_is response 403); [|discriminate].
    destruct (requests_get w1 current_url) as [[response'|e'] w2];
      [|discriminate].
    destruct (raise_for_status response') as [[]|e'] eqn:E';
      [|discriminate].
    intros H. injection H as <- _. exact E'.
Qed.

(** X2: The GET retry of the probe never runs. A response that
    [raise_for_status] refuses is false as a condition ([Response.__bool__]
    is [ok]), so [response and response.status_code == 403] fails for a 403
    as for any refused status, and the handler raises again: the attempt
    is the HEAD alone, and [requests.get] is not called. *)
Theorem probe_request_head_only (current_url : string) (w : World) :
  probe_request current_url w
  = match requests_head w current_url with
    | (Return response, w1) =>
        match raise_for_status response with
        | Return _ => (Return response, w1)
        | Raise e => (Raise e, w1)
        end
    | (Raise e, w1) => (Raise e, w1)
    end.
Proof.
  unfold probe_request, ok.
  destruct (requests_head w current_url) as [[response|e] w1]; [|reflexivity].
  unfold raise_for_status.
  destruct (status_code response) as [c|]; [|reflexivity].
  destruct ((400 <=? c) && (c <? 600)); reflexivity.
Qed.

End ProbeAttempt.

(** ** The loop of the probe *)

Section ProbeLoop.

Context {N : Network}.

Lemma probe_iteration_continues_http (self : ForceHTTPSAdapter)
    (previous_url : option string) (url_ : string) (w : World)
    (previous_url' url' : string) (w' : World) :
  probe_iteration self previous_url url_ w
  = (Continues previous_url' url', w') ->
  previous_url' = url_ /\ Py.startswith url' "http://" = true.
Proof.
  unfold probe_iteration.
  destruct (probe_request url_ w) as [[response|e] w1]; [|discriminate].
  destruct (CaseInsensitiveDict.get (headers response) "location")
    as [location|]; [|discriminate].
  destruct (negb (Py.truthy location) || String.eqb location url_);
    [discriminate|].
  destruct (Py.startswith location "https:").
  - destruct (_prevent_https self (Py.slice_from 8 location)); discriminate.
  - destruct (Py.startswith location "http://") eqn:E; [|discriminate].
    intros H. injection H as <- <- _. split; [reflexivity|exact E].
Qed.

Lemma probe_iteration_returns_http (self : ForceHTTPSAdapter)
    (previous_url : option string) (url_ : string) (w : World)
    (location : string) (w' : World) :
  (forall p, previous_url = Some p -> Py.startswith p "http://" = true) ->
  probe_iteration self previous_url url_ w = (Returns (PyStr location), w') ->
  Py.startswith location "http://" = true.
Proof.
  intros Hp. unfold probe_iteration.
  assert (Hprev : forall w1 : World,
            (Returns (of_previous_url previous_url), w1)
            = (Returns (PyStr location), w') ->
            Py.startswith location "http://" = true).
  { intros w1 H. destruct previous_url as [p|]; [|discriminate].
    injection H as <- _. apply Hp. reflexivity. }
  destruct (probe_request url_ w) as [[response|e] w1]; [|apply Hprev].
  destruct (CaseInsensitiveDict.get (headers response) "location")
    as [l|]; [|apply Hprev].
  destruct (negb (Py.truthy l) || String.eqb l url_); [apply Hprev|].
  destruct (Py.startswith l "https:").
  - destruct (_prevent_https self (Py.slice_from 8 l)); [|discriminate].
    intros H. injection H as <- _. reflexivity.
  - destruct (Py.startswith l "http://"); discriminate.
Qed.

Lemma probe_loop_returns_http (self : ForceHTTPSAdapter) (fuel : nat) :
  forall (previous_url : option string) (url_ : string) (w : World)
         (location : string) (w' : World),
    (forall p, previous_url = Some p -> Py.startswith p "http://" = true) ->
    Py.startswith url_ "http://" = true ->
    probe_loop self fuel previous_url url_ w
    = Some (Return (PyStr location), w') ->
    Py.startswith location "http://" = true.
Proof.
  induction fuel as [|fuel IH]; intros previous_url url_ w location w' Hp Hu H;
    [discriminate|].
  simpl in H.
  destruct (probe_iteration self previous_url url_ w) as [[v|e|p u] w1] eqn:Hi.
  - injection H as -> ->. eapply probe_iteration_returns_http; eassumption.
  - discriminate.
  - apply probe_iteration_continues_http in Hi as [-> Hu'].
    eapply IH; [|exact Hu'|exact H].
    intros p' E. injection E as <-. exact Hu.
Qed.

Lemma probe_loop_response_ok (self : ForceHTTPSAdapter) (fuel : nat)
    (previous_url : option string) (url_ : string) (w w' : World)
    (r : Response) :
  probe_loop self fuel previous_url url_ w = Some (Return (PyResponse r), w') ->
  ok r = Return true.
Proof.
  intros H. apply probe_loop_response in H as (current_url & w1 & H).
  apply probe_request_ok in H. unfold ok. rewrite H. reflexivity.
Qed.

(** X3: Started on an http URL, the probe speaks http only: every URL it goes
    on to request starts with [http://], and so does every URL it returns.
    It never follows a redirect to https. *)
Theorem probe_stays_on_http (self : ForceHTTPSAdapter) (url0 : string)
    (w0 : World) :
  Py.startswith url0 "http://" = true ->
  (forall (visited : list string) (previous_url : option string)
          (url_ : string) (w : World),
     probe_visits self url0 w0 visited previous_url url_ w ->
     Py.startswith url_ "http://" = true
     /\ Forall (fun u => Py.startswith u "http://" = true) visited)
  /\ (forall (fuel : nat) (location : string) (w' : World),
        _follow_redirects_on_http self fuel url0 w0
        = Some (Return (PyStr location), w') ->
        Py.startswith location "http://" = true).
Proof.
  intros H0. split.
  - intros visited previous_url url_ w Hv.
    induction Hv as [|visited p u w p' u' w' _ [IHu IHv] Hi].
    + split; [exact H0|constructor].
    + apply probe_iteration_continues_http in Hi as [_ Hu'].
      split; [exact Hu'|]. constructor; assumption.
  - intros fuel location w'. unfold _follow_redirects_on_http.
    apply probe_loop_returns_http; [discriminate|exact H0].
Qed.

(** X4: The probe has no memory of the URLs it has requested beyond the
    current one: when the redirects it meets keep it inside a set of
    states, it never ends, and no amount of fuel gives a result. Two hosts
    that redirect to each other are enough. *)
Theorem probe_runs_forever_on_a_cycle (self : ForceHTTPSAdapter)
    (inside : option string -> string -> World -> Prop) :
  (forall (previous_url : option string) (url_ : string) (w : World),
     inside previous_url url_ w ->
     exists (previous_url' url' : string) (w' : World),
       probe_iteration self previous_url url_ w
       = (Continues previous_url' url', w')
       /\ inside (Some previous_url') url' w') ->
  forall (fuel : nat) (previous_url : option string) (url_ : string)
         (w : World),
    inside previous_url url_ w ->
    probe_loop self fuel previous_url url_ w = None.
Proof.
  intros Hstep fuel. induction fuel as [|fuel IH]; intros p u w Hin;
    [reflexivity|].
  destruct (Hstep p u w Hin) as (p' & u' & w' & Hi & Hin').
  simpl. rewrite Hi. apply IH, Hin'.
Qed.

Lemma probe_loop_https_location (self : ForceHTTPSAdapter) (fuel : nat)
    (previous_url : option string) (url_ : string) (w w' : World)
    (response : Response) (location : string) :
  probe_request url_ w = (Return response, w') ->
  CaseInsensitiveDict.get (headers response) "location" = Some location ->
  location <> url_ ->
  Py.startswith location "https:" = true ->
  probe_loop self (S fuel) previous_url url_ w
  = Some (Return (if _prevent_https self (Py.slice_from 8 location)
                  then PyStr ("http://" ++ Py.slice_from 8 location)
                  else PyResponse response), w').
Proof.
  intros Hr Hl Hne Hs. simpl. unfold probe_iteration. rewrite Hr, Hl, Hs.
  assert (Ht : Py.truthy location = true).
  { apply truthy_nonempty. intros E. rewrite E in Hs. discriminate Hs. }
  rewrite Ht. destruct (String.eqb_spec location url_); [contradiction|].
  simpl. destruct (_prevent_https self (Py.slice_from 8 location));
    reflexivity.
Qed.

(** [PreferHTTPSAdapter.send] on an http URL that is not excluded, by what
    the probe gives. *)
Lemma PreferHTTPSAdapter_send_by_probe (self : ForceHTTPSAdapter)
    (fuel : nat) (s : Store) :
  Py.startswith (url (request s)) "http://" = true ->
  _prevent_https self (Py.slice_from 7 (url (request s))) = false ->
  PreferHTTPSAdapter_send self fuel s
  = match _follow_redirects_on_http self fuel (url (request s)) (net s) with
    | None => None
    | Some (Raise e, w) => Some (Raise e, {| net := w; request := request s |})
    | Some (Return (PyResponse r), w) =>
        Some (Return r, {| net := w; request := request s |})
    | Some (Return _, w) =>
        Some (Return (synthetic_redirect
                        ("https://" ++ Py.slice_from 7 (url (request s)))
                        (request s)),
              {| net := w; request := request s |})
    end.
Proof.
  intros Hh Hp. unfold PreferHTTPSAdapter_send.
  rewrite (http_not_https _ Hh), Hh, Hp. simpl.
  destruct (_follow_redirects_on_http self fuel (url (request s)) (net s))
    as [[[redirect|e] w]|] eqn:Ep; [|reflexivity..].
  unfold PreferHTTPSAdapter_send_probed, bind, the_request, lift, ret, raise.
  simpl. destruct redirect as [|redirect|response].
  - reflexivity.
  - apply probe_loop_returns_http in Ep; [|discriminate|exact Hh].
    rewrite Ep.
    destruct (Py.truthy redirect); [|reflexivity].
    destruct (negb (String.eqb redirect (url (request s)))); reflexivity.
  - rewrite (probe_loop_response_ok _ _ _ _ _ _ _ Ep). reflexivity.
Qed.

(** X5: On an http URL that is not excluded, [PreferHTTPSAdapter.send] ends in
    one of three ways: it returns the response of the probe, it raises what
    the probe raised, or, whatever URL the probe returned, it returns a
    response whose [Location] is [https://] + the tail of the request URL,
    with the status 302, the sentinel reason and the URL of the request.
    The request keeps its URL and the world is the one the probe left: the
    transport is not called, and the [RuntimeError] of [send] itself
    ("Unexpectedly ... redirected to ...") is out of reach. *)
Theorem PreferHTTPSAdapter_send_outcomes (self : ForceHTTPSAdapter)
    (fuel : nat) (s s' : Store) (outcome : result Response) :
  Py.startswith (url (request s)) "http://" = true ->
  _prevent_https self (Py.slice_from 7 (url (request s))) = false ->
  PreferHTTPSAdapter_send self fuel s = Some (outcome, s') ->
  request s' = request s
  /\ ((exists r,
         outcome = Return r
         /\ _follow_redirects_on_http self fuel (url (request s)) (net s)
            = Some (Return (PyResponse r), net s'))
      \/ (exists e,
            outcome = Raise e
            /\ _follow_redirects_on_http self fuel (url (request s)) (net s)
               = Some (Raise e, net s'))
      \/ (exists response,
            outcome = Return response
            /\ CaseInsensitiveDict.getitem (headers response) "Location"
               = Return ("https://" ++ Py.slice_from 7 (url (request s)))
            /\ status_code response = Some 302
            /\ reason response = Some _REASON
            /\ resp_url response = Some (url (request s))
            /\ resp_request response = Some (req_id (request s))
            /\ exists v,
                 _follow_redirects_on_http self fuel (url (request s)) (net s)
                 = Some (Return v, net s')
                 /\ forall r, v <> PyResponse r)).
Proof.
  intros Hh Hp. rewrite (PreferHTTPSAdapter_send_by_probe self fuel s Hh Hp).
  pose proof (synthetic_redirect_fields
                ("https://" ++ Py.slice_from 7 (url (request s)))
                (request s)) as (Hl & Hc & Hre & Hu & Hq).
  destruct (_follow_redirects_on_http self fuel (url (request s)) (net s))
    as [[[v|e] w]|] eqn:Ep; [| |discriminate].
  - destruct v as [|location|r]; intros H; injection H as <- <-;
      (split; [reflexivity|]).
    + right. right. eexists. split; [reflexivity|].
      repeat (split; [assumption|]). exists PyNone.
      split; [reflexivity|discriminate].
    + right. right. eexists. split; [reflexivity|].
      repeat (split; [assumption|]). exists (PyStr location).
      split; [reflexivity|discriminate].
    + left. exists r. split; reflexivity.
  - intros H. injection H as <- <-. split; [reflexivity|].
    right. left. exists e. split; reflexivity.
Qed.

End ProbeLoop.

Section ProbeAndSend.

Context {N : Network}.

(** X6: When the probe, wherever its loop has arrived, gets a [Location] that
    starts with [https:] (and is not the URL just requested), it stops: it
    returns [http://] + [location[8:]] if that tail is excluded, and the
    response itself otherwise. [PreferHTTPSAdapter.send] returns that
    response as its own result; in the excluded case it does not use the
    URL it was given and answers, as ever, with a response whose
    [Location] is [https://] + the tail of the request URL. *)
Theorem PreferHTTPSAdapter_send_https_location (self : ForceHTTPSAdapter)
    (s : Store) (visited : list string) (previous_url : option string)
    (url_ : string) (w w' : World) (response : Response) (location : string)
    (fuel : nat) :
  probe_visits self (url (request s)) (net s) visited previous_url url_ w ->
  probe_request url_ w = (Return response, w') ->
  CaseInsensitiveDict.get (headers response) "location" = Some location ->
  location <> url_ ->
  Py.startswith location "https:" = true ->
  (List.length visited < fuel)%nat ->
  _follow_redirects_on_http self fuel (url (request s)) (net s)
  = Some (Return (if _prevent_https self (Py.slice_from 8 location)
                  then PyStr ("http://" ++ Py.slice_from 8 location)
                  else PyResponse response), w')
  /\ (Py.startswith (url (request s)) "http://" = true ->
      _prevent_https self (Py.slice_from 7 (url (request s))) = false ->
      (_prevent_https self (Py.slice_from 8 location) = false ->
       PreferHTTPSAdapter_send self fuel s
       = Some (Return response, {| net := w'; request := request s |}))
      /\ (_prevent_https self (Py.slice_from 8 location) = true ->
          exists answer,
            PreferHTTPSAdapter_send self fuel s
            = Some (Return answer, {| net := w'; request := request s |})
            /\ CaseInsensitiveDict.getitem (headers answer) "Location"
               = Return ("https://" ++ Py.slice_from 7 (url (request s)))
            /\ status_code answer = Some 302
            /\ reason answer = Some _REASON
            /\ resp_url answer = Some (url (request s))
            /\ resp_request answer = Some (req_id (request s)))).
Proof.
  intros Hv Hr Hl Hne Hs Hfuel.
  assert (Hprobe :
            _follow_redirects_on_http self fuel (url (request s)) (net s)
            = Some (Return (if _prevent_https self (Py.slice_from 8 location)
                            then PyStr ("http://" ++ Py.slice_from 8 location)
                            else PyResponse response), w')).
  { unfold _follow_redirects_on_http.
    replace fuel
      with (List.length visited + S (fuel - S (List.length visited)))%nat
      by lia.
    rewrite (probe_loop_visits _ _ _ _ _ _ _ Hv).
    apply probe_loop_https_location; assumption. }
  split; [exact Hprobe|].
  intros Hh Hp. rewrite (PreferHTTPSAdapter_send_by_probe self fuel s Hh Hp).
  rewrite Hprobe. split; intros He; rewrite He; [reflexivity|].
  eexists. split; [reflexivity|]. apply synthetic_redirect_fields.
Qed.

Lemma PreferHTTPSAdapter_send_as_force_lemma (self : ForceHTTPSAdapter)
    (fuel : nat) (s : Store) :
  ~ (Py.startswith (url (request s)) "http://" = true
     /\ _prevent_https self (Py.slice_from 7 (url (request s))) = false) ->
  PreferHTTPSAdapter_send self fuel s = Some (ForceHTTPSAdapter_send self s).
Proof.
  intros H. unfold PreferHTTPSAdapter_send.
  destruct (Py.startswith (url (request s)) "https://") eqn:Es.
  - destruct (_prevent_https self (Py.slice_from 8 (url (request s)))) eqn:Ep;
      [|reflexivity].
    rewrite (ForceHTTPSAdapter_send_downgrade self s Es Ep). reflexivity.
  - destruct (Py.startswith (url (request s)) "http://") eqn:Eh; [|reflexivity].
    destruct (_prevent_https self (Py.slice_from 7 (url (request s)))) eqn:Ep;
      [reflexivity|].
    exfalso. apply H. split; reflexivity.
Qed.

(** X7: Outside the one case it probes (an http URL that is not excluded),
    [PreferHTTPSAdapter.send] does what [ForceHTTPSAdapter.send] does,
    whatever the fuel: the subclass changes the upgrade only. *)
Theorem PreferHTTPSAdapter_send_as_force (self : ForceHTTPSAdapter)
    (fuel : nat) (s : Store) :
  ~ (Py.startswith (url (request s)) "http://" = true
     /\ _prevent_https self (Py.slice_from 7 (url (request s))) = false) ->
  PreferHTTPSAdapter_send self fuel s = Some (ForceHTTPSAdapter_send self s).
Proof. apply PreferHTTPSAdapter_send_as_force_lemma. Qed.

End ProbeAndSend.

(** ** The preload adapter and the combined adapter *)

Lemma preload_location (u : string) :
  Py.startswith u "http://" = true ->
  "https:" ++ Py.slice_from 5 u = "https://" ++ Py.slice_from 7 u.
Proof.
  intros H. apply startswith_slice in H. simpl String.length in H.
  set (t := Py.slice_from 7 u) in *. clearbody t. rewrite H. reflexivity.
Qed.

Section PreloadProperties.

Context {N : Network} {R : RuleSource} {P : PreloadSource}.

Lemma ChromePreloadHSTSAdapter_send_match (super_send : M Response)
    (s : Store) (host : option string) :
  Py.startswith (url (request s)) "http://" = true ->
  parse_url_host (url (request s)) = Return host ->
  _check_in _preload_including_subdomains host = true ->
  ChromePreloadHSTSAdapter_send super_send s
  = (Return (synthetic_redirect
               ("https://" ++ Py.slice_from 7 (url (request s))) (request s)),
     s).
Proof.
  intros Hh Hp Hc.
  unfold ChromePreloadHSTSAdapter_send, bind, the_request, lift.
  rewrite Hh, Hp, Hc, (preload_location _ Hh). reflexivity.
Qed.

Lemma ChromePreloadHSTSAdapter_send_refused (super_send : M Response)
    (s : Store) (e : exn) :
  Py.startswith (url (request s)) "http://" = true ->
  parse_url_host (url (request s)) = Raise e ->
  ChromePreloadHSTSAdapter_send super_send s = (Raise e, s).
Proof.
  intros Hh Hp.
  unfold ChromePreloadHSTSAdapter_send, bind, the_request, lift.
  rewrite Hh, Hp. reflexivity.
Qed.

Lemma ChromePreloadHSTSAdapter_send_decline (super_send : M Response)
    (s : Store) (host : option string) :
  Py.startswith (url (request s)) "http://" = true ->
  parse_url_host (url (request s)) = Return host ->
  _check_in _preload_including_subdomains host = false ->
  ChromePreloadHSTSAdapter_send super_send s = super_send s.
Proof.
  intros Hh Hp Hc.
  unfold ChromePreloadHSTSAdapter_send, bind, the_request, lift.
  rewrite Hh, Hp, Hc. reflexivity.
Qed.

(** X8: [ChromePreloadHSTSAdapter.send] on an http URL: for a host on the
    preload list it answers, without calling the next layer, with a
    response whose [Location], built as [https:] + [url[5:]], is
    [https://] + [url[7:]]: the request URL with the scheme changed and
    nothing else (the very answer [ForceHTTPSAdapter] gives a tail that is
    not excluded), with the status 302, the sentinel reason and the URL of
    the request; a URL that [parse_url] refuses makes [send] raise that
    error, the next layer not being called either; a host off the list
    goes to the next layer. *)
Theorem ChromePreloadHSTSAdapter_send_cases (self : ForceHTTPSAdapter)
    (super_send : M Response) (s : Store) :
  Py.startswith (url (request s)) "http://" = true ->
  (forall host : option string,
     parse_url_host (url (request s)) = Return host ->
     _check_in _preload_including_subdomains host = true ->
     (exists response,
        ChromePreloadHSTSAdapter_send super_send s = (Return response, s)
        /\ CaseInsensitiveDict.getitem (headers response) "Location"
           = Return ("https:" ++ Py.slice_from 5 (url (request s)))
        /\ CaseInsensitiveDict.getitem (headers response) "Location"
           = Return ("https://" ++ Py.slice_from 7 (url (request s)))
        /\ status_code response = Some 302
        /\ reason response = Some _REASON
        /\ resp_url response = Some (url (request s))
        /\ resp_request response = Some (req_id (request s)))
     /\ (_prevent_https self (Py.slice_from 7 (url (request s))) = false ->
         ChromePreloadHSTSAdapter_send super_send s
         = ForceHTTPSAdapter_send self s))
  /\ (forall e : exn,
        parse_url_host (url (request s)) = Raise e ->
        ChromePreloadHSTSAdapter_send super_send s = (Raise e, s))
  /\ (forall host : option string,
        parse_url_host (url (request s)) = Return host ->
        _check_in _preload_including_subdomains host = false ->
        ChromePreloadHSTSAdapter_send super_send s = super_send s).
Proof.
  intros Hh. split; [|split].
  - intros host Hp Hc.
    pose proof (ChromePreloadHSTSAdapter_send_match super_send s host
                  Hh Hp Hc) as Hm.
    split.
    + eexists. split; [exact Hm|].
      pose proof (synthetic_redirect_fields
                    ("https://" ++ Py.slice_from 7 (url (request s)))
                    (request s)) as (Hl & Hrest).
      split; [rewrite (preload_location _ Hh); exact Hl|].
      split; [exact Hl|exact Hrest].
    + intros He. rewrite (ForceHTTPSAdapter_send_upgrade self s Hh He).
      exact Hm.
  - intros e Hp. apply ChromePreloadHSTSAdapter_send_refused; assumption.
  - intros host Hp Hc.
    eapply ChromePreloadHSTSAdapter_send_decline; eassumption.
Qed.

(** X9: [HTTPSEverywhereAdapter], the preload adapter above the rule adapter:
    for an http URL the preload list is asked first. A host on it is
    answered with [Location: https://] + tail, whatever the rule set would
    rewrite the URL to; a URL that [parse_url] refuses raises even where a
    rule applies; for a host off the list the rule set decides: the
    [Location] is its rewrite when that starts with [https://], and
    otherwise the request is left to the transport. *)
Theorem HTTPSEverywhereAdapter_send_priority (s : Store) :
  Py.startswith (url (request s)) "http://" = true ->
  (forall host : option string,
     parse_url_host (url (request s)) = Return host ->
     _check_in _preload_including_subdomains host = true ->
     exists response,
       HTTPSEverywhereAdapter_send s = (Return response, s)
       /\ CaseInsensitiveDict.getitem (headers response) "Location"
          = Return ("https://" ++ Py.slice_from 7 (url (request s)))
       /\ status_code response = Some 302
       /\ reason response = Some _REASON
       /\ resp_url response = Some (url (request s))
       /\ resp_request response = Some (req_id (request s)))
  /\ (forall e : exn,
        parse_url_host (url (request s)) = Raise e ->
        HTTPSEverywhereAdapter_send s = (Raise e, s))
  /\ (forall host : option string,
        parse_url_host (url (request s)) = Return host ->
        _check_in _preload_including_subdomains host = false ->
        (Py.startswith (https_url_rewrite (url (request s))) "https://" = true ->
         exists response,
           HTTPSEverywhereAdapter_send s = (Return response, s)
           /\ CaseInsensitiveDict.getitem (headers response) "Location"
              = Return (https_url_rewrite (url (request s)))
           /\ status_code response = Some 302
           /\ reason response = Some _REASON
           /\ resp_url response = Some (url (request s))
           /\ resp_request response = Some (req_id (request s)))
        /\ (Py.startswith (https_url_rewrite (url (request s))) "https://"
            = false ->
            HTTPSEverywhereAdapter_send s = HTTPAdapter_send_request s)).
Proof.
  intros Hh. unfold HTTPSEverywhereAdapter_send. split; [|split].
  - intros host Hp Hc. eexists. split.
    + eapply ChromePreloadHSTSAdapter_send_match; eassumption.
    + apply synthetic_redirect_fields.
  - intros e Hp. apply ChromePreloadHSTSAdapter_send_refused; assumption.
  - intros host Hp Hc.
    rewrite (ChromePreloadHSTSAdapter_send_decline _ s host Hh Hp Hc). split.
    + intros Hr. eexists. split.
      * apply HTTPSEverywhereOnlyAdapter_send_match; assumption.
      * apply synthetic_redirect_fields.
    + intros Hr. apply HTTPSEverywhereOnlyAdapter_send_pass. right. exact Hr.
Qed.

End PreloadProperties.

(** ** The fallback adapters, from the transport's side *)

Section FallbackEndToEnd.

Context {N : Network}.

(** X10: [UpgradeHTTPSAdapter.send] on an https URL that is not excluded, in
    terms of the transport alone: the request is sent as it is; an answer
    is returned; a categorized failure is followed by one call of the
    transport with the URL set to [http://] + tail, whose outcome, answer
    or exception of any kind, is the outcome of [send]; any other failure
    comes out as it is, the request untouched. *)
Theorem UpgradeHTTPSAdapter_send_by_transport (self : ForceHTTPSAdapter)
    (s : Store) :
  Py.startswith (url (request s)) "https://" = true ->
  _prevent_https self (Py.slice_from 8 (url (request s))) = false ->
  UpgradeHTTPSAdapter_send self s
  = match HTTPAdapter_send (net s) (request s) with
    | (Return r, w) => (Return r, {| net := w; request := request s |})
    | (Raise e, w) =>
        if _https_downgrade_exceptions e
        then
          let request' :=
            Request_set_url (request s)
              ("http://" ++ Py.slice_from 8 (url (request s))) in
          let (outcome, w') := HTTPAdapter_send w request' in
          (outcome, {| net := w'; request := request' |})
        else (Raise e, {| net := w; request := request s |})
    end.
Proof.
  intros Hs Hp.
  assert (Hf : ForceHTTPSAdapter_send self s = HTTPAdapter_send_request s).
  { apply ForceHTTPSAdapter_send_forward.
    - intros [_ H]. congruence.
    - intros [H _]. rewrite (https_not_http _ Hs) in H. discriminate H. }
  unfold UpgradeHTTPSAdapter_send, bind, try_except, request_url,
    assign_request_url, ret.
  rewrite Hs. simpl. rewrite Hf. unfold HTTPAdapter_send_request.
  destruct (HTTPAdapter_send (net s) (request s)) as [[r|e] w]; simpl;
    [reflexivity|].
  destruct (_https_downgrade_exceptions e); reflexivity.
Qed.

(** X11: [SafeUpgradeHTTPSAdapter.send] on an https URL that is not excluded,
    in terms of the transport alone: an answer is returned unless its
    [Location] is the request URL; that self-redirect, like a categorized
    failure, is followed by one call of the transport with the URL set to
    [http://] + tail, whose outcome is the outcome of [send]; any other
    failure comes out as it is. *)
Theorem SafeUpgradeHTTPSAdapter_send_by_transport (self : ForceHTTPSAdapter)
    (s : Store) :
  Py.startswith (url (request s)) "https://" = true ->
  _prevent_https self (Py.slice_from 8 (url (request s))) = false ->
  let request' :=
    Request_set_url (request s)
      ("http://" ++ Py.slice_from 8 (url (request s))) in
  let fallback (w : World) :=
    let (outcome, w') := HTTPAdapter_send w request' in
    (outcome, {| net := w'; request := request' |}) in
  SafeUpgradeHTTPSAdapter_send self s
  = match HTTPAdapter_send (net s) (request s) with
    | (Return r, w) =>
        match CaseInsensitiveDict.get (headers r) "location" with
        | Some redirect =>
            if String.eqb redirect (url (request s)) then fallback w
            else (Return r, {| net := w; request := request s |})
        | None => (Return r, {| net := w; request := request s |})
        end
    | (Raise e, w) =>
        if _https_downgrade_exceptions e then fallback w
        else (Raise e, {| net := w; request := request s |})
    end.
Proof.
  intros Hs Hp request' fallback. subst request' fallback.
  assert (Hf : ForceHTTPSAdapter_send self s = HTTPAdapter_send_request s).
  { apply ForceHTTPSAdapter_send_forward.
    - intros [_ H]. congruence.
    - intros [H _]. rewrite (https_not_http _ Hs) in H. discriminate H. }
  assert (Hne : Py.truthy (url (request s)) = true).
  { apply startswith_slice in Hs. rewrite Hs. reflexivity. }
  unfold SafeUpgradeHTTPSAdapter_send, bind, try_except, request_url, lift,
    assign_request_url, ret.
  rewrite Hs. simpl. rewrite Hf. unfold HTTPAdapter_send_request.
  destruct (HTTPAdapter_send (net s) (request s)) as [[r|e] w]; simpl.
  - destruct (CaseInsensitiveDict.get (headers r) "location") as [redirect|];
      [|reflexivity].
    destruct (String.eqb_spec redirect (url (request s))) as [->|];
      [rewrite Hne|rewrite orb_true_r]; reflexivity.
  - destruct (_https_downgrade_exceptions e); reflexivity.
Qed.

(** X12: What [SafeUpgradeHTTPSAdapter.send] does not catch. On a request that
    is not https the first send stands outside the [try]: its exception
    comes out as it is, categorized or not, and so does the [KeyError] of
    the lookup when the answer has the sentinel reason and no [Location].
    And a failure of the second send that is not categorized comes out as
    it is. *)
Theorem SafeUpgradeHTTPSAdapter_send_unhandled (self : ForceHTTPSAdapter)
    (s : Store) :
  Py.startswith (url (request s)) "https://" = false ->
  (forall (e : exn) (s1 : Store),
     ForceHTTPSAdapter_send self s = (Raise e, s1) ->
     SafeUpgradeHTTPSAdapter_send self s = (Raise e, s1))
  /\ (forall (r1 : Response) (s1 : Store),
        ForceHTTPSAdapter_send self s = (Return r1, s1) ->
        reason r1 = Some _REASON ->
        CaseInsensitiveDict.get (headers r1) "location" = None ->
        SafeUpgradeHTTPSAdapter_send self s = (Raise (KeyError "location"), s1))
  /\ (forall (r1 : Response) (s1 s2 : Store) (loc : string) (e : exn),
        ForceHTTPSAdapter_send self s = (Return r1, s1) ->
        reason r1 = Some _REASON ->
        CaseInsensitiveDict.getitem (headers r1) "location" = Return loc ->
        ForceHTTPSAdapter_send self
          {| net := net s1; request := Request_set_url (request s) loc |}
        = (Raise e, s2) ->
        _https_downgrade_exceptions e = false ->
        SafeUpgradeHTTPSAdapter_send self s = (Raise e, s2)).
Proof.
  intros Hs. split; [|split].
  - intros e s1 H.
    unfold SafeUpgradeHTTPSAdapter_send, bind, request_url.
    rewrite Hs. simpl. rewrite H. reflexivity.
  - intros r1 s1 H Hr Hl.
    unfold SafeUpgradeHTTPSAdapter_send, bind, request_url, lift.
    rewrite Hs. simpl. rewrite H, (reason_differs_sentinel _ Hr).
    unfold CaseInsensitiveDict.get in Hl.
    destruct (CaseInsensitiveDict.getitem (headers r1) "location")
      as [v|e] eqn:E; [discriminate|].
    unfold CaseInsensitiveDict.getitem in E.
    destruct (headers r1 !! Py.lower "location") as [[k v]|]; [discriminate|].
    injection E as <-. reflexivity.
  - intros r1 s1 s2 loc e H Hr Hl H2 He.
    exact (proj2 (SafeUpgrade_follow_failure self s s1 s2 r1 loc e
                    Hs H Hr Hl H2) He).
Qed.

End FallbackEndToEnd.

(** ** RedirectAdapter with any [get_redirect] *)

Section RedirectAdapterProperties.

Context {N : Network}.

Lemma handle_error_raises_again (s : Store) :
  try_except HTTPAdapter_send_request (fun _ => true) handle_error s
  = HTTPAdapter_send_request s.
Proof.
  unfold try_except, handle_error, raise.
  destruct (HTTPAdapter_send_request s) as [[r|e] s']; reflexivity.
Qed.

(** X13: [RedirectAdapter.send] for a subclass's [get_redirect]. An answer of
    [None], of an empty URL or of the request's own URL (alone or in a
    pair) sends the request to the transport, whose exceptions
    [handle_error] raises again as they are: a URL is never redirected to
    itself. Another URL gives, without the transport, a response with that
    [Location], the status of the pair (302 for a URL alone), the reason
    [FAKE REASON], which is not the sentinel of [_generate_redirect], and
    the [url] of the request. A response given as the answer is returned
    with the request and its URL attached. *)
Theorem RedirectAdapter_send_cases (answer : string -> redirect_answer)
    (s : Store) :
  let u := url (request s) in
  (answer u = AnswerNone ->
   RedirectAdapter_send answer s = HTTPAdapter_send_request s)
  /\ (forall (l : string) (code : Z),
        answer u = AnswerUrl l \/ answer u = AnswerTuple l code ->
        l = "" \/ l = u ->
        RedirectAdapter_send answer s = HTTPAdapter_send_request s)
  /\ (forall (l : string) (code : Z),
        answer u = AnswerUrl l /\ code = 302
        \/ answer u = AnswerTuple l code ->
        l <> "" ->
        l <> u ->
        exists response,
          RedirectAdapter_send answer s = (Return response, s)
          /\ CaseInsensitiveDict.getitem (headers response) "location"
             = Return l
          /\ status_code response = Some code
          /\ reason response = Some "FAKE REASON"
          /\ reason_differs response _REASON = true
          /\ resp_url response = Some u
          /\ resp_request response = Some (req_id (request s)))
  /\ (forall rv : Response,
        answer u = AnswerResponse rv ->
        RedirectAdapter_send answer s
        = (Return (set_url (set_request rv (request s)) u), s)).
Proof.
  intros u. subst u. split; [|split; [|split]].
  - intros H. unfold RedirectAdapter_send, bind, the_request. rewrite H.
    apply handle_error_raises_again.
  - intros l code H Hl.
    assert (Hc : Py.truthy l && negb (String.eqb l (url (request s))) = false).
    { destruct Hl as [-> | ->]; [reflexivity|].
      rewrite String.eqb_refl. apply andb_false_r. }
    unfold RedirectAdapter_send, bind, the_request.
    destruct H as [H|H]; rewrite H, Hc; apply handle_error_raises_again.
  - intros l code H Hne Hu.
    assert (Hc : Py.truthy l && negb (String.eqb l (url (request s))) = true).
    { apply truthy_nonempty in Hne. rewrite Hne.
      destruct (String.eqb_spec l (url (request s))); [contradiction|].
      reflexivity. }
    unfold RedirectAdapter_send, bind, the_request.
    destruct H as [[H ->]|H]; rewrite H, Hc; eexists;
      (split; [reflexivity|]);
      (split; [apply getitem_setitem; reflexivity|]); repeat split.
  - intros rv H. unfold RedirectAdapter_send, bind, the_request. rewrite H.
    reflexivity.
Qed.

End RedirectAdapterProperties.

(** ** One scheme for each tail, and requests left as they are *)

Section SchemeAndRequest.

Context {N : Network} {R : RuleSource} {P : PreloadSource}.

(** X14: [ForceHTTPSAdapter.send] gives every tail one scheme: of the two
    requests [http://] + tail and [https://] + tail, one reaches the
    transport and the other is answered with a response whose [Location]
    is the URL of the first; which one depends on the exclusion of the
    tail alone. *)
Theorem ForceHTTPSAdapter_send_one_scheme (self : ForceHTTPSAdapter)
    (s_http s_https : Store) (tail : string) :
  url (request s_http) = "http://" ++ tail ->
  url (request s_https) = "https://" ++ tail ->
  (_prevent_https self tail = true
   /\ ForceHTTPSAdapter_send self s_http = HTTPAdapter_send_request s_http
   /\ exists response,
        ForceHTTPSAdapter_send self s_https = (Return response, s_https)
        /\ CaseInsensitiveDict.getitem (headers response) "Location"
           = Return (url (request s_http))
        /\ status_code response = Some 302
        /\ reason response = Some _REASON
        /\ resp_url response = Some (url (request s_https)))
  \/ (_prevent_https self tail = false
      /\ ForceHTTPSAdapter_send self s_https
         = HTTPAdapter_send_request s_https
      /\ exists response,
           ForceHTTPSAdapter_send self s_http = (Return response, s_http)
           /\ CaseInsensitiveDict.getitem (headers response) "Location"
              = Return (url (request s_https))
           /\ status_code response = Some 302
           /\ reason response = Some _REASON
           /\ resp_url response = Some (url (request s_http))).
Proof.
  intros Hh Hs.
  destruct (_prevent_https self tail) eqn:Ep; [left|right];
    (split; [reflexivity|]); split.
  - apply (ForceHTTPSAdapter_send_http_excluded self s_http tail Hh Ep).
  - exists (synthetic_redirect ("http://" ++ tail) (request s_https)). split.
    + rewrite <- (slice_from_https tail), <- Hs.
      apply ForceHTTPSAdapter_send_downgrade.
      * rewrite Hs. apply startswith_app.
      * rewrite Hs, slice_from_https. exact Ep.
    + rewrite Hh.
      pose proof (synthetic_redirect_fields ("http://" ++ tail)
                    (request s_https)) as (Hl & Hc & Hr & Hu & _).
      repeat split; assumption.
  - apply (ForceHTTPSAdapter_send_https_allowed self s_https tail Hs Ep).
  - exists (synthetic_redirect ("https://" ++ tail) (request s_http)). split.
    + rewrite <- (slice_from_http tail), <- Hh.
      apply ForceHTTPSAdapter_send_upgrade.
      * rewrite Hh. apply startswith_app.
      * rewrite Hh, slice_from_http. exact Ep.
    + rewrite Hs.
      pose proof (synthetic_redirect_fields ("https://" ++ tail)
                    (request s_http)) as (Hl & Hc & Hr & Hu & _).
      repeat split; assumption.
Qed.

Lemma RedirectAdapter_send_request (answer : string -> redirect_answer)
    (s : Store) :
  request (snd (RedirectAdapter_send answer s)) = request s.
Proof.
  pose proof (HTTPAdapter_send_request_request s) as Hq.
  unfold RedirectAdapter_send, bind, the_request, try_except, handle_error,
    raise.
  destruct (answer (url (request s))) as [|rv|u code|u];
    try destruct (Py.truthy u && negb (String.eqb u (url (request s))));
    try reflexivity;
    destruct (HTTPAdapter_send_request s) as [[r|e] s']; exact Hq.
Qed.

Lemma HTTPSEverywhereAdapter_send_request (s : Store) :
  request (snd (HTTPSEverywhereAdapter_send s)) = request s.
Proof.
  unfold HTTPSEverywhereAdapter_send.
  destruct (ChromePreloadHSTSAdapter_send_origin
              (HTTPSEverywhereOnlyAdapter_send HTTPAdapter_send_request) s)
    as [E|[[location E]|(e & _ & E)]]; rewrite E; try reflexivity.
  destruct (HTTPSEverywhereOnlyAdapter_send_origin HTTPAdapter_send_request s)
    as [E'|[location E']]; rewrite E'; [|reflexivity].
  apply HTTPAdapter_send_request_request.
Qed.

Lemma PreferHTTPSAdapter_send_request (self : ForceHTTPSAdapter) (fuel : nat)
    (s s' : Store) (outcome : result Response) :
  PreferHTTPSAdapter_send self fuel s = Some (outcome, s') ->
  request s' = request s.
Proof.
  destruct (Py.startswith (url (request s)) "http://") eqn:Eh.
  - destruct (_prevent_https self (Py.slice_from 7 (url (request s)))) eqn:Ep.
    + rewrite PreferHTTPSAdapter_send_as_force_lemma
        by (intros [_ H]; congruence).
      intros H. injection H as H.
      rewrite <- (ForceHTTPSAdapter_send_request self s), H. reflexivity.
    + rewrite (PreferHTTPSAdapter_send_by_probe self fuel s Eh Ep).
      destruct (_follow_redirects_on_http self fuel (url (request s)) (net s))
        as [[[[|l|r]|e] w]|]; intros H; try discriminate;
        injection H as _ <-; reflexivity.
  - rewrite PreferHTTPSAdapter_send_as_force_lemma
      by (intros [H _]; congruence).
    intros H. injection H as H.
    rewrite <- (ForceHTTPSAdapter_send_request self s), H. reflexivity.
Qed.

(** X15: The adapters that rewrite by answering leave the request as it is:
    after [send] of [ForceHTTPSAdapter], of [PreferHTTPSAdapter], of the
    combined rule and preload adapter and of [RedirectAdapter] the request
    has the URL it came with, whatever the outcome. [UpgradeHTTPSAdapter]
    is the same object with the same URL or, for an https request, with
    [http://] + tail. *)
Theorem request_left_as_it_is (self : ForceHTTPSAdapter) (fuel : nat)
    (answer : string -> redirect_answer) (s : Store) :
  request (snd (ForceHTTPSAdapter_send self s)) = request s
  /\ (forall (outcome : result Response) (s' : Store),
        PreferHTTPSAdapter_send self fuel s = Some (outcome, s') ->
        request s' = request s)
  /\ request (snd (HTTPSEverywhereAdapter_send s)) = request s
  /\ request (snd (RedirectAdapter_send answer s)) = request s
  /\ (request (snd (UpgradeHTTPSAdapter_send self s)) = request s
      \/ (Py.startswith (url (request s)) "https://" = true
          /\ request (snd (UpgradeHTTPSAdapter_send self s))
             = Request_set_url (request s)
                 ("http://" ++ Py.slice_from 8 (url (request s))))).
Proof.
  split; [apply ForceHTTPSAdapter_send_request|].
  split; [intros outcome s'; apply PreferHTTPSAdapter_send_request|].
  split; [apply HTTPSEverywhereAdapter_send_request|].
  split; [apply RedirectAdapter_send_request|].
  pose proof (ForceHTTPSAdapter_send_request self s) as Hq.
  unfold UpgradeHTTPSAdapter_send, bind, try_except, request_url,
    assign_request_url, ret.
  destruct (Py.startswith (url (request s)) "https://") eqn:Es; simpl.
  - destruct (ForceHTTPSAdapter_send self s) as [[r|e] s1]; simpl in *;
      [left; exact Hq|].
    destruct (_https_downgrade_exceptions e); simpl; [|left; exact Hq].
    right. split; [reflexivity|].
    rewrite HTTPAdapter_send_request_request. simpl. rewrite Hq. reflexivity.
  - left. destruct (ForceHTTPSAdapter_send self s) as [[r|e] s1]; exact Hq.
Qed.

End SchemeAndRequest.

(** * Concrete runs of the further properties *)

(** An empty rule excludes a tail, and a list that grows keeps its
    exclusions. *)
Lemma _prevent_https_lists_witness :
  _prevent_https {| _https_exclusions := ["a.com"; ""] |} "example.com/x" = true
  /\ _prevent_https {| _https_exclusions := ["a.com"; "example.com/api"] |}
       "example.com/api/x" = true.
Proof.
  split.
  - apply (_prevent_https_lists {| _https_exclusions := ["a.com"; ""] |}
             Mock.no_exclusions [] [] "example.com/x").
    apply elem_of_cons. right. apply elem_of_cons. left. reflexivity.
  - apply (proj2 (proj2 (proj2
             (_prevent_https_lists Mock.api_excluded
                {| _https_exclusions := ["a.com"; "example.com/api"] |}
                [] [] "example.com/api/x")))); [|reflexivity].
    intros rule Hin. apply elem_of_cons. right. exact Hin.
Defined.

(** The probe started on [http://a.com/] returns an http URL. *)
Lemma probe_stays_on_http_witness :
  Py.startswith "http://b.com/" "http://" = true.
Proof.
  apply (proj2 (probe_stays_on_http (N := Mock.chain_net) Mock.no_exclusions
                  "http://a.com/" [] eq_refl)
           3%nat "http://b.com/"
           [Mock.Head "http://a.com/"; Mock.Head "http://b.com/";
            Mock.Head "http://c.com/"]).
  reflexivity.
Defined.

(** [a.com] and [b.com] redirect to each other: the probe is still running
    after a thousand requests. *)
Lemma probe_runs_forever_on_a_cycle_witness :
  _follow_redirects_on_http (N := Mock.pingpong_net) Mock.no_exclusions 1000
    "http://a.com/" []
  = None.
Proof.
  apply (probe_runs_forever_on_a_cycle (N := Mock.pingpong_net)
           Mock.no_exclusions
           (fun _ u _ => u = "http://a.com/" \/ u = "http://b.com/")).
  - intros p u w [-> | ->].
    + exists "http://a.com/", "http://b.com/",
        (w ++ [Mock.Head "http://a.com/"])%list.
      split; [reflexivity|right; reflexivity].
    + exists "http://b.com/", "http://a.com/",
        (w ++ [Mock.Head "http://b.com/"])%list.
      split; [reflexivity|left; reflexivity].
  - left. reflexivity.
Defined.

(** The run of [a.com], [b.com], [c.com]: the request is untouched and the
    outcome is a response with [Location: https://a.com/]. *)
Lemma PreferHTTPSAdapter_send_outcomes_witness :
  exists response,
    PreferHTTPSAdapter_send (N := Mock.chain_net) Mock.no_exclusions 3
      (Mock.start Mock.chain_net [] "http://a.com/")
    = Some (Return response,
            Mock.start Mock.chain_net
              [Mock.Head "http://a.com/"; Mock.Head "http://b.com/";
               Mock.Head "http://c.com/"] "http://a.com/")
    /\ CaseInsensitiveDict.getitem (headers response) "Location"
       = Return "https://a.com/"
    /\ status_code response = Some 302
    /\ reason response = Some _REASON
    /\ resp_url response = Some "http://a.com/".
Proof.
  destruct (PreferHTTPSAdapter_send_outcomes (N := Mock.chain_net)
              Mock.no_exclusions 3
              (Mock.start Mock.chain_net [] "http://a.com/")
              (Mock.start Mock.chain_net
                 [Mock.Head "http://a.com/"; Mock.Head "http://b.com/";
                  Mock.Head "http://c.com/"] "http://a.com/")
              (Return (synthetic_redirect "https://a.com/"
                         (Mock.request_for "http://a.com/")))
              eq_refl eq_refl eq_refl)
    as (_ & [(r & _ & H) | [(e & H & _) | (response & H & Hl & Hc & Hr & Hu & _)]]).
  - discriminate H.
  - discriminate H.
  - exists response. injection H as <-.
    split; [reflexivity|]. repeat split; assumption.
Defined.

(** [a.com] redirects to [https://secure.example/x]. With [secure.example]
    excluded the probe returns [http://secure.example/x] and the caller is
    sent to [https://a.com/]; with no exclusion the caller gets the
    response of [a.com]. *)
Lemma PreferHTTPSAdapter_send_https_location_witness :
  (_follow_redirects_on_http (N := Mock.to_https_net) Mock.secure_excluded 1
     "http://a.com/" []
   = Some (Return (PyStr "http://secure.example/x"),
           [Mock.Head "http://a.com/"])
   /\ exists answer,
        PreferHTTPSAdapter_send (N := Mock.to_https_net) Mock.secure_excluded
          1 (Mock.start Mock.to_https_net [] "http://a.com/")
        = Some (Return answer,
                Mock.start Mock.to_https_net [Mock.Head "http://a.com/"]
                  "http://a.com/")
        /\ CaseInsensitiveDict.getitem (headers answer) "Location"
           = Return "https://a.com/"
        /\ status_code answer = Some 302
        /\ reason answer = Some _REASON
        /\ resp_url answer = Some "http://a.com/"
        /\ resp_request answer = Some 1%nat)
  /\ PreferHTTPSAdapter_send (N := Mock.to_https_net) Mock.no_exclusions 1
       (Mock.start Mock.to_https_net [] "http://a.com/")
     = Some (Return (Mock.moved_to "https://secure.example/x"),
             Mock.start Mock.to_https_net [Mock.Head "http://a.com/"]
               "http://a.com/").
Proof.
  assert (Hne : "https://secure.example/x" <> "http://a.com/")
    by (intros E; discriminate E).
  assert (Hfuel : (List.length (@nil string) < 1)%nat) by (simpl; lia).
  split.
  - destruct (PreferHTTPSAdapter_send_https_location (N := Mock.to_https_net)
                Mock.secure_excluded
                (Mock.start Mock.to_https_net [] "http://a.com/")
                [] None "http://a.com/" [] [Mock.Head "http://a.com/"]
                (Mock.moved_to "https://secure.example/x")
                "https://secure.example/x" 1
                (probe_visits_start _ _ _) eq_refl eq_refl Hne eq_refl Hfuel)
      as [H1 H2].
    split; [exact H1|].
    exact (proj2 (H2 eq_refl eq_refl) eq_refl).
  - destruct (PreferHTTPSAdapter_send_https_location (N := Mock.to_https_net)
                Mock.no_exclusions
                (Mock.start Mock.to_https_net [] "http://a.com/")
                [] None "http://a.com/" [] [Mock.Head "http://a.com/"]
                (Mock.moved_to "https://secure.example/x")
                "https://secure.example/x" 1
                (probe_visits_start _ _ _) eq_refl eq_refl Hne eq_refl Hfuel)
      as [_ H2].
    exact (proj1 (H2 eq_refl eq_refl) eq_refl).
Defined.

(** On an https URL the probing adapter is the force adapter. *)
Lemma PreferHTTPSAdapter_send_as_force_witness :
  PreferHTTPSAdapter_send (N := Mock.plain_net) Mock.api_excluded 0
    (Mock.start Mock.plain_net [] "https://example.com/api/x")
  = Some (ForceHTTPSAdapter_send (N := Mock.plain_net) Mock.api_excluded
            (Mock.start Mock.plain_net [] "https://example.com/api/x")).
Proof.
  apply (PreferHTTPSAdapter_send_as_force (N := Mock.plain_net)
           Mock.api_excluded 0
           (Mock.start Mock.plain_net [] "https://example.com/api/x")).
  intros [H _]. discriminate H.
Defined.

(** With [example.org] preloaded: its page is answered with
    [Location: https://example.org/page], a URL whose host opens a bracket
    and does not close it is refused by the parser, and another host goes
    to the transport. *)
Lemma ChromePreloadHSTSAdapter_send_cases_witness :
  (exists response,
     ChromePreloadHSTSAdapter_send (N := Mock.plain_net)
       (P := Mock.strict_preload ["example.org"]) HTTPAdapter_send_request
       (Mock.start Mock.plain_net [] "http://example.org/page")
     = (Return response,
        Mock.start Mock.plain_net [] "http://example.org/page")
     /\ CaseInsensitiveDict.getitem (headers response) "Location"
        = Return "https://example.org/page"
     /\ status_code response = Some 302
     /\ reason response = Some _REASON
     /\ resp_url response = Some "http://example.org/page")
  /\ ChromePreloadHSTSAdapter_send (N := Mock.plain_net)
       (P := Mock.strict_preload ["example.org"]) HTTPAdapter_send_request
       (Mock.start Mock.plain_net [] "http://[::1/page")
     = (Raise (OtherException "LocationParseError"),
        Mock.start Mock.plain_net [] "http://[::1/page")
  /\ ChromePreloadHSTSAdapter_send (N := Mock.plain_net)
       (P := Mock.strict_preload ["example.org"]) HTTPAdapter_send_request
       (Mock.start Mock.plain_net [] "http://example.com/api/x")
     = (Return Mock.ok_response,
        Mock.start Mock.plain_net [Mock.Sent "http://example.com/api/x"]
          "http://example.com/api/x").
Proof.
  split; [|split].
  - destruct (proj1
                (proj1 (ChromePreloadHSTSAdapter_send_cases
                          (N := Mock.plain_net)
                          (P := Mock.strict_preload ["example.org"])
                          Mock.no_exclusions HTTPAdapter_send_request
                          (Mock.start Mock.plain_net []
                             "http://example.org/page")
                          eq_refl)
                   (Some "example.org") eq_refl eq_refl))
      as (response & Hsend & _ & Hl & Hc & Hr & Hu & _).
    exists response. repeat split; assumption.
  - apply (proj1 (proj2
             (ChromePreloadHSTSAdapter_send_cases (N := Mock.plain_net)
                (P := Mock.strict_preload ["example.org"])
                Mock.no_exclusions HTTPAdapter_send_request
                (Mock.start Mock.plain_net [] "http://[::1/page") eq_refl))
             (OtherException "LocationParseError") eq_refl).
  - rewrite (proj2 (proj2
               (ChromePreloadHSTSAdapter_send_cases (N := Mock.plain_net)
                  (P := Mock.strict_preload ["example.org"])
                  Mock.no_exclusions HTTPAdapter_send_request
                  (Mock.start Mock.plain_net [] "http://example.com/api/x")
                  eq_refl))
               (Some "example.com") eq_refl eq_refl).
    reflexivity.
Defined.

(** With the rule for [example.org], which rewrites to https: a preloaded
    [example.org] is answered by the preload list and, off the list, by
    the rule, with the same [Location] here; a URL the parser refuses
    raises although the rule would rewrite it; off the list, a URL the
    rules leave alone goes to the transport. *)
Lemma HTTPSEverywhereAdapter_send_priority_witness :
  (exists response,
     HTTPSEverywhereAdapter_send (N := Mock.plain_net) (R := Mock.rules)
       (P := Mock.strict_preload ["example.org"])
       (Mock.start Mock.plain_net [] "http://example.org/page")
     = (Return response,
        Mock.start Mock.plain_net [] "http://example.org/page")
     /\ CaseInsensitiveDict.getitem (headers response) "Location"
        = Return "https://example.org/page")
  /\ (exists response,
        HTTPSEverywhereAdapter_send (N := Mock.plain_net) (R := Mock.rules)
          (P := Mock.strict_preload [])
          (Mock.start Mock.plain_net [] "http://example.org/page")
        = (Return response,
           Mock.start Mock.plain_net [] "http://example.org/page")
        /\ CaseInsensitiveDict.getitem (headers response) "Location"
           = Return "https://example.org/page")
  /\ (Py.startswith
        (https_url_rewrite (RuleSource := Mock.rules)
           "http://example.org[/page") "https://" = true
      /\ HTTPSEverywhereAdapter_send (N := Mock.plain_net) (R := Mock.rules)
           (P := Mock.strict_preload ["example.org"])
           (Mock.start Mock.plain_net [] "http://example.org[/page")
         = (Raise (OtherException "LocationParseError"),
            Mock.start Mock.plain_net [] "http://example.org[/page"))
  /\ HTTPSEverywhereAdapter_send (N := Mock.plain_net) (R := Mock.rules)
       (P := Mock.strict_preload ["example.org"])
       (Mock.start Mock.plain_net [] "http://example.com/api/x")
     = (Return Mock.ok_response,
        Mock.start Mock.plain_net [Mock.Sent "http://example.com/api/x"]
          "http://example.com/api/x").
Proof.
  split; [|split; [|split]].
  - destruct (proj1 (HTTPSEverywhereAdapter_send_priority (N := Mock.plain_net)
                       (R := Mock.rules)
                       (P := Mock.strict_preload ["example.org"])
                       (Mock.start Mock.plain_net []
                          "http://example.org/page")
                       eq_refl)
                (Some "example.org") eq_refl eq_refl)
      as (response & Hsend & Hl & _).
    exists response. split; assumption.
  - destruct (proj1 (proj2 (proj2
                (HTTPSEverywhereAdapter_send_priority (N := Mock.plain_net)
                   (R := Mock.rules) (P := Mock.strict_preload [])
                   (Mock.start Mock.plain_net [] "http://example.org/page")
                   eq_refl))
                (Some "example.org") eq_refl eq_refl) eq_refl)
      as (response & Hsend & Hl & _).
    exists response. split; assumption.
  - split; [reflexivity|].
    apply (proj1 (proj2
             (HTTPSEverywhereAdapter_send_priority (N := Mock.plain_net)
                (R := Mock.rules)
                (P := Mock.strict_preload ["example.org"])
                (Mock.start Mock.plain_net [] "http://example.org[/page")
                eq_refl))
             (OtherException "LocationParseError") eq_refl).
  - rewrite (proj2 (proj2 (proj2
               (HTTPSEverywhereAdapter_send_priority (N := Mock.plain_net)
                  (R := Mock.rules)
                  (P := Mock.strict_preload ["example.org"])
                  (Mock.start Mock.plain_net [] "http://example.com/api/x")
                  eq_refl))
               (Some "example.com") eq_refl eq_refl) eq_refl).
    reflexivity.
Defined.

(** [x.com] refuses https and answers over http; for [v.com], unknown to
    the network over both schemes, the failure of the http retry comes
    out. *)
Lemma UpgradeHTTPSAdapter_send_by_transport_witness :
  UpgradeHTTPSAdapter_send (N := Mock.https_down_net) Mock.no_exclusions
    (Mock.start Mock.https_down_net [] "https://x.com/")
  = (Return Mock.ok_response,
     Mock.start Mock.https_down_net
       [Mock.Sent "https://x.com/"; Mock.Sent "http://x.com/"] "http://x.com/")
  /\ UpgradeHTTPSAdapter_send (N := Mock.https_down_net) Mock.no_exclusions
       (Mock.start Mock.https_down_net [] "https://v.com/")
     = (Raise ConnectionError,
        Mock.start Mock.https_down_net
          [Mock.Sent "https://v.com/"; Mock.Sent "http://v.com/"]
          "http://v.com/").
Proof.
  split.
  - rewrite (UpgradeHTTPSAdapter_send_by_transport (N := Mock.https_down_net)
               Mock.no_exclusions
               (Mock.start Mock.https_down_net [] "https://x.com/")
               eq_refl eq_refl).
    reflexivity.
  - rewrite (UpgradeHTTPSAdapter_send_by_transport (N := Mock.https_down_net)
               Mock.no_exclusions
               (Mock.start Mock.https_down_net [] "https://v.com/")
               eq_refl eq_refl).
    reflexivity.
Defined.

(** [https://w.com/] answers and the answer is returned; [https://x.com/]
    fails to connect and is retried over http; the read timeout of
    [https://z.com/] comes out as it is. *)
Lemma SafeUpgradeHTTPSAdapter_send_by_transport_witness :
  SafeUpgradeHTTPSAdapter_send (N := Mock.https_down_net) Mock.no_exclusions
    (Mock.start Mock.https_down_net [] "https://w.com/")
  = (Return Mock.ok_response,
     Mock.start Mock.https_down_net [Mock.Sent "https://w.com/"]
       "https://w.com/")
  /\ SafeUpgradeHTTPSAdapter_send (N := Mock.https_down_net) Mock.no_exclusions
       (Mock.start Mock.https_down_net [] "https://x.com/")
     = (Return Mock.ok_response,
        Mock.start Mock.https_down_net
          [Mock.Sent "https://x.com/"; Mock.Sent "http://x.com/"]
          "http://x.com/")
  /\ SafeUpgradeHTTPSAdapter_send (N := Mock.https_down_net) Mock.no_exclusions
       (Mock.start Mock.https_down_net [] "https://z.com/")
     = (Raise ReadTimeout,
        Mock.start Mock.https_down_net [Mock.Sent "https://z.com/"]
          "https://z.com/").
Proof.
  split; [|split].
  - rewrite (SafeUpgradeHTTPSAdapter_send_by_transport
               (N := Mock.https_down_net) Mock.no_exclusions
               (Mock.start Mock.https_down_net [] "https://w.com/")
               eq_refl eq_refl).
    reflexivity.
  - rewrite (SafeUpgradeHTTPSAdapter_send_by_transport
               (N := Mock.https_down_net) Mock.no_exclusions
               (Mock.start Mock.https_down_net [] "https://x.com/")
               eq_refl eq_refl).
    reflexivity.
  - rewrite (SafeUpgradeHTTPSAdapter_send_by_transport
               (N := Mock.https_down_net) Mock.no_exclusions
               (Mock.start Mock.https_down_net [] "https://z.com/")
               eq_refl eq_refl).
    reflexivity.
Defined.

(** An excluded host that refuses the connection over http: the failure,
    though categorized, comes out of [send]. *)
Lemma SafeUpgradeHTTPSAdapter_send_unhandled_witness :
  SafeUpgradeHTTPSAdapter_send (N := Mock.plain_net)
    Mock.example_com_excluded
    (Mock.start Mock.plain_net [] "http://example.com/down")
  = (Raise ConnectionError,
     Mock.start Mock.plain_net [Mock.Sent "http://example.com/down"]
       "http://example.com/down").
Proof.
  apply (proj1 (SafeUpgradeHTTPSAdapter_send_unhandled (N := Mock.plain_net)
                  Mock.example_com_excluded
                  (Mock.start Mock.plain_net [] "http://example.com/down")
                  eq_refl)).
  reflexivity.
Defined.

(** A [get_redirect] that always answers [http://x.com/]: the request for
    that URL goes to the transport, and another request is redirected to
    it. *)
Lemma RedirectAdapter_send_cases_witness :
  RedirectAdapter_send (N := Mock.https_down_net)
    (Mock.always_to "http://x.com/")
    (Mock.start Mock.https_down_net [] "http://x.com/")
  = (Return Mock.ok_response,
     Mock.start Mock.https_down_net [Mock.Sent "http://x.com/"]
       "http://x.com/")
  /\ exists response,
       RedirectAdapter_send (N := Mock.https_down_net)
         (Mock.always_to "http://x.com/")
         (Mock.start Mock.https_down_net [] "http://y.com/")
       = (Return response, Mock.start Mock.https_down_net [] "http://y.com/")
       /\ CaseInsensitiveDict.getitem (headers response) "location"
          = Return "http://x.com/"
       /\ status_code response = Some 302
       /\ reason response = Some "FAKE REASON"
       /\ reason_differs response _REASON = true
       /\ resp_url response = Some "http://y.com/"
       /\ resp_request response = Some 1%nat.
Proof.
  split.
  - rewrite (proj1 (proj2
               (RedirectAdapter_send_cases (N := Mock.https_down_net)
                  (Mock.always_to "http://x.com/")
                  (Mock.start Mock.https_down_net [] "http://x.com/")))
               "http://x.com/" 302 (or_introl eq_refl) (or_intror eq_refl)).
    reflexivity.
  - apply (proj1 (proj2 (proj2
             (RedirectAdapter_send_cases (N := Mock.https_down_net)
                (Mock.always_to "http://x.com/")
                (Mock.start Mock.https_down_net [] "http://y.com/"))))
             "http://x.com/" 302 (or_introl (conj eq_refl eq_refl))).
    + intros E. discriminate E.
    + intros E. discriminate E.
Defined.

(** With [example.com/api] excluded, the tail [example.com/other] is pinned
    to https: the https request reaches the transport and the http request
    is answered with [Location: https://example.com/other]. *)
Lemma ForceHTTPSAdapter_send_one_scheme_witness :
  ForceHTTPSAdapter_send (N := Mock.plain_net) Mock.api_excluded
    (Mock.start Mock.plain_net [] "https://example.com/other")
  = (Return Mock.ok_response,
     Mock.start Mock.plain_net [Mock.Sent "https://example.com/other"]
       "https://example.com/other")
  /\ exists response,
       ForceHTTPSAdapter_send (N := Mock.plain_net) Mock.api_excluded
         (Mock.start Mock.plain_net [] "http://example.com/other")
       = (Return response,
          Mock.start Mock.plain_net [] "http://example.com/other")
       /\ CaseInsensitiveDict.getitem (headers response) "Location"
          = Return "https://example.com/other"
       /\ status_code response = Some 302
       /\ reason response = Some _REASON
       /\ resp_url response = Some "http://example.com/other".
Proof.
  destruct (ForceHTTPSAdapter_send_one_scheme (N := Mock.plain_net)
              Mock.api_excluded
              (Mock.start Mock.plain_net [] "http://example.com/other")
              (Mock.start Mock.plain_net [] "https://example.com/other")
              "example.com/other" eq_refl eq_refl)
    as [(Hp & _) | (_ & Hforward & response & Hsend & Hfields)].
  - discriminate Hp.
  - split.
    + rewrite Hforward. reflexivity.
    + exists response. split; [exact Hsend|exact Hfields].
Defined.

(** After the probe of [a.com], [b.com], [c.com] the request is the one
    that came in. *)
Lemma request_left_as_it_is_witness :
  request (Mock.start Mock.chain_net
             [Mock.Head "http://a.com/"; Mock.Head "http://b.com/";
              Mock.Head "http://c.com/"] "http://a.com/")
  = request (Mock.start Mock.chain_net [] "http://a.com/").
Proof.
  apply (proj1 (proj2
           (request_left_as_it_is (N := Mock.chain_net) (R := Mock.rules)
              (P := Mock.preload []) Mock.no_exclusions 3
              (Mock.always_to "http://x.com/")
              (Mock.start Mock.chain_net [] "http://a.com/")))
           (Return (synthetic_redirect "https://a.com/"
                      (Mock.request_for "http://a.com/")))).
  reflexivity.
Defined.
